(** * quicly: a shallow embedding of the connection engine (lib/quicly.c)

    The development follows the layout of the C source.  Integers of the
    source are [Z] with the wrap-around of their width written out, octet
    strings are [list Z], the khash table of streams is a [gmap], and the
    functions that mutate a connection are written in a small state and
    error monad whose state is the connection. *)

From Stdlib Require Import ZArith Lia List Bool.
From stdpp Require Import base option list gmap strings.

Local Open Scope Z_scope.

(** ** Return codes *)

(** The error codes the source names ([quicly/error.h] and picotls).  A
    non-zero [int] result of the source is an [error]; the result [0] is
    [Ok].  [QUICLY_ERROR_FLOW_CONTROL_ERROR] is the kind the specification
    lists next to the placeholder [QUICLY_ERROR_TBD]; [OTHER_ERROR] stands
    for the codes a TLS provider or a host callback may return. *)
Inductive error : Type :=
| QUICLY_ERROR_INVALID_PACKET_HEADER
| QUICLY_ERROR_INVALID_FRAME_DATA
| QUICLY_ERROR_INVALID_STREAM_DATA
| QUICLY_ERROR_DECRYPTION_FAILURE
| QUICLY_ERROR_PACKET_IGNORED
| QUICLY_ERROR_VERSION_NEGOTIATION_MISMATCH
| QUICLY_ERROR_HANDSHAKE_TOO_LARGE
| QUICLY_ERROR_FIN_CLOSED
| QUICLY_ERROR_TOO_MANY_OPEN_STREAMS
| QUICLY_ERROR_FLOW_CONTROL_ERROR
| QUICLY_ERROR_TBD
| PTLS_ERROR_NO_MEMORY
| PTLS_ERROR_IN_PROGRESS
| PTLS_ALERT_DECODE_ERROR
| PTLS_ALERT_ILLEGAL_PARAMETER
| OTHER_ERROR (code : Z).

(** The outcome of a call: a value, an error code, an aborted process (a
    failed [assert] or an access through a dangling or null pointer), or a
    loop that did not finish within the fuel it was given. *)
Inductive result (A : Type) : Type :=
| Ok (a : A)
| Err (e : error)
| Abort
| OutOfFuel.

Arguments Ok {A} a.
Arguments Err {A} e.
Arguments Abort {A}.
Arguments OutOfFuel {A}.

(** ** The state and error monad *)

Definition M (S A : Type) : Type := S -> result A * S.

Definition mret {S A} (a : A) : M S A := fun s => (Ok a, s).

Definition mbind {S A B} (m : M S A) (k : A -> M S B) : M S B :=
  fun s =>
    match m s with
    | (Ok a, s') => k a s'
    | (Err e, s') => (Err e, s')
    | (Abort, s') => (Abort, s')
    | (OutOfFuel, s') => (OutOfFuel, s')
    end.

Definition fail {S A} (e : error) : M S A := fun s => (Err e, s).
Definition abort {S A} : M S A := fun s => (Abort, s).
Definition out_of_fuel {S A} : M S A := fun s => (OutOfFuel, s).
Definition get {S} : M S S := fun s => (Ok s, s).
Definition gets {S A} (f : S -> A) : M S A := fun s => (Ok (f s), s).
Definition modify {S} (f : S -> S) : M S unit := fun s => (Ok tt, f s).
Definition assert {S} (b : bool) : M S unit := if b then mret tt else abort.
Definition lift_result {S A} (r : result A) : M S A := fun s => (r, s).

Notation "'let*' x ':=' m 'in' k" := (mbind m (fun x => k))
  (at level 10, x pattern, m at level 200, k at level 200).
Notation "m ';;' k" := (mbind m (fun _ => k))
  (at level 100, k at level 200, right associativity).

(** A computation [m] relates the state before to the state after by [R],
    whatever its outcome.  For a reflexive and transitive [R] this is closed
    under the monad's operations, which turns a frame property of a large
    function into one of its primitives. *)
Definition preserves {S A} (R : S -> S -> Prop) (m : M S A) : Prop :=
  forall s, R s (m s).2.

(** ** Octets *)

Definition UINT64_MAX : Z := 2 ^ 64 - 1.
Definition UINT16_MAX : Z := 2 ^ 16 - 1.
Definition wrap64 (z : Z) : Z := z mod 2 ^ 64.
Definition wrap32 (z : Z) : Z := z mod 2 ^ 32.
Definition wrap128 (z : Z) : Z := z mod 2 ^ 128.

(** Big-endian value of an octet string ([quicly_decodev]). *)
Definition be_decode (bs : list Z) : Z := fold_left (fun acc b => acc * 256 + b) bs 0.

(** Big-endian octets of [v] on [n] octets ([quicly_encode16/32/64]). *)
Fixpoint be_encode (n : nat) (v : Z) : list Z :=
  match n with
  | O => []
  | S n' => (v / 256 ^ Z.of_nat n') mod 256 :: be_encode n' v
  end.

(** [fnv1a(hash, p, end)]: the loop over the octets between the pointers. *)
Fixpoint fnv1a (hash : Z) (p : list Z) : Z :=
  match p with
  | [] => hash
  | b :: p' => fnv1a (wrap64 (Z.lxor hash b * 1099511628211)) p'
  end.

Definition FNV1A_OFFSET_BASIS : Z := 14695981039346656037.

(** picotls' bounded readers: [ptls_decode16] and [ptls_decode32] fail with
    a decode error when fewer octets remain than they need. *)
Definition ptls_decode16 (src : list Z) : result (Z * list Z) :=
  if (length src <? 2)%nat then Err PTLS_ALERT_DECODE_ERROR
  else Ok (be_decode (take 2 src), drop 2 src).

Definition ptls_decode32 (src : list Z) : result (Z * list Z) :=
  if (length src <? 4)%nat then Err PTLS_ALERT_DECODE_ERROR
  else Ok (be_decode (take 4 src), drop 4 src).

(** The opening of [ptls_decode_open_block(src, end, capacity, ...)]: a
    length on [capacity] octets, then that many octets, which become the
    block; the result is the block and what follows it. *)
Definition ptls_open_block (capacity : nat) (src : list Z) : result (list Z * list Z) :=
  if (length src <? capacity)%nat then Err PTLS_ALERT_DECODE_ERROR
  else
    let size := Z.to_nat (be_decode (take capacity src)) in
    let src' := drop capacity src in
    if (length src' <? size)%nat then Err PTLS_ALERT_DECODE_ERROR
    else Ok (take size src', drop size src').

(** The closing of a block: the body must have read it to its end. *)
Definition ptls_block_close (src : list Z) : result unit :=
  match src with
  | [] => Ok tt
  | _ => Err PTLS_ALERT_DECODE_ERROR
  end.

(** ** Transport parameters *)

Record quicly_transport_parameters_t : Type := {
  initial_max_stream_data : Z;
  initial_max_data_kb : Z;
  initial_max_stream_id : Z;
  idle_timeout : Z;
  truncate_connection_id : bool
}.

Definition transport_params_before_handshake : quicly_transport_parameters_t :=
  {| initial_max_stream_data := 8192; initial_max_data_kb := 16;
     initial_max_stream_id := 100; idle_timeout := 60;
     truncate_connection_id := false |}.

Definition QUICLY_PROTOCOL_VERSION : Z := 0xff000005.
Definition QUICLY_TLS_EXTENSION_TYPE_TRANSPORT_PARAMETERS : Z := 26.
Definition QUICLY_TRANSPORT_PARAMETER_ID_INITIAL_MAX_STREAM_DATA : Z := 0.
Definition QUICLY_TRANSPORT_PARAMETER_ID_INITIAL_MAX_DATA : Z := 1.
Definition QUICLY_TRANSPORT_PARAMETER_ID_INITIAL_MAX_STREAM_ID : Z := 2.
Definition QUICLY_TRANSPORT_PARAMETER_ID_IDLE_TIMEOUT : Z := 3.
Definition QUICLY_TRANSPORT_PARAMETER_ID_TRUNCATE_CONNECTION_ID : Z := 4.

Definition set_initial_max_stream_data (v : Z) (p : quicly_transport_parameters_t) :=
  {| initial_max_stream_data := v; initial_max_data_kb := initial_max_data_kb p;
     initial_max_stream_id := initial_max_stream_id p; idle_timeout := idle_timeout p;
     truncate_connection_id := truncate_connection_id p |}.
Definition set_initial_max_data_kb (v : Z) (p : quicly_transport_parameters_t) :=
  {| initial_max_stream_data := initial_max_stream_data p; initial_max_data_kb := v;
     initial_max_stream_id := initial_max_stream_id p; idle_timeout := idle_timeout p;
     truncate_connection_id := truncate_connection_id p |}.
Definition set_initial_max_stream_id (v : Z) (p : quicly_transport_parameters_t) :=
  {| initial_max_stream_data := initial_max_stream_data p;
     initial_max_data_kb := initial_max_data_kb p;
     initial_max_stream_id := v; idle_timeout := idle_timeout p;
     truncate_connection_id := truncate_connection_id p |}.
Definition set_idle_timeout (v : Z) (p : quicly_transport_parameters_t) :=
  {| initial_max_stream_data := initial_max_stream_data p;
     initial_max_data_kb := initial_max_data_kb p;
     initial_max_stream_id := initial_max_stream_id p; idle_timeout := v;
     truncate_connection_id := truncate_connection_id p |}.
Definition set_truncate_connection_id (v : bool) (p : quicly_transport_parameters_t) :=
  {| initial_max_stream_data := initial_max_stream_data p;
     initial_max_data_kb := initial_max_data_kb p;
     initial_max_stream_id := initial_max_stream_id p; idle_timeout := idle_timeout p;
     truncate_connection_id := v |}.

Module TransportParameters.

(** [encode_transport_parameter_list]: a two-octet length, then for each
    parameter its id on two octets and its value in a block with a
    two-octet length. *)
Definition PUSH_TRANSPORT_PARAMETER (id : Z) (block : list Z) : list Z :=
  be_encode 2 id ++ be_encode 2 (Z.of_nat (length block)) ++ block.

Definition encode_transport_parameter_list (params : quicly_transport_parameters_t) : list Z :=
  let body :=
    PUSH_TRANSPORT_PARAMETER QUICLY_TRANSPORT_PARAMETER_ID_INITIAL_MAX_STREAM_DATA
      (be_encode 4 (initial_max_stream_data params)) ++
    PUSH_TRANSPORT_PARAMETER QUICLY_TRANSPORT_PARAMETER_ID_INITIAL_MAX_DATA
      (be_encode 4 (initial_max_data_kb params)) ++
    PUSH_TRANSPORT_PARAMETER QUICLY_TRANSPORT_PARAMETER_ID_INITIAL_MAX_STREAM_ID
      (be_encode 4 (initial_max_stream_id params)) ++
    PUSH_TRANSPORT_PARAMETER QUICLY_TRANSPORT_PARAMETER_ID_IDLE_TIMEOUT
      (be_encode 2 (idle_timeout params)) ++
    (if truncate_connection_id params
     then PUSH_TRANSPORT_PARAMETER QUICLY_TRANSPORT_PARAMETER_ID_TRUNCATE_CONNECTION_ID []
     else []) in
  be_encode 2 (Z.of_nat (length body)) ++ body.

Section Decode.

(** [ID_TO_BIT(id)] is [(uint64_t)1 << (id)].  For [id < 64] that is the
    bit [id].  For [id >= 64] the C standard leaves the shift undefined;
    [shl_wide id] is the value the platform produces there.  The source
    evaluates it at line 564, outside the test [id < 64]. *)
Variable shl_wide : Z -> Z.

Definition ID_TO_BIT (id : Z) : Z :=
  if id <? 64 then Z.shiftl 1 id else wrap64 (shl_wide id).

Definition must_found_id_bits : Z :=
  Z.lor (Z.lor (Z.lor (ID_TO_BIT QUICLY_TRANSPORT_PARAMETER_ID_INITIAL_MAX_STREAM_DATA)
                      (ID_TO_BIT QUICLY_TRANSPORT_PARAMETER_ID_INITIAL_MAX_DATA))
               (ID_TO_BIT QUICLY_TRANSPORT_PARAMETER_ID_INITIAL_MAX_STREAM_ID))
        (ID_TO_BIT QUICLY_TRANSPORT_PARAMETER_ID_IDLE_TIMEOUT).

(** The [switch (id)] inside the parameter's block: the value is read into
    the field of [params]; the result is what the body left unread. *)
Definition decode_parameter_value (id : Z) (src : list Z) : M quicly_transport_parameters_t (list Z) :=
  if id =? QUICLY_TRANSPORT_PARAMETER_ID_INITIAL_MAX_STREAM_DATA then
    let* (v, src') := lift_result (ptls_decode32 src) in
    modify (set_initial_max_stream_data v) ;; mret src'
  else if id =? QUICLY_TRANSPORT_PARAMETER_ID_INITIAL_MAX_DATA then
    let* (v, src') := lift_result (ptls_decode32 src) in
    modify (set_initial_max_data_kb v) ;; mret src'
  else if id =? QUICLY_TRANSPORT_PARAMETER_ID_INITIAL_MAX_STREAM_ID then
    let* (v, src') := lift_result (ptls_decode32 src) in
    modify (set_initial_max_stream_id v) ;; mret src'
  else if id =? QUICLY_TRANSPORT_PARAMETER_ID_IDLE_TIMEOUT then
    let* (v, src') := lift_result (ptls_decode16 src) in
    modify (set_idle_timeout v) ;; mret src'
  else if id =? QUICLY_TRANSPORT_PARAMETER_ID_TRUNCATE_CONNECTION_ID then
    modify (set_truncate_connection_id true) ;; mret src
  else
    mret [].

(** The [while (src != end)] loop of the parameters block.  Every round
    reads at least four octets, so [length src] rounds are enough. *)
Fixpoint decode_parameters (fuel : nat) (src : list Z) (found_id_bits : Z) : M quicly_transport_parameters_t Z :=
  match src with
  | [] => mret found_id_bits
  | _ :: _ =>
    match fuel with
    | O => out_of_fuel
    | S fuel' =>
      let* (id, src) := lift_result (ptls_decode16 src) in
      let* found_id_bits :=
        if id <? 64 then
          if negb (Z.land found_id_bits (ID_TO_BIT id) =? 0)
          then fail QUICLY_ERROR_INVALID_STREAM_DATA
          else mret (Z.lor found_id_bits (ID_TO_BIT id))
        else mret found_id_bits in
      let found_id_bits := Z.lor found_id_bits (ID_TO_BIT id) in
      let* (block, src) := lift_result (ptls_open_block 2 src) in
      let* rest := decode_parameter_value id block in
      lift_result (ptls_block_close rest) ;;
      decode_parameters fuel' src found_id_bits
    end
  end.

Definition decode_transport_parameter_list (src : list Z) : M quicly_transport_parameters_t unit :=
  (* set optional parameters to their default values *)
  modify (set_truncate_connection_id false) ;;
  (* decode the parameters block *)
  let* (block, src) := lift_result (ptls_open_block 2 src) in
  let* found_id_bits := decode_parameters (length block) block 0 in
  lift_result (ptls_block_close src) ;;
  (* check that we have found all the required parameters *)
  if negb (Z.land found_id_bits must_found_id_bits =? must_found_id_bits)
  then fail QUICLY_ERROR_INVALID_STREAM_DATA
  else mret tt.

End Decode.

(** The shift as the x86-64 and AArch64 shift instructions compute it: the
    count is taken modulo 64. *)
Definition shl_count_masked (id : Z) : Z := Z.shiftl 1 (id mod 64).

End TransportParameters.

(** ** Range sets *)

(** Modelled from the spec: [quicly/ranges.h] is not among the sources.  A
    range set is an ordered sequence of half-open intervals that neither
    overlap nor touch; adding [[start, end)] merges it with every interval
    it overlaps or touches, and an empty interval adds nothing. *)
Definition quicly_ranges_t : Type := list (Z * Z).

Fixpoint ranges_merge (ranges : quicly_ranges_t) (start end_ : Z) : quicly_ranges_t :=
  match ranges with
  | [] => [(start, end_)]
  | (a, b) :: ranges' =>
    if end_ <? a then (start, end_) :: ranges
    else if b <? start then (a, b) :: ranges_merge ranges' start end_
    else ranges_merge ranges' (Z.min a start) (Z.max b end_)
  end.

Definition quicly_ranges_update (ranges : quicly_ranges_t) (start end_ : Z) : quicly_ranges_t :=
  if end_ <=? start then ranges else ranges_merge ranges start end_.

Definition quicly_ranges_clear (ranges : quicly_ranges_t) : quicly_ranges_t := [].

(** [quicly_ranges_shrink(ranges, begin, end)] removes the intervals of
    index [begin] up to [end] (exclusive). *)
Definition quicly_ranges_shrink (ranges : quicly_ranges_t) (begin_ end_ : nat) : quicly_ranges_t :=
  take begin_ ranges ++ drop end_ ranges.

(** [ranges[num_ranges - 1].end]: the end of the last interval. *)
Definition ranges_last_end (ranges : quicly_ranges_t) : Z :=
  match last ranges with Some (_, e) => e | None => 0 end.

(** [ranges[0].end]. *)
Definition ranges_first_end (ranges : quicly_ranges_t) : Z :=
  match ranges with (_, e) :: _ => e | [] => 0 end.

Definition in_ranges (ranges : quicly_ranges_t) (x : Z) : bool :=
  existsb (fun r => (r.1 <=? x) && (x <? r.2)) ranges.

(** ** Receive buffer *)

(** Modelled from the spec: [quicly/recvbuf.h] is not among the sources.
    The buffer holds the octets from [data_off] on (a gap before octets
    that arrived out of order is held as zeros), the set [received] of the
    offsets that arrived, and [eos], which is [UINT64_MAX] until the end of
    the stream is known. *)
Record quicly_recvbuf_t : Type := {
  rb_data : list Z;
  rb_data_off : Z;
  rb_received : quicly_ranges_t;
  rb_eos : Z
}.

Definition quicly_recvbuf_init : quicly_recvbuf_t :=
  {| rb_data := []; rb_data_off := 0; rb_received := [(0, 0)]; rb_eos := UINT64_MAX |}.

Definition set_rb_data (d : list Z) (b : quicly_recvbuf_t) : quicly_recvbuf_t :=
  {| rb_data := d; rb_data_off := rb_data_off b; rb_received := rb_received b; rb_eos := rb_eos b |}.
Definition set_rb_received (r : quicly_ranges_t) (b : quicly_recvbuf_t) : quicly_recvbuf_t :=
  {| rb_data := rb_data b; rb_data_off := rb_data_off b; rb_received := r; rb_eos := rb_eos b |}.
Definition set_rb_eos (e : Z) (b : quicly_recvbuf_t) : quicly_recvbuf_t :=
  {| rb_data := rb_data b; rb_data_off := rb_data_off b; rb_received := rb_received b; rb_eos := e |}.

(** Octets [data] stored at position [pos] of [buf], which is extended with
    zeros when it is shorter. *)
Definition buffer_write (buf : list Z) (pos : nat) (data : list Z) : list Z :=
  let buf' := buf ++ replicate (pos + length data - length buf) 0 in
  take pos buf' ++ data ++ drop (pos + length data) buf'.

(** [mark_eos(off)] sets [eos = off]; it must not conflict with the octets
    received so far, nor with an end of stream that is already known. *)
Definition quicly_recvbuf_mark_eos (eos_at : Z) (b : quicly_recvbuf_t) : result quicly_recvbuf_t :=
  if rb_eos b =? UINT64_MAX then
    if eos_at <? ranges_last_end (rb_received b) then Err QUICLY_ERROR_TBD
    else Ok (set_rb_eos eos_at b)
  else if rb_eos b =? eos_at then Ok b
  else Err QUICLY_ERROR_TBD.

(** [write(off, bytes)] merges the range into [received] and stores the
    octets; octets beyond a known end of stream are refused. *)
Definition quicly_recvbuf_write (off : Z) (data : list Z) (b : quicly_recvbuf_t)
  : result quicly_recvbuf_t :=
  if rb_eos b <? off + Z.of_nat (length data) then Err QUICLY_ERROR_TBD
  else
    Ok (set_rb_received
          (quicly_ranges_update (rb_received b) off (off + Z.of_nat (length data)))
          (set_rb_data (buffer_write (rb_data b) (Z.to_nat (off - rb_data_off b)) data) b)).

(** [get()] is the contiguous prefix from [data_off]. *)
Definition quicly_recvbuf_get (b : quicly_recvbuf_t) : list Z :=
  take (Z.to_nat (ranges_first_end (rb_received b) - rb_data_off b)) (rb_data b).

(** The buffer's part of [shift(n)]: [data_off] advances over [n] octets. *)
Definition recvbuf_shift_data (n : Z) (b : quicly_recvbuf_t) : quicly_recvbuf_t :=
  {| rb_data := drop (Z.to_nat n) (rb_data b); rb_data_off := rb_data_off b + n;
     rb_received := rb_received b; rb_eos := rb_eos b |}.

Definition quicly_recvbuf_transfer_complete (b : quicly_recvbuf_t) : bool :=
  ranges_first_end (rb_received b) =? rb_eos b.

(** ** Send buffer *)

(** Modelled from the spec: [quicly/sendbuf.h] is not among the sources.
    The buffer holds the octets at the stream offsets from [data_off] on,
    [eos] ([UINT64_MAX] until the stream is shut down; the end of stream
    takes one virtual octet of offset), the ranges [pending] transmission
    and the ranges [acked]. *)
Record quicly_sendbuf_t : Type := {
  sb_data : list Z;
  sb_data_off : Z;
  sb_eos : Z;
  sb_acked : quicly_ranges_t;
  sb_pending : quicly_ranges_t
}.

Definition quicly_sendbuf_init : quicly_sendbuf_t :=
  {| sb_data := []; sb_data_off := 0; sb_eos := UINT64_MAX;
     sb_acked := [(0, 0)]; sb_pending := [] |}.

Definition set_sb_pending (r : quicly_ranges_t) (b : quicly_sendbuf_t) : quicly_sendbuf_t :=
  {| sb_data := sb_data b; sb_data_off := sb_data_off b; sb_eos := sb_eos b;
     sb_acked := sb_acked b; sb_pending := r |}.

Definition sendbuf_end (b : quicly_sendbuf_t) : Z := sb_data_off b + Z.of_nat (length (sb_data b)).

(** [write(bytes)] appends and adds [[end_before, end_after)] to pending. *)
Definition sendbuf_write_data (data : list Z) (b : quicly_sendbuf_t) : quicly_sendbuf_t :=
  {| sb_data := sb_data b ++ data; sb_data_off := sb_data_off b; sb_eos := sb_eos b;
     sb_acked := sb_acked b;
     sb_pending := quicly_ranges_update (sb_pending b) (sendbuf_end b)
                     (sendbuf_end b + Z.of_nat (length data)) |}.

(** [shutdown()] sets [eos] to the current end; the end of stream is one
    more pending offset. *)
Definition sendbuf_shutdown_data (b : quicly_sendbuf_t) : quicly_sendbuf_t :=
  {| sb_data := sb_data b; sb_data_off := sb_data_off b; sb_eos := sendbuf_end b;
     sb_acked := sb_acked b;
     sb_pending := quicly_ranges_update (sb_pending b) (sendbuf_end b) (sendbuf_end b + 1) |}.

(** [acked(range)] marks the range as delivered; the octets that are
    contiguous with [data_off] are dropped from the head. *)
Definition sendbuf_acked_data (start end_ : Z) (b : quicly_sendbuf_t) : quicly_sendbuf_t :=
  let acked := quicly_ranges_update (sb_acked b) start end_ in
  let upto := Z.min (ranges_first_end acked) (sendbuf_end b) in
  if sb_data_off b <? upto then
    {| sb_data := drop (Z.to_nat (upto - sb_data_off b)) (sb_data b); sb_data_off := upto;
       sb_eos := sb_eos b; sb_acked := acked; sb_pending := sb_pending b |}
  else
    {| sb_data := sb_data b; sb_data_off := sb_data_off b; sb_eos := sb_eos b;
       sb_acked := acked; sb_pending := sb_pending b |}.

(** [lost(range)] adds the range to pending again. *)
Definition sendbuf_lost_data (start end_ : Z) (b : quicly_sendbuf_t) : quicly_sendbuf_t :=
  set_sb_pending (quicly_ranges_update (sb_pending b) start end_) b.

(** The send side is complete when everything up to and including the end
    of stream has been acked. *)
Definition quicly_sendbuf_transfer_complete (b : quicly_sendbuf_t) : bool :=
  negb (sb_eos b =? UINT64_MAX) && (ranges_first_end (sb_acked b) =? sb_eos b + 1).

(** [emit(iter, copysize, ...)]: the octets copied out, the iterator after
    them (one past [eos] when the end of stream is reached) and the offset
    range for the ack book. *)
Definition quicly_sendbuf_emit (b : quicly_sendbuf_t) (stream_off copysize : Z)
  : list Z * Z * (Z * Z) :=
  let bytes := take (Z.to_nat copysize) (drop (Z.to_nat (stream_off - sb_data_off b)) (sb_data b)) in
  let off' := stream_off + copysize in
  let off'' := if off' =? sb_eos b then off' + 1 else off' in
  (bytes, off'', (stream_off, off'')).

(** ** MaxSender *)

(** Modelled from the spec: [quicly/maxsender.h] is not among the sources.
    The controller keeps the highest limit in an outstanding frame, the
    highest limit the peer acked and the number of outstanding frames. *)
Record quicly_maxsender_t : Type := {
  max_inflight : Z;
  max_acked : Z;
  num_inflight : Z
}.

Definition quicly_maxsender_init (initial_value : Z) : quicly_maxsender_t :=
  {| max_inflight := initial_value; max_acked := initial_value; num_inflight := 0 |}.

(** True iff [current_consumed + window - max_inflight >= min_delta]. *)
Definition quicly_maxsender_should_update (m : quicly_maxsender_t)
    (current_consumed window min_delta : Z) : bool :=
  min_delta <=? current_consumed + window - max_inflight m.

Definition quicly_maxsender_record (new_value : Z) (m : quicly_maxsender_t) : quicly_maxsender_t :=
  {| max_inflight := Z.max (max_inflight m) new_value; max_acked := max_acked m;
     num_inflight := num_inflight m + 1 |}.

Definition quicly_maxsender_acked (value : Z) (m : quicly_maxsender_t) : quicly_maxsender_t :=
  {| max_inflight := max_inflight m; max_acked := Z.max (max_acked m) value;
     num_inflight := num_inflight m - 1 |}.

Definition quicly_maxsender_lost (value : Z) (m : quicly_maxsender_t) : quicly_maxsender_t :=
  if num_inflight m - 1 =? 0
  then {| max_inflight := max_acked m; max_acked := max_acked m; num_inflight := 0 |}
  else {| max_inflight := max_inflight m; max_acked := max_acked m;
          num_inflight := num_inflight m - 1 |}.

(** ** Streams *)

Inductive quicly_state_t : Type :=
| QUICLY_STATE_BEFORE_SH
| QUICLY_STATE_BEFORE_SF
| QUICLY_STATE_1RTT_ENCRYPTED.

Definition state_is_1rtt (s : quicly_state_t) : bool :=
  match s with QUICLY_STATE_1RTT_ENCRYPTED => true | _ => false end.
Definition state_is_before_sh (s : quicly_state_t) : bool :=
  match s with QUICLY_STATE_BEFORE_SH => true | _ => false end.

Inductive quicly_sender_state_t : Type :=
| QUICLY_SENDER_STATE_NONE
| QUICLY_SENDER_STATE_SEND
| QUICLY_SENDER_STATE_UNACKED
| QUICLY_SENDER_STATE_ACKED.

Definition sender_state_is_send (s : quicly_sender_state_t) : bool :=
  match s with QUICLY_SENDER_STATE_SEND => true | _ => false end.
Definition sender_state_is_acked (s : quicly_sender_state_t) : bool :=
  match s with QUICLY_SENDER_STATE_ACKED => true | _ => false end.

(** The function a stream's [on_update] points to: the handshake driver
    (stream 0) or a handler of the host, named by an index. *)
Inductive update_cb : Type :=
| crypto_update_cb
| app_update_cb (handler : nat).

(** The two senders of a stream that an ack entry can designate (the source
    stores the offset of the field inside the stream). *)
Inductive state_sender_t : Type :=
| stop_sending_sender
| rst_sender.

Record quicly_stream_t : Type := {
  stream_id : Z;
  sendbuf : quicly_sendbuf_t;
  recvbuf : quicly_recvbuf_t;
  on_update : option update_cb;
  (* _send_aux *)
  max_stream_data : Z;
  max_sent : Z;
  stop_sending_state : quicly_sender_state_t;
  stop_sending_reason : Z;
  rst_state : quicly_sender_state_t;
  rst_reason_sent : Z;
  max_stream_data_sender : quicly_maxsender_t;
  (* _recv_aux *)
  window : Z;
  rst_reason : Z;
  close_called : bool
}.

Definition with_sendbuf (f : quicly_sendbuf_t -> quicly_sendbuf_t) (s : quicly_stream_t) :=
  {| stream_id := stream_id s; sendbuf := f (sendbuf s); recvbuf := recvbuf s;
     on_update := on_update s; max_stream_data := max_stream_data s; max_sent := max_sent s;
     stop_sending_state := stop_sending_state s; stop_sending_reason := stop_sending_reason s;
     rst_state := rst_state s; rst_reason_sent := rst_reason_sent s;
     max_stream_data_sender := max_stream_data_sender s; window := window s;
     rst_reason := rst_reason s; close_called := close_called s |}.
Definition with_recvbuf (f : quicly_recvbuf_t -> quicly_recvbuf_t) (s : quicly_stream_t) :=
  {| stream_id := stream_id s; sendbuf := sendbuf s; recvbuf := f (recvbuf s);
     on_update := on_update s; max_stream_data := max_stream_data s; max_sent := max_sent s;
     stop_sending_state := stop_sending_state s; stop_sending_reason := stop_sending_reason s;
     rst_state := rst_state s; rst_reason_sent := rst_reason_sent s;
     max_stream_data_sender := max_stream_data_sender s; window := window s;
     rst_reason := rst_reason s; close_called := close_called s |}.
Definition set_on_update (v : option update_cb) (s : quicly_stream_t) :=
  {| stream_id := stream_id s; sendbuf := sendbuf s; recvbuf := recvbuf s;
     on_update := v; max_stream_data := max_stream_data s; max_sent := max_sent s;
     stop_sending_state := stop_sending_state s; stop_sending_reason := stop_sending_reason s;
     rst_state := rst_state s; rst_reason_sent := rst_reason_sent s;
     max_stream_data_sender := max_stream_data_sender s; window := window s;
     rst_reason := rst_reason s; close_called := close_called s |}.
Definition set_max_stream_data (v : Z) (s : quicly_stream_t) :=
  {| stream_id := stream_id s; sendbuf := sendbuf s; recvbuf := recvbuf s;
     on_update := on_update s; max_stream_data := v; max_sent := max_sent s;
     stop_sending_state := stop_sending_state s; stop_sending_reason := stop_sending_reason s;
     rst_state := rst_state s; rst_reason_sent := rst_reason_sent s;
     max_stream_data_sender := max_stream_data_sender s; window := window s;
     rst_reason := rst_reason s; close_called := close_called s |}.
Definition set_max_sent (v : Z) (s : quicly_stream_t) :=
  {| stream_id := stream_id s; sendbuf := sendbuf s; recvbuf := recvbuf s;
     on_update := on_update s; max_stream_data := max_stream_data s; max_sent := v;
     stop_sending_state := stop_sending_state s; stop_sending_reason := stop_sending_reason s;
     rst_state := rst_state s; rst_reason_sent := rst_reason_sent s;
     max_stream_data_sender := max_stream_data_sender s; window := window s;
     rst_reason := rst_reason s; close_called := close_called s |}.
Definition set_stop_sending (st : quicly_sender_state_t) (reason : Z) (s : quicly_stream_t) :=
  {| stream_id := stream_id s; sendbuf := sendbuf s; recvbuf := recvbuf s;
     on_update := on_update s; max_stream_data := max_stream_data s; max_sent := max_sent s;
     stop_sending_state := st; stop_sending_reason := reason;
     rst_state := rst_state s; rst_reason_sent := rst_reason_sent s;
     max_stream_data_sender := max_stream_data_sender s; window := window s;
     rst_reason := rst_reason s; close_called := close_called s |}.
Definition set_rst (st : quicly_sender_state_t) (reason : Z) (s : quicly_stream_t) :=
  {| stream_id := stream_id s; sendbuf := sendbuf s; recvbuf := recvbuf s;
     on_update := on_update s; max_stream_data := max_stream_data s; max_sent := max_sent s;
     stop_sending_state := stop_sending_state s; stop_sending_reason := stop_sending_reason s;
     rst_state := st; rst_reason_sent := reason;
     max_stream_data_sender := max_stream_data_sender s; window := window s;
     rst_reason := rst_reason s; close_called := close_called s |}.
Definition with_max_stream_data_sender (f : quicly_maxsender_t -> quicly_maxsender_t)
    (s : quicly_stream_t) :=
  {| stream_id := stream_id s; sendbuf := sendbuf s; recvbuf := recvbuf s;
     on_update := on_update s; max_stream_data := max_stream_data s; max_sent := max_sent s;
     stop_sending_state := stop_sending_state s; stop_sending_reason := stop_sending_reason s;
     rst_state := rst_state s; rst_reason_sent := rst_reason_sent s;
     max_stream_data_sender := f (max_stream_data_sender s); window := window s;
     rst_reason := rst_reason s; close_called := close_called s |}.
Definition set_rst_reason (v : Z) (s : quicly_stream_t) :=
  {| stream_id := stream_id s; sendbuf := sendbuf s; recvbuf := recvbuf s;
     on_update := on_update s; max_stream_data := max_stream_data s; max_sent := max_sent s;
     stop_sending_state := stop_sending_state s; stop_sending_reason := stop_sending_reason s;
     rst_state := rst_state s; rst_reason_sent := rst_reason_sent s;
     max_stream_data_sender := max_stream_data_sender s; window := window s;
     rst_reason := v; close_called := close_called s |}.
Definition set_close_called (v : bool) (s : quicly_stream_t) :=
  {| stream_id := stream_id s; sendbuf := sendbuf s; recvbuf := recvbuf s;
     on_update := on_update s; max_stream_data := max_stream_data s; max_sent := max_sent s;
     stop_sending_state := stop_sending_state s; stop_sending_reason := stop_sending_reason s;
     rst_state := rst_state s; rst_reason_sent := rst_reason_sent s;
     max_stream_data_sender := max_stream_data_sender s; window := window s;
     rst_reason := rst_reason s; close_called := v |}.

Definition sender_state_of (which : state_sender_t) (s : quicly_stream_t) : quicly_sender_state_t :=
  match which with
  | stop_sending_sender => stop_sending_state s
  | rst_sender => rst_state s
  end.
Definition set_sender_state (which : state_sender_t) (st : quicly_sender_state_t)
    (s : quicly_stream_t) : quicly_stream_t :=
  match which with
  | stop_sending_sender => set_stop_sending st (stop_sending_reason s) s
  | rst_sender => set_rst st (rst_reason_sent s) s
  end.

(** ** The ack book *)

(** Modelled from the spec: [quicly/ack.h] is not among the sources.  An
    entry carries the packet number, the time it was sent and what its
    callback needs; the callback itself is fixed by the kind of the entry.
    The book is the list of the entries in the order they were allocated,
    oldest first. *)
Inductive quicly_ack_data_t : Type :=
| ack_stream (sid : Z) (start end_ : Z)                 (* on_ack_stream *)
| ack_max_stream_data (sid : Z) (value : Z)             (* on_ack_max_stream_data *)
| ack_max_data (value : Z)                              (* on_ack_max_data *)
| ack_stream_state_sender (sid : Z) (which : state_sender_t). (* on_ack_stream_state_sender *)

Record quicly_ack_t : Type := {
  ack_packet_number : Z;
  sent_at : Z;
  ack_data : quicly_ack_data_t
}.

Definition quicly_acks_t : Type := list quicly_ack_t.

(** ** Connections *)

Record quicly_context_t : Type := {
  max_packet_size : Z;
  initial_rto : Z;
  transport_params : quicly_transport_parameters_t
}.

(** An AEAD context, named by the secret and the direction it was made for. *)
Record ptls_aead_context_t : Type := {
  aead_secret : list Z;
  aead_is_enc : bool
}.

Record st_quicly_packet_protection_t : Type := {
  aead_early_data : option ptls_aead_context_t;
  aead_key_phase0 : option ptls_aead_context_t;
  aead_key_phase1 : option ptls_aead_context_t;
  pp_secret : list Z
}.

Definition packet_protection_zero : st_quicly_packet_protection_t :=
  {| aead_early_data := None; aead_key_phase0 := None; aead_key_phase1 := None;
     pp_secret := [] |}.

Record conn_public_t : Type := {
  connection_id : Z;
  state : quicly_state_t;
  host_num_streams : Z;
  host_next_stream_id : Z;
  peer_num_streams : Z;
  peer_next_stream_id : Z;
  peer_transport_params : quicly_transport_parameters_t
}.

Record conn_ingress_t : Type := {
  ingress_pp : st_quicly_packet_protection_t;
  ack_queue : quicly_ranges_t;
  bytes_consumed : Z;
  max_data_sender : quicly_maxsender_t
}.

Record conn_egress_t : Type := {
  egress_pp : st_quicly_packet_protection_t;
  acks : quicly_acks_t;
  packet_number : Z;
  max_data_permitted : Z;
  max_data_sent : Z;
  acks_require_encryption : bool
}.

(** Which function [handshake_properties.collected_extensions] points to. *)
Inductive collected_extensions_cb : Type :=
| client_collected_extensions_cb
| server_collected_extensions_cb.

(** [st_quicly_crypto_stream_data_t].  The TLS object is represented by
    what determines it: the side it was created for and the input it has
    been given so far. *)
Record st_quicly_crypto_stream_data_t : Type := {
  tls_is_server : bool;
  tls_inputs : list (list Z);
  collected_extensions : option collected_extensions_cb;
  additional_extensions : option (list Z)
}.

Record quicly_conn_t : Type := {
  ctx : quicly_context_t;
  super : conn_public_t;
  streams : gmap Z quicly_stream_t;
  ingress : conn_ingress_t;
  egress : conn_egress_t;
  crypto_data : st_quicly_crypto_stream_data_t
}.

Definition with_super (f : conn_public_t -> conn_public_t) (c : quicly_conn_t) :=
  {| ctx := ctx c; super := f (super c); streams := streams c; ingress := ingress c;
     egress := egress c; crypto_data := crypto_data c |}.
Definition with_streams (f : gmap Z quicly_stream_t -> gmap Z quicly_stream_t) (c : quicly_conn_t) :=
  {| ctx := ctx c; super := super c; streams := f (streams c); ingress := ingress c;
     egress := egress c; crypto_data := crypto_data c |}.
Definition with_ingress (f : conn_ingress_t -> conn_ingress_t) (c : quicly_conn_t) :=
  {| ctx := ctx c; super := super c; streams := streams c; ingress := f (ingress c);
     egress := egress c; crypto_data := crypto_data c |}.
Definition with_egress (f : conn_egress_t -> conn_egress_t) (c : quicly_conn_t) :=
  {| ctx := ctx c; super := super c; streams := streams c; ingress := ingress c;
     egress := f (egress c); crypto_data := crypto_data c |}.
Definition with_crypto_data
    (f : st_quicly_crypto_stream_data_t -> st_quicly_crypto_stream_data_t) (c : quicly_conn_t) :=
  {| ctx := ctx c; super := super c; streams := streams c; ingress := ingress c;
     egress := egress c; crypto_data := f (crypto_data c) |}.

Definition set_connection_id (v : Z) (p : conn_public_t) :=
  {| connection_id := v; state := state p; host_num_streams := host_num_streams p;
     host_next_stream_id := host_next_stream_id p; peer_num_streams := peer_num_streams p;
     peer_next_stream_id := peer_next_stream_id p;
     peer_transport_params := peer_transport_params p |}.
Definition set_state (v : quicly_state_t) (p : conn_public_t) :=
  {| connection_id := connection_id p; state := v; host_num_streams := host_num_streams p;
     host_next_stream_id := host_next_stream_id p; peer_num_streams := peer_num_streams p;
     peer_next_stream_id := peer_next_stream_id p;
     peer_transport_params := peer_transport_params p |}.
Definition set_host (num next : Z) (p : conn_public_t) :=
  {| connection_id := connection_id p; state := state p; host_num_streams := num;
     host_next_stream_id := next; peer_num_streams := peer_num_streams p;
     peer_next_stream_id := peer_next_stream_id p;
     peer_transport_params := peer_transport_params p |}.
Definition set_peer (num next : Z) (p : conn_public_t) :=
  {| connection_id := connection_id p; state := state p; host_num_streams := host_num_streams p;
     host_next_stream_id := host_next_stream_id p; peer_num_streams := num;
     peer_next_stream_id := next;
     peer_transport_params := peer_transport_params p |}.
Definition set_peer_transport_params (v : quicly_transport_parameters_t) (p : conn_public_t) :=
  {| connection_id := connection_id p; state := state p; host_num_streams := host_num_streams p;
     host_next_stream_id := host_next_stream_id p; peer_num_streams := peer_num_streams p;
     peer_next_stream_id := peer_next_stream_id p;
     peer_transport_params := v |}.

Definition set_ingress_pp (v : st_quicly_packet_protection_t) (i : conn_ingress_t) :=
  {| ingress_pp := v; ack_queue := ack_queue i; bytes_consumed := bytes_consumed i;
     max_data_sender := max_data_sender i |}.
Definition set_ack_queue (v : quicly_ranges_t) (i : conn_ingress_t) :=
  {| ingress_pp := ingress_pp i; ack_queue := v; bytes_consumed := bytes_consumed i;
     max_data_sender := max_data_sender i |}.
Definition set_bytes_consumed (v : Z) (i : conn_ingress_t) :=
  {| ingress_pp := ingress_pp i; ack_queue := ack_queue i; bytes_consumed := v;
     max_data_sender := max_data_sender i |}.
Definition set_max_data_sender (v : quicly_maxsender_t) (i : conn_ingress_t) :=
  {| ingress_pp := ingress_pp i; ack_queue := ack_queue i; bytes_consumed := bytes_consumed i;
     max_data_sender := v |}.

Definition set_egress_pp (v : st_quicly_packet_protection_t) (e : conn_egress_t) :=
  {| egress_pp := v; acks := acks e; packet_number := packet_number e;
     max_data_permitted := max_data_permitted e; max_data_sent := max_data_sent e;
     acks_require_encryption := acks_require_encryption e |}.
Definition set_acks (v : quicly_acks_t) (e : conn_egress_t) :=
  {| egress_pp := egress_pp e; acks := v; packet_number := packet_number e;
     max_data_permitted := max_data_permitted e; max_data_sent := max_data_sent e;
     acks_require_encryption := acks_require_encryption e |}.
Definition set_packet_number (v : Z) (e : conn_egress_t) :=
  {| egress_pp := egress_pp e; acks := acks e; packet_number := v;
     max_data_permitted := max_data_permitted e; max_data_sent := max_data_sent e;
     acks_require_encryption := acks_require_encryption e |}.
Definition set_max_data_permitted (v : Z) (e : conn_egress_t) :=
  {| egress_pp := egress_pp e; acks := acks e; packet_number := packet_number e;
     max_data_permitted := v; max_data_sent := max_data_sent e;
     acks_require_encryption := acks_require_encryption e |}.
Definition set_max_data_sent (v : Z) (e : conn_egress_t) :=
  {| egress_pp := egress_pp e; acks := acks e; packet_number := packet_number e;
     max_data_permitted := max_data_permitted e; max_data_sent := v;
     acks_require_encryption := acks_require_encryption e |}.
Definition set_acks_require_encryption (v : bool) (e : conn_egress_t) :=
  {| egress_pp := egress_pp e; acks := acks e; packet_number := packet_number e;
     max_data_permitted := max_data_permitted e; max_data_sent := max_data_sent e;
     acks_require_encryption := v |}.

Definition set_key_phase0 (a : option ptls_aead_context_t) (secret : list Z)
    (pp : st_quicly_packet_protection_t) :=
  {| aead_early_data := aead_early_data pp; aead_key_phase0 := a;
     aead_key_phase1 := aead_key_phase1 pp; pp_secret := secret |}.

(** ** Frames and packets *)

(** The decoded frames, with the fields the source reads
    ([quicly/frame.h]). *)
Record quicly_stream_frame_t : Type := {
  sf_stream_id : Z;
  sf_is_fin : bool;
  sf_offset : Z;
  sf_data : list Z
}.

Record quicly_ack_frame_t : Type := {
  smallest_acknowledged : Z;
  num_gaps : nat;
  ack_block_lengths : list Z;
  gaps : list Z
}.

Record quicly_rst_stream_frame_t : Type := {
  rf_stream_id : Z;
  rf_reason : Z;
  rf_final_offset : Z
}.

Record quicly_max_data_frame_t : Type := { max_data_kb : Z }.

Record quicly_max_stream_data_frame_t : Type := {
  mf_stream_id : Z;
  mf_max_stream_data : Z
}.

Record quicly_stop_sending_frame_t : Type := {
  ss_stream_id : Z;
  ss_reason : Z
}.

Record quicly_decoded_packet_t : Type := {
  pk_type : Z;
  is_long_header : bool;
  has_connection_id : bool;
  pk_connection_id : Z;
  pk_packet_number : Z;
  pk_version : Z;
  pk_header : list Z;
  pk_payload : list Z
}.

Definition QUICLY_PACKET_TYPE_VERSION_NEGOTIATION : Z := 1.
Definition QUICLY_PACKET_TYPE_CLIENT_INITIAL : Z := 2.
Definition QUICLY_PACKET_TYPE_SERVER_STATELESS_RETRY : Z := 3.
Definition QUICLY_PACKET_TYPE_SERVER_CLEARTEXT : Z := 4.
Definition QUICLY_PACKET_TYPE_CLIENT_CLEARTEXT : Z := 5.
Definition QUICLY_PACKET_TYPE_0RTT_PROTECTED : Z := 6.
Definition QUICLY_PACKET_TYPE_1RTT_KEY_PHASE_0 : Z := 7.
Definition QUICLY_PACKET_TYPE_1RTT_KEY_PHASE_1 : Z := 8.
Definition QUICLY_PACKET_TYPE_PUBLIC_RESET : Z := 8.

(** The updates of the counters of the connection, as the source writes
    them. *)
Definition consume_bytes (n : Z) (c : quicly_conn_t) : quicly_conn_t :=
  with_ingress (fun i => set_bytes_consumed (wrap128 (bytes_consumed i + n)) i) c.

(** [--conn->super.host.num_streams] and [--conn->super.peer.num_streams] *)
Definition host_stream_closed (c : quicly_conn_t) : quicly_conn_t :=
  with_super (fun p => set_host (wrap32 (host_num_streams p - 1)) (host_next_stream_id p) p) c.
Definition peer_stream_closed (c : quicly_conn_t) : quicly_conn_t :=
  with_super (fun p => set_peer (wrap32 (peer_num_streams p - 1)) (peer_next_stream_id p) p) c.

(** [++conn->super.host.num_streams; if ((conn->super.host.next_stream_id += 2) < 2)
    conn->super.host.next_stream_id = 0;] *)
Definition host_stream_opened (c : quicly_conn_t) : quicly_conn_t :=
  with_super (fun p =>
    let next := wrap32 (host_next_stream_id p + 2) in
    set_host (wrap32 (host_num_streams p + 1)) (if next <? 2 then 0 else next) p) c.

(** [++conn->super.peer.num_streams; conn->super.peer.next_stream_id += 2;] *)
Definition peer_stream_opened (c : quicly_conn_t) : quicly_conn_t :=
  with_super (fun p =>
    set_peer (wrap32 (peer_num_streams p + 1)) (wrap32 (peer_next_stream_id p + 2)) p) c.

(** [if (conn->super.peer.next_stream_id < 2) conn->super.peer.next_stream_id = 0;] *)
Definition peer_streams_exhausted (c : quicly_conn_t) : quicly_conn_t :=
  with_super (fun p =>
    if peer_next_stream_id p <? 2 then set_peer (peer_num_streams p) 0 p else p) c.

Definition put_stream (sid : Z) (s : quicly_stream_t) (c : quicly_conn_t) : quicly_conn_t :=
  with_streams (insert sid s) c.
Definition remove_stream (sid : Z) (c : quicly_conn_t) : quicly_conn_t :=
  with_streams (delete sid) c.

Definition set_crypto_inputs (inputs : list (list Z)) (d : st_quicly_crypto_stream_data_t) :=
  {| tls_is_server := tls_is_server d; tls_inputs := inputs;
     collected_extensions := collected_extensions d;
     additional_extensions := additional_extensions d |}.
Definition set_crypto_extensions (cb : option collected_extensions_cb) (ext : option (list Z))
    (d : st_quicly_crypto_stream_data_t) :=
  {| tls_is_server := tls_is_server d; tls_inputs := tls_inputs d;
     collected_extensions := cb; additional_extensions := ext |}.

Definition install_key_phase0 (ingress_side : bool) (a : option ptls_aead_context_t)
    (secret : list Z) (c : quicly_conn_t) : quicly_conn_t :=
  if ingress_side
  then with_ingress (fun i => set_ingress_pp (set_key_phase0 a secret (ingress_pp i)) i) c
  else with_egress (fun e => set_egress_pp (set_key_phase0 a secret (egress_pp e)) e) c.

Definition schedule_ack (pn : Z) (c : quicly_conn_t) : quicly_conn_t :=
  with_ingress (fun i =>
    set_ack_queue (quicly_ranges_update (ack_queue i) pn (wrap32 (pn + 1))) i) c.
Definition clear_ack_queue (c : quicly_conn_t) : quicly_conn_t :=
  with_ingress (fun i => set_ack_queue (quicly_ranges_clear (ack_queue i)) i) c.
Definition update_max_data_sender (f : quicly_maxsender_t -> quicly_maxsender_t)
    (c : quicly_conn_t) : quicly_conn_t :=
  with_ingress (fun i => set_max_data_sender (f (max_data_sender i)) i) c.
Definition release_ack (i : nat) (c : quicly_conn_t) : quicly_conn_t :=
  with_egress (fun e => set_acks (delete i (acks e)) e) c.
Definition allocate_ack (now : Z) (data : quicly_ack_data_t) (c : quicly_conn_t) : quicly_conn_t :=
  with_egress (fun e =>
    set_acks (acks e ++ [{| ack_packet_number := packet_number e; sent_at := now;
                            ack_data := data |}]) e) c.
Definition next_packet_number (c : quicly_conn_t) : quicly_conn_t :=
  with_egress (fun e => set_packet_number (wrap64 (packet_number e + 1)) e) c.
Definition add_max_data_sent (delta : Z) (c : quicly_conn_t) : quicly_conn_t :=
  with_egress (fun e => set_max_data_sent (wrap128 (max_data_sent e + delta)) e) c.

(** ** What the engine is given *)

(** What a callback of the host may do to the connection: the operations of
    the public interface, on the stream it names. *)
Inductive app_action : Type :=
| do_recvbuf_shift (sid : Z) (n : Z)
| do_sendbuf_write (sid : Z) (data : list Z)
| do_sendbuf_shutdown (sid : Z)
| do_close_stream (sid : Z)
| do_open_stream (handler : nat)
| do_set_on_update (sid : Z) (handler : nat).

(** What one call of [ptls_handshake] does: its result ([None] is 0), the
    number of octets of the input it consumed, the octets it produced, and
    the TLS extension slot it handed to [collected_extensions], if it called
    it ([Some None] is a call with no transport-parameters extension). *)
Record ptls_handshake_result : Type := {
  hs_ret : option error;
  hs_consumed : Z;
  hs_output : list Z;
  hs_collected : option (option (list Z))
}.

(** The parts of the program that are not in [lib/quicly.c]: the values of
    [quicly/error.h], the frame codec of [quicly/frame.h], the TLS provider,
    the callbacks of the host, and the value the platform gives a 64-bit
    shift by 64 or more. *)
Record env : Type := {
  error_code : error -> Z;
  shl_wide : Z -> Z;
  (* quicly/frame.h *)
  QUICLY_FRAME_TYPE_PADDING : Z;
  QUICLY_FRAME_TYPE_RST_STREAM : Z;
  QUICLY_FRAME_TYPE_MAX_DATA : Z;
  QUICLY_FRAME_TYPE_MAX_STREAM_DATA : Z;
  QUICLY_FRAME_TYPE_STOP_SENDING : Z;
  QUICLY_FRAME_TYPE_ACK : Z;
  QUICLY_FRAME_TYPE_STREAM : Z;
  quicly_decode_stream_frame : Z -> list Z -> result (quicly_stream_frame_t * list Z);
  quicly_decode_ack_frame : Z -> list Z -> result (quicly_ack_frame_t * list Z);
  quicly_decode_rst_stream_frame : list Z -> result (quicly_rst_stream_frame_t * list Z);
  quicly_decode_max_data_frame : list Z -> result (quicly_max_data_frame_t * list Z);
  quicly_decode_max_stream_data_frame :
    list Z -> result (quicly_max_stream_data_frame_t * list Z);
  quicly_decode_stop_sending_frame : list Z -> result (quicly_stop_sending_frame_t * list Z);
  QUICLY_MAX_DATA_FRAME_SIZE : Z;
  QUICLY_MAX_STREAM_DATA_FRAME_SIZE : Z;
  QUICLY_STOP_SENDING_FRAME_SIZE : Z;
  QUICLY_RST_FRAME_SIZE : Z;
  quicly_determine_stream_frame_field_lengths : Z -> Z -> Z * Z;
  (* the minimum capacity of an ACK frame that starts at the range of the
     given index, and the encoder: given the room left, the ranges and the
     index, the octets it takes and the index to resume from ([None] is
     [SIZE_MAX]: nothing is left) *)
  quicly_ack_frame_get_minimum_capacity : quicly_ranges_t -> nat -> Z;
  quicly_encode_ack_frame : Z -> quicly_ranges_t -> nat -> Z * option nat;
  (* picotls *)
  ptls_handshake : bool -> list (list Z) -> option (list Z) -> list Z -> ptls_handshake_result;
  ptls_export_secret : bool -> list (list Z) -> string -> error + list Z;
  ptls_aead_new : bool -> list Z -> option ptls_aead_context_t;
  ptls_aead_decrypt : ptls_aead_context_t -> list Z -> Z -> list Z -> option (list Z);
  aead_tag_size : Z;
  (* the host *)
  on_stream_open : Z -> quicly_conn_t -> list app_action * option error;
  app_on_update : nat -> Z -> quicly_conn_t -> list app_action * option error
}.

Definition ret_of {S} (r : option error) : M S unit :=
  match r with
  | None => mret tt
  | Some e => fail e
  end.

Definition is_in_progress (r : option error) : bool :=
  match r with Some PTLS_ERROR_IN_PROGRESS => true | _ => false end.

(** [mtry m] runs [m] and turns an error code into a value, as a caller
    that looks at [ret] does. *)
Definition mtry {S} (m : M S unit) : M S (option error) :=
  fun s =>
    match m s with
    | (Ok _, s') => (Ok None, s')
    | (Err e, s') => (Ok (Some e), s')
    | (Abort, s') => (Abort, s')
    | (OutOfFuel, s') => (OutOfFuel, s')
    end.

(** A computation on the peer's transport parameters, run on the field of
    the connection. *)
Definition on_peer_transport_params {A} (m : M quicly_transport_parameters_t A)
  : M quicly_conn_t A :=
  fun c =>
    let (r, p) := m (peer_transport_params (super c)) in
    (r, with_super (set_peer_transport_params p) c).

(** * The engine *)

Section Engine.

Variable E : env.

(** Every loop of the engine whose number of rounds is not bounded by the
    length of a list it walks runs for at most [fuel] rounds. *)
Variable fuel : nat.

Definition quicly_get_state (c : quicly_conn_t) : quicly_state_t := state (super c).

Definition quicly_is_client (c : quicly_conn_t) : bool :=
  negb (host_next_stream_id (super c) mod 2 =? 0).

Definition quicly_get_stream (c : quicly_conn_t) (sid : Z) : option quicly_stream_t :=
  streams c !! sid.

(** The access to a stream through a pointer the caller holds: the stream
    must still be in the table. *)
Definition stream_ptr (sid : Z) : M quicly_conn_t quicly_stream_t :=
  let* c := get in
  match streams c !! sid with
  | Some s => mret s
  | None => abort
  end.

Definition update_stream (sid : Z) (f : quicly_stream_t -> quicly_stream_t)
  : M quicly_conn_t unit :=
  let* s := stream_ptr sid in
  modify (put_stream sid (f s)).

Definition on_sendbuf_change (sid : Z) : M quicly_conn_t unit :=
  let* s := stream_ptr sid in
  assert (negb (stream_id s =? 0) || (sb_eos (sendbuf s) =? UINT64_MAX)).

Definition on_recvbuf_change (sid : Z) (shift_amount : Z) : M quicly_conn_t unit :=
  let* s := stream_ptr sid in
  if negb (shift_amount =? 0) && negb (stream_id s =? 0)
  then modify (consume_bytes shift_amount)
  else mret tt.

(** The buffer operations on a stream of the connection; each ends in the
    change callback the buffer was initialised with. *)
Definition quicly_sendbuf_write (sid : Z) (data : list Z) : M quicly_conn_t unit :=
  update_stream sid (with_sendbuf (sendbuf_write_data data)) ;;
  on_sendbuf_change sid.

Definition quicly_sendbuf_shutdown (sid : Z) : M quicly_conn_t unit :=
  update_stream sid (with_sendbuf sendbuf_shutdown_data) ;;
  on_sendbuf_change sid.

Definition quicly_sendbuf_acked (sid : Z) (start end_ : Z) : M quicly_conn_t unit :=
  update_stream sid (with_sendbuf (sendbuf_acked_data start end_)) ;;
  on_sendbuf_change sid.

Definition quicly_sendbuf_lost (sid : Z) (start end_ : Z) : M quicly_conn_t unit :=
  update_stream sid (with_sendbuf (sendbuf_lost_data start end_)) ;;
  on_sendbuf_change sid.

Definition quicly_recvbuf_shift (sid : Z) (n : Z) : M quicly_conn_t unit :=
  update_stream sid (with_recvbuf (recvbuf_shift_data n)) ;;
  on_recvbuf_change sid n.

(** [open_stream]: the new stream, as initialised from the connection, is
    put in the table under its id. *)
Definition new_stream (c : quicly_conn_t) (sid : Z) : quicly_stream_t :=
  {| stream_id := sid;
     sendbuf := quicly_sendbuf_init;
     recvbuf := quicly_recvbuf_init;
     on_update := None;
     max_stream_data := initial_max_stream_data (peer_transport_params (super c));
     max_sent := 0;
     stop_sending_state := QUICLY_SENDER_STATE_NONE;
     stop_sending_reason := 0;
     rst_state := QUICLY_SENDER_STATE_NONE;
     rst_reason_sent := 0;
     max_stream_data_sender :=
       quicly_maxsender_init (initial_max_stream_data (transport_params (ctx c)));
     window := initial_max_stream_data (transport_params (ctx c));
     rst_reason := error_code E QUICLY_ERROR_FIN_CLOSED;
     close_called := false |}.

Definition open_stream (sid : Z) : M quicly_conn_t unit :=
  modify (fun c => put_stream sid (new_stream c sid) c).

Definition destroy_stream (sid : Z) : M quicly_conn_t unit :=
  let* s := stream_ptr sid in
  let* c := get in
  modify (remove_stream sid) ;;
  if negb (stream_id s =? 0) then
    if Z.b2z (quicly_is_client c) =? stream_id s mod 2
    then modify host_stream_closed
    else modify peer_stream_closed
  else mret tt.

Definition destroy_stream_if_unneeded (sid : Z) : M quicly_conn_t bool :=
  let* s := stream_ptr sid in
  if negb (close_called s) then mret false
  else if negb (quicly_sendbuf_transfer_complete (sendbuf s)
                || sender_state_is_acked (rst_state s)) then mret false
  else if negb (quicly_recvbuf_transfer_complete (recvbuf s)) then mret false
  else destroy_stream sid ;; mret true.

(** ** 1-RTT keys *)

Definition setup_1rtt_secret (ingress_side : bool) (label : string) (is_enc : bool)
  : M quicly_conn_t unit :=
  let* c := get in
  match ptls_export_secret E (tls_is_server (crypto_data c)) (tls_inputs (crypto_data c)) label with
  | inl e => fail e
  | inr secret =>
    let aead := ptls_aead_new E is_enc secret in
    modify (install_key_phase0 ingress_side aead secret) ;;
    match aead with
    | None => fail PTLS_ERROR_NO_MEMORY
    | Some _ => mret tt
    end
  end.

Definition labels (i : bool) : string :=
  if i then "EXPORTER-QUIC server 1-RTT Secret" else "EXPORTER-QUIC client 1-RTT Secret".

(** [setup_1rtt]: both failures jump to [Exit], which returns 0. *)
Definition setup_1rtt : M quicly_conn_t unit :=
  let* c := get in
  let* r := mtry (setup_1rtt_secret true (labels (quicly_is_client c)) false) in
  match r with
  | Some _ => mret tt
  | None =>
    let* r := mtry (setup_1rtt_secret false (labels (negb (quicly_is_client c))) true) in
    match r with
    | Some _ => mret tt
    | None => modify (with_super (set_state QUICLY_STATE_1RTT_ENCRYPTED))
    end
  end.

Definition write_tlsbuf (sid : Z) (tlsbuf : list Z) : M quicly_conn_t unit :=
  match tlsbuf with
  | [] => mret tt
  | _ => quicly_sendbuf_write sid tlsbuf
  end.

(** ** The transport-parameters extension *)

(** The [do ... while (src != end)] loop over the supported versions. *)
Fixpoint decode_supported_versions (n : nat) (src : list Z) (found : bool) : result bool :=
  match n with
  | O => OutOfFuel
  | S n' =>
    match ptls_decode32 src with
    | Ok (supported_version, src') =>
      let found := found || (supported_version =? QUICLY_PROTOCOL_VERSION) in
      match src' with
      | [] => Ok found
      | _ => decode_supported_versions n' src' found
      end
    | Err e => Err e
    | Abort => Abort
    | OutOfFuel => OutOfFuel
    end
  end.

Definition client_collected_extensions (slot : option (list Z)) : M quicly_conn_t unit :=
  match slot with
  | None => mret tt
  | Some src =>
    let* (block, src) := lift_result (ptls_open_block 1 src) in
    let* found_negotiated_version :=
      lift_result (decode_supported_versions (S (length block)) block false) in
    if negb found_negotiated_version then fail PTLS_ALERT_ILLEGAL_PARAMETER
    else
      on_peer_transport_params
        (TransportParameters.decode_transport_parameter_list (shl_wide E) src)
  end.

Definition server_collected_extensions (slot : option (list Z)) : M quicly_conn_t unit :=
  match slot with
  | None => mret tt
  | Some src =>
    let* (negotiated_version, src) := lift_result (ptls_decode32 src) in
    let* (initial_version, src) := lift_result (ptls_decode32 src) in
    if negb ((negotiated_version =? QUICLY_PROTOCOL_VERSION)
             && (initial_version =? QUICLY_PROTOCOL_VERSION))
    then fail QUICLY_ERROR_VERSION_NEGOTIATION_MISMATCH
    else
      on_peer_transport_params
        (TransportParameters.decode_transport_parameter_list (shl_wide E) src) ;;
      (* set transport_parameters extension to be sent in EE *)
      let* c := get in
      assert (bool_decide (additional_extensions (crypto_data c) = None)) ;;
      let buf := be_encode 1 4 ++ be_encode 4 QUICLY_PROTOCOL_VERSION ++
                 TransportParameters.encode_transport_parameter_list
                   (transport_params (ctx c)) in
      modify (with_crypto_data (fun d =>
                set_crypto_extensions (collected_extensions d) (Some buf) d))
  end.

(** One call of [ptls_handshake] on the connection's TLS object: the input
    consumed is added to what the object has seen, and when the provider
    hands the collected extension over, the callback installed in the
    handshake properties runs; its error, if any, is the result. *)
Definition call_ptls_handshake (input : list Z)
  : M quicly_conn_t (option error * Z * list Z) :=
  let* c := get in
  let d := crypto_data c in
  let out := ptls_handshake E (tls_is_server d) (tls_inputs d) (additional_extensions d) input in
  modify (with_crypto_data (fun d =>
            set_crypto_inputs (tls_inputs d ++ [take (Z.to_nat (hs_consumed out)) input]) d)) ;;
  match hs_collected out, collected_extensions d with
  | Some slot, Some cb =>
    let* r := mtry (match cb with
                    | client_collected_extensions_cb => client_collected_extensions slot
                    | server_collected_extensions_cb => server_collected_extensions slot
                    end) in
    match r with
    | Some e => mret (Some e, hs_consumed out, hs_output out)
    | None => mret (hs_ret out, hs_consumed out, hs_output out)
    end
  | _, _ => mret (hs_ret out, hs_consumed out, hs_output out)
  end.

(** ** The handshake driver *)

(** The [while (ret == PTLS_ERROR_IN_PROGRESS && input.len != 0)] loop. *)
Fixpoint handshake_loop (n : nat) (sid : Z) (ret : option error) (buf : list Z)
  : M quicly_conn_t (option error * list Z) :=
  if is_in_progress ret then
    let* s := stream_ptr sid in
    match quicly_recvbuf_get (recvbuf s) with
    | [] => mret (ret, buf)
    | input =>
      match n with
      | O => out_of_fuel
      | S n' =>
        let* (r, consumed, output) := call_ptls_handshake input in
        quicly_recvbuf_shift sid consumed ;;
        handshake_loop n' sid r (buf ++ output)
      end
    end
  else mret (ret, buf).

Definition crypto_stream_receive_handshake (sid : Z) : M quicly_conn_t unit :=
  let* (ret, buf) := handshake_loop fuel sid (Some PTLS_ERROR_IN_PROGRESS) [] in
  write_tlsbuf sid buf ;;
  match ret with
  | None =>
    (* state is 1RTT_ENCRYPTED when handling ClientFinished *)
    let* c := get in
    if negb (state_is_1rtt (state (super c))) then
      modify (with_egress (set_max_data_permitted
                (initial_max_data_kb (peer_transport_params (super c)) * 1024))) ;;
      setup_1rtt
    else mret tt
  | Some PTLS_ERROR_IN_PROGRESS =>
    let* c := get in
    (if state_is_before_sh (state (super c))
     then modify (with_super (set_state QUICLY_STATE_BEFORE_SF))
     else mret tt)
  | Some e => fail e
  end.

(** ** The public stream operations *)

Definition quicly_open_stream : M quicly_conn_t Z :=
  let* c := get in
  let id := host_next_stream_id (super c) in
  if id =? 0 then fail QUICLY_ERROR_TOO_MANY_OPEN_STREAMS
  else
    open_stream id ;;
    modify host_stream_opened ;;
    mret id.

Definition quicly_close_stream (sid : Z) : M quicly_conn_t unit :=
  let* s := stream_ptr sid in
  assert (negb (close_called s)) ;;
  update_stream sid (set_close_called true) ;;
  (if sb_eos (sendbuf s) =? UINT64_MAX then quicly_sendbuf_shutdown sid else mret tt) ;;
  (if rb_eos (recvbuf s) =? UINT64_MAX
   then update_stream sid (set_stop_sending QUICLY_SENDER_STATE_SEND 0)
   else mret tt) ;;
  destroy_stream_if_unneeded sid ;;
  mret tt.

(** ** Callbacks of the host *)

Definition run_app_action (a : app_action) : M quicly_conn_t unit :=
  match a with
  | do_recvbuf_shift sid n => quicly_recvbuf_shift sid n
  | do_sendbuf_write sid data => quicly_sendbuf_write sid data
  | do_sendbuf_shutdown sid => quicly_sendbuf_shutdown sid
  | do_close_stream sid => quicly_close_stream sid
  | do_open_stream handler =>
    let* _ := mtry (let* id := quicly_open_stream in
                    update_stream id (set_on_update (Some (app_update_cb handler)))) in
    mret tt
  | do_set_on_update sid handler =>
    update_stream sid (set_on_update (Some (app_update_cb handler)))
  end.

Fixpoint run_app_actions (l : list app_action) : M quicly_conn_t unit :=
  match l with
  | [] => mret tt
  | a :: l' => run_app_action a ;; run_app_actions l'
  end.

(** [conn->super.ctx->on_stream_open(stream)] *)
Definition call_on_stream_open (sid : Z) : M quicly_conn_t unit :=
  let* c := get in
  let (actions, r) := on_stream_open E sid c in
  run_app_actions actions ;;
  ret_of r.

(** [stream->on_update(stream)] *)
Definition call_on_update (sid : Z) : M quicly_conn_t unit :=
  let* s := stream_ptr sid in
  match on_update s with
  | None => abort
  | Some crypto_update_cb => crypto_stream_receive_handshake sid
  | Some (app_update_cb handler) =>
    let* c := get in
    let (actions, r) := app_on_update E handler sid c in
    run_app_actions actions ;;
    ret_of r
  end.

(** ** Stream frames *)

Definition do_apply_stream_frame (sid : Z) (off : Z) (data : list Z) : M quicly_conn_t unit :=
  let* s := stream_ptr sid in
  let data_off := rb_data_off (recvbuf s) in
  let len := Z.of_nat (length data) in
  (* make adjustments for retransmit *)
  if (off <? data_off) && (wrap64 (off + len) <=? data_off) then mret tt
  else
    let delta := if off <? data_off then data_off - off else 0 in
    let off := if off <? data_off then data_off else off in
    let data := drop (Z.to_nat delta) data in
    let len := Z.of_nat (length data) in
    (* try the fast (copyless) path *)
    if (data_off =? off) && (Z.of_nat (length (rb_data (recvbuf s))) =? 0) then
      assert (Z.of_nat (length (rb_received (recvbuf s))) =? 1) ;;
      assert (ranges_first_end (rb_received (recvbuf s)) =? data_off) ;;
      (if negb (len =? 0) then
         update_stream sid (with_recvbuf (fun b =>
           set_rb_received
             (match rb_received b with
              | (a, e) :: rs => (a, wrap64 (e + len)) :: rs
              | [] => []
              end)
             (set_rb_data data b)))
       else mret tt) ;;
      call_on_update sid
      (* the octets the callback left are then copied into owned storage,
         which does not change what the buffer holds *)
    else
      let prev_end := ranges_first_end (rb_received (recvbuf s)) in
      let* b := lift_result (quicly_recvbuf_write off data (recvbuf s)) in
      update_stream sid (with_recvbuf (fun _ => b)) ;;
      if negb (prev_end =? ranges_first_end (rb_received b)) || (prev_end =? rb_eos b)
      then call_on_update sid
      else mret tt.

Definition apply_stream_frame (sid : Z) (frame : quicly_stream_frame_t) : M quicly_conn_t unit :=
  (if sf_is_fin frame then
     let* s := stream_ptr sid in
     let* b := lift_result
                 (quicly_recvbuf_mark_eos
                    (wrap64 (sf_offset frame + Z.of_nat (length (sf_data frame)))) (recvbuf s)) in
     update_stream sid (with_recvbuf (fun _ => b))
   else mret tt) ;;
  do_apply_stream_frame sid (sf_offset frame) (sf_data frame).

(** One round of the [do ... while] loop that opens the streams of the
    peer: the stream of id [peer.next_stream_id] is opened and reported to
    the host; the result is the id of the stream, read through the pointer. *)
Definition open_peer_stream : M quicly_conn_t Z :=
  let* c := get in
  let next := peer_next_stream_id (super c) in
  open_stream next ;;
  call_on_stream_open next ;;
  modify peer_stream_opened ;;
  let* s := stream_ptr next in
  mret (stream_id s).

(** The loop: rounds until the stream just opened has the given id. *)
Fixpoint open_peer_streams (n : nat) (sid : Z) : M quicly_conn_t unit :=
  match n with
  | O => out_of_fuel
  | S n' =>
    let* opened := open_peer_stream in
    if sid =? opened then mret tt
    else open_peer_streams n' sid
  end.

Definition get_stream_or_open_if_new (sid : Z) : M quicly_conn_t (option Z) :=
  let* c := get in
  match quicly_get_stream c sid with
  | Some _ => mret (Some sid)
  | None =>
    if negb (sid mod 2 =? Z.b2z (quicly_is_client c))
       && negb (peer_next_stream_id (super c) =? 0)
       && (peer_next_stream_id (super c) <=? sid)
    then
      (* open new streams upto given id *)
      open_peer_streams fuel sid ;;
      (* disallow opening new streams if the number has overlapped *)
      modify peer_streams_exhausted ;;
      mret (Some sid)
    else mret None
  end.

Definition handle_stream_frame (frame : quicly_stream_frame_t) : M quicly_conn_t unit :=
  let* stream := get_stream_or_open_if_new (sf_stream_id frame) in
  match stream with
  | None => mret tt
  | Some sid => apply_stream_frame sid frame
  end.

Definition handle_rst_stream_frame (frame : quicly_rst_stream_frame_t) : M quicly_conn_t unit :=
  let* stream := get_stream_or_open_if_new (rf_stream_id frame) in
  match stream with
  | None => mret tt
  | Some sid =>
    let* s := stream_ptr sid in
    (if rb_eos (recvbuf s) =? UINT64_MAX then
       if rf_final_offset frame <? ranges_last_end (rb_received (recvbuf s))
       then fail QUICLY_ERROR_TBD
       else
         (* the result of quicly_recvbuf_mark_eos is not looked at *)
         update_stream sid (with_recvbuf (fun b =>
           match quicly_recvbuf_mark_eos (rf_final_offset frame) b with
           | Ok b' => b'
           | _ => b
           end)) ;;
         update_stream sid (set_rst_reason (rf_reason frame)) ;;
         call_on_update sid
     else
       if negb (rf_final_offset frame =? ranges_last_end (rb_received (recvbuf s)))
       then fail QUICLY_ERROR_TBD
       else mret tt) ;;
    destroy_stream_if_unneeded sid ;;
    mret tt
  end.

(** ** Ack callbacks *)

Definition reset_sender (sid : Z) (reason : Z) : M quicly_conn_t unit :=
  let* s := stream_ptr sid in
  (* do nothing if we have sent all data *)
  if max_sent s =? sb_eos (sendbuf s) then mret tt
  else
    (* close the sender and mark the eos as the only byte that's not confirmed *)
    assert (negb (quicly_sendbuf_transfer_complete (sendbuf s))) ;;
    quicly_sendbuf_shutdown sid ;;
    let* s := stream_ptr sid in
    quicly_sendbuf_acked sid 0 (sb_eos (sendbuf s)) ;;
    (* setup the sender *)
    update_stream sid (set_rst QUICLY_SENDER_STATE_SEND reason).

Definition on_ack_stream (acked : bool) (sid start end_ : Z) : M quicly_conn_t unit :=
  let* c := get in
  match quicly_get_stream c sid with
  | None => mret tt
  | Some _ =>
    if acked then
      quicly_sendbuf_acked sid start end_ ;;
      destroy_stream_if_unneeded sid ;;
      mret tt
    else
      quicly_sendbuf_lost sid start end_
  end.

Definition on_ack_max_stream_data (acked : bool) (sid value : Z) : M quicly_conn_t unit :=
  let* c := get in
  match quicly_get_stream c sid with
  | Some _ =>
    update_stream sid (with_max_stream_data_sender
                         (if acked then quicly_maxsender_acked value
                          else quicly_maxsender_lost value))
  | None => mret tt
  end.

Definition on_ack_max_data (acked : bool) (value : Z) : M quicly_conn_t unit :=
  modify (update_max_data_sender
            (if acked then quicly_maxsender_acked value else quicly_maxsender_lost value)).

Definition on_ack_stream_state_sender (acked : bool) (sid : Z) (which : state_sender_t)
  : M quicly_conn_t unit :=
  let* c := get in
  match quicly_get_stream c sid with
  | None => mret tt
  | Some _ =>
    if acked then
      update_stream sid (set_sender_state which QUICLY_SENDER_STATE_ACKED) ;;
      destroy_stream_if_unneeded sid ;;
      mret tt
    else
      update_stream sid (set_sender_state which QUICLY_SENDER_STATE_SEND)
  end.

(** [ack->acked(conn, acked, ack)] *)
Definition call_acked (acked : bool) (ack : quicly_ack_t) : M quicly_conn_t unit :=
  match ack_data ack with
  | ack_stream sid start end_ => on_ack_stream acked sid start end_
  | ack_max_stream_data sid value => on_ack_max_stream_data acked sid value
  | ack_max_data value => on_ack_max_data acked value
  | ack_stream_state_sender sid which => on_ack_stream_state_sender acked sid which
  end.

(** The iterator of the ack book is the position [i] of the entry it
    designates.  [quicly_acks_release] followed by [quicly_acks_next]
    removes that entry, and the iterator then designates its successor. *)
Definition quicly_acks_get (c : quicly_conn_t) (i : nat) : option quicly_ack_t :=
  acks (egress c) !! i.

Definition quicly_acks_release (i : nat) : M quicly_conn_t unit :=
  modify (release_ack i).

(** ** ACK frames *)

(** [while (quicly_acks_get(&iter)->packet_number < packet_number)]: the
    result is the position reached, or [None] when the book is exhausted
    ([goto Exit]). *)
Fixpoint ack_skip (n : nat) (i : nat) (pn : Z) : M quicly_conn_t (option nat) :=
  let* c := get in
  match quicly_acks_get c i with
  | None => abort
  | Some a =>
    if ack_packet_number a <? pn then
      match quicly_acks_get c (S i) with
      | None => mret None
      | Some _ =>
        match n with
        | O => out_of_fuel
        | S n' => ack_skip n' (S i) pn
        end
      end
    else mret (Some i)
  end.

(** [while (quicly_acks_get(&iter)->packet_number == packet_number)]: every
    entry of that packet is acked and released. *)
Fixpoint ack_entries (n : nat) (i : nat) (pn : Z) : M quicly_conn_t unit :=
  let* c := get in
  match quicly_acks_get c i with
  | None => abort
  | Some ack =>
    if ack_packet_number ack =? pn then
      call_acked true ack ;;
      quicly_acks_release i ;;
      let* c := get in
      match quicly_acks_get c i with
      | None => mret tt
      | Some _ =>
        match n with
        | O => out_of_fuel
        | S n' => ack_entries n' i pn
        end
      end
    else mret tt
  end.

(** The [do ... while (++packet_number, --block_length != 0)] loop over one
    ack block; [None] is [goto Exit]. *)
Fixpoint ack_block (n : nat) (i : nat) (pn block_length : Z) : M quicly_conn_t (option Z) :=
  ack_entries fuel i pn ;;
  let* c := get in
  match quicly_acks_get c i with
  | None => mret None
  | Some _ =>
    let pn := wrap64 (pn + 1) in
    let block_length := wrap64 (block_length - 1) in
    if block_length =? 0 then mret (Some pn)
    else
      match n with
      | O => out_of_fuel
      | S n' => ack_block n' i pn block_length
      end
  end.

(** The [while (1)] loop over the blocks, from [gap_index = num_gaps] down
    to 0. *)
Fixpoint ack_blocks (frame : quicly_ack_frame_t) (gap_index : nat) (i : nat) (pn : Z)
  : M quicly_conn_t unit :=
  let block_length := nth gap_index (ack_block_lengths frame) 0 in
  let* r :=
    if negb (block_length =? 0) then
      let* j := ack_skip fuel i pn in
      match j with
      | None => mret None
      | Some j =>
        let* pn' := ack_block fuel j pn block_length in
        mret (option_map (fun pn' => (j, pn')) pn')
      end
    else mret (Some (i, pn)) in
  match r with
  | None => mret tt
  | Some (i, pn) =>
    match gap_index with
    | O => mret tt
    | S g => ack_blocks frame g i (wrap64 (pn + nth g (gaps frame) 0))
    end
  end.

Definition handle_ack_frame (frame : quicly_ack_frame_t) : M quicly_conn_t unit :=
  let* c := get in
  match quicly_acks_get c 0 with
  | None => mret tt
  | Some _ => ack_blocks frame (num_gaps frame) 0%nat (smallest_acknowledged frame)
  end.

(** ** Flow-control frames *)

Definition handle_max_stream_data_frame (frame : quicly_max_stream_data_frame_t)
  : M quicly_conn_t unit :=
  let* c := get in
  match quicly_get_stream c (mf_stream_id frame) with
  | None => mret tt
  | Some s =>
    if mf_max_stream_data frame <? max_stream_data s
    then fail QUICLY_ERROR_TBD (* FLOW_CONTROL_ERROR *)
    else update_stream (mf_stream_id frame) (set_max_stream_data (mf_max_stream_data frame))
  end.

Definition handle_stop_sending_frame (frame : quicly_stop_sending_frame_t)
  : M quicly_conn_t unit :=
  let* stream := get_stream_or_open_if_new (ss_stream_id frame) in
  match stream with
  | None => mret tt
  | Some sid => reset_sender sid (error_code E QUICLY_ERROR_TBD)
  end.

Definition handle_max_data_frame (frame : quicly_max_data_frame_t) : M quicly_conn_t unit :=
  let new_value := max_data_kb frame * 1024 in
  let* c := get in
  if new_value <? max_data_permitted (egress c)
  then fail QUICLY_ERROR_TBD (* FLOW_CONTROL_ERROR *)
  else modify (with_egress (set_max_data_permitted new_value)).

(** ** Receiving a packet *)

(** [verify_cleartext_packet]: the payload without its last eight octets,
    and whether they are the FNV-1a hash of the header and that payload. *)
Definition verify_cleartext_packet (packet : quicly_decoded_packet_t) : bool * list Z :=
  if (length (pk_payload packet) <? 8)%nat then (false, pk_payload packet)
  else
    let len := (length (pk_payload packet) - 8)%nat in
    let payload := take len (pk_payload packet) in
    let calced := fnv1a (fnv1a FNV1A_OFFSET_BASIS (pk_header packet)) payload in
    let received := be_decode (drop len (pk_payload packet)) in
    (calced =? received, payload).

(** The [do ... while (src != end)] loop over the frames of the payload;
    the result is [should_ack]. *)
Fixpoint receive_frames (n : nat) (src : list Z) (should_ack : bool) : M quicly_conn_t bool :=
  match n with
  | O => out_of_fuel
  | S n' =>
    match src with
    | [] => abort
    | type_flags :: src =>
      let* (src, should_ack) :=
        if QUICLY_FRAME_TYPE_STREAM E <=? type_flags then
          let* (frame, src) := lift_result (quicly_decode_stream_frame E type_flags src) in
          handle_stream_frame frame ;;
          mret (src, true)
        else if QUICLY_FRAME_TYPE_ACK E <=? type_flags then
          let* (frame, src) := lift_result (quicly_decode_ack_frame E type_flags src) in
          handle_ack_frame frame ;;
          mret (src, should_ack)
        else
          let* src :=
            if type_flags =? QUICLY_FRAME_TYPE_PADDING E then
              mret src
            else if type_flags =? QUICLY_FRAME_TYPE_RST_STREAM E then
              let* (frame, src) := lift_result (quicly_decode_rst_stream_frame E src) in
              handle_rst_stream_frame frame ;;
              mret src
            else if type_flags =? QUICLY_FRAME_TYPE_MAX_DATA E then
              let* (frame, src) := lift_result (quicly_decode_max_data_frame E src) in
              handle_max_data_frame frame ;;
              mret src
            else if type_flags =? QUICLY_FRAME_TYPE_MAX_STREAM_DATA E then
              let* (frame, src) := lift_result (quicly_decode_max_stream_data_frame E src) in
              handle_max_stream_data_frame frame ;;
              mret src
            else if type_flags =? QUICLY_FRAME_TYPE_STOP_SENDING E then
              let* (frame, src) := lift_result (quicly_decode_stop_sending_frame E src) in
              handle_stop_sending_frame frame ;;
              mret src
            else
              abort (* assert(!"FIXME") *) in
          mret (src, true) in
      match src with
      | [] => mret should_ack
      | _ => receive_frames n' src should_ack
      end
    end
  end.

(** [quicly_receive] from the check of the packet's protection on; [aead]
    is the context the packet type selected. *)
Definition receive_payload (aead : option ptls_aead_context_t)
    (packet : quicly_decoded_packet_t) : M quicly_conn_t unit :=
  let* payload :=
    match aead with
    | Some a =>
      match ptls_aead_decrypt E a (pk_payload packet) (pk_packet_number packet)
              (pk_header packet) with
      | None => fail QUICLY_ERROR_DECRYPTION_FAILURE
      | Some payload => mret payload
      end
    | None =>
      let (ok, payload) := verify_cleartext_packet packet in
      if negb ok then fail QUICLY_ERROR_DECRYPTION_FAILURE else mret payload
    end in
  match payload with
  | [] => fail QUICLY_ERROR_INVALID_FRAME_DATA
  | _ =>
    let* should_ack := receive_frames fuel payload false in
    if should_ack then
      modify (schedule_ack (pk_packet_number packet)) ;;
      match aead with
      | Some _ => modify (with_egress (set_acks_require_encryption true))
      | None => mret tt
      end
    else mret tt
  end.

Definition quicly_receive (packet : quicly_decoded_packet_t) : M quicly_conn_t unit :=
  (* FIXME check peer address *)
  modify (with_super (set_connection_id (pk_connection_id packet))) ;;
  let* c := get in
  (* ignore packets having wrong connection id *)
  if negb (pk_connection_id packet =? connection_id (super c))
  then fail QUICLY_ERROR_PACKET_IGNORED
  else if negb (is_long_header packet) && negb (state_is_1rtt (state (super c)))
  then fail QUICLY_ERROR_INVALID_PACKET_HEADER
  else
    let type := pk_type packet in
    if type =? QUICLY_PACKET_TYPE_CLIENT_CLEARTEXT then
      if quicly_is_client c then fail QUICLY_ERROR_INVALID_PACKET_HEADER
      else receive_payload None packet
    else if type =? QUICLY_PACKET_TYPE_SERVER_CLEARTEXT then
      if negb (quicly_is_client c) then fail QUICLY_ERROR_INVALID_PACKET_HEADER
      else receive_payload None packet
    else if type =? QUICLY_PACKET_TYPE_0RTT_PROTECTED then
      match quicly_is_client c, aead_early_data (ingress_pp (ingress c)) with
      | false, Some aead => receive_payload (Some aead) packet
      | _, _ => fail QUICLY_ERROR_INVALID_PACKET_HEADER
      end
    else if type =? QUICLY_PACKET_TYPE_1RTT_KEY_PHASE_0 then
      match aead_key_phase0 (ingress_pp (ingress c)) with
      | None =>
        (* drop 1rtt-encrypted packets received prior to handshake completion *)
        if state_is_1rtt (quicly_get_state c) then fail QUICLY_ERROR_INVALID_PACKET_HEADER
        else mret tt
      | Some aead => receive_payload (Some aead) packet
      end
    else if type =? QUICLY_PACKET_TYPE_1RTT_KEY_PHASE_1 then
      match aead_key_phase1 (ingress_pp (ingress c)) with
      | None => fail QUICLY_ERROR_INVALID_PACKET_HEADER
      | Some aead => receive_payload (Some aead) packet
      end
    else if type =? QUICLY_PACKET_TYPE_CLIENT_INITIAL then
      (* FIXME ignore for time being *)
      mret tt
    else fail QUICLY_ERROR_INVALID_PACKET_HEADER.

(** ** Loss detection *)

(** The loop of [handle_timeouts]: the iterator starts at the oldest entry,
    and since every entry it passes is released it stays at position 0.  A
    round releases one entry, so the length of the book bounds the rounds. *)
Fixpoint handle_timeouts_loop (n : nat) (sent_before : Z) : M quicly_conn_t unit :=
  let* c := get in
  match quicly_acks_get c 0 with
  | None => mret tt
  | Some ack =>
    if sent_before <? sent_at ack then mret tt
    else
      match n with
      | O => out_of_fuel
      | S n' =>
        call_acked false ack ;;
        quicly_acks_release 0 ;;
        handle_timeouts_loop n' sent_before
      end
  end.

Definition handle_timeouts (now : Z) : M quicly_conn_t unit :=
  let* c := get in
  let sent_before := now - initial_rto (ctx c) in
  handle_timeouts_loop (length (acks (egress c))) sent_before.

(** ** The sender *)

(** What the sender writes into a packet, frame by frame.  The octets of a
    frame are produced by the encoders of [quicly/frame.h]; a packet is
    kept as the frames it carries and the number of octets they take. *)
Inductive frame_item : Type :=
| item_ack (size : Z) (range_index : nat) (next : option nat)
| item_max_data (value : Z)
| item_max_stream_data (sid value : Z)
| item_stop_sending (sid reason : Z)
| item_rst_stream (sid reason final_offset : Z)
| item_stream (fin : bool) (sid off : Z) (explicit_length : bool) (data : list Z)
| item_padding (n : Z).

Definition item_is_ack (i : frame_item) : bool :=
  match i with item_ack _ _ _ => true | _ => false end.

(** A packet handed to the host: the header as [emit_long_header] wrote it,
    the frames, whether the packet was sealed by the AEAD (otherwise it ends
    in the FNV-1a hash), and [data.len]. *)
Record quicly_raw_packet_t : Type := {
  raw_header : list Z;
  raw_items : list frame_item;
  raw_protected : bool;
  raw_len : Z
}.

(** The packet under construction: [s->target] with [s->dst] and
    [s->dst_end] as offsets from [target->data.base]. *)
Record send_target_t : Type := {
  tg_header : list Z;
  tg_items : list frame_item;
  dst : Z;
  dst_end : Z
}.

Record st_quicly_send_context_t : Type := {
  packet_type : Z;
  aead : option ptls_aead_context_t;
  now : Z;
  max_packets : Z;
  packets : list quicly_raw_packet_t;
  target : option send_target_t
}.

Definition num_packets (s : st_quicly_send_context_t) : Z := Z.of_nat (length (packets s)).

Definition set_target (t : option send_target_t) (s : st_quicly_send_context_t) :=
  {| packet_type := packet_type s; aead := aead s; now := now s; max_packets := max_packets s;
     packets := packets s; target := t |}.
Definition set_packets (p : list quicly_raw_packet_t) (s : st_quicly_send_context_t) :=
  {| packet_type := packet_type s; aead := aead s; now := now s; max_packets := max_packets s;
     packets := p; target := target s |}.
Definition set_packet_type (ty : Z) (a : option ptls_aead_context_t)
    (s : st_quicly_send_context_t) :=
  {| packet_type := ty; aead := a; now := now s; max_packets := max_packets s;
     packets := packets s; target := target s |}.

(** The state of the functions of the sender: the connection and the send
    context. *)
Definition send_state : Type := quicly_conn_t * st_quicly_send_context_t.

Definition on_conn {A} (m : M quicly_conn_t A) : M send_state A :=
  fun cs => let (r, c') := m cs.1 in (r, (c', cs.2)).
Definition get_conn : M send_state quicly_conn_t := gets fst.
Definition get_ctx : M send_state st_quicly_send_context_t := gets snd.
Definition modify_ctx (f : st_quicly_send_context_t -> st_quicly_send_context_t)
  : M send_state unit := modify (fun cs => (cs.1, f cs.2)).

Definition emit_long_header (type : Z) (connection_id : Z) (rounded_packet_number : Z) : list Z :=
  [Z.lor 0x80 type] ++ be_encode 8 connection_id ++ be_encode 4 rounded_packet_number
  ++ be_encode 4 QUICLY_PROTOCOL_VERSION.

Definition GET_TYPE_FROM_PACKET_HEADER (p : list Z) : Z := Z.land (hd 0 p) 0x1f.

(** A frame of [size] octets written at [s->dst]. *)
Definition push_item (i : frame_item) (size : Z) : M send_state unit :=
  let* s := get_ctx in
  match target s with
  | None => abort
  | Some t =>
    modify_ctx (set_target (Some {| tg_header := tg_header t; tg_items := tg_items t ++ [i];
                                    dst := dst t + size; dst_end := dst_end t |}))
  end.

Definition commit_send_packet : M send_state unit :=
  let* s := get_ctx in
  match target s with
  | None => abort
  | Some t =>
    let len := match aead s with
               | Some _ => dst t + aead_tag_size E
               | None => dst t + 8
               end in
    modify_ctx (fun s =>
      set_target None
        (set_packets (packets s ++ [{| raw_header := tg_header t; raw_items := tg_items t;
                                       raw_protected := bool_decide (is_Some (aead s));
                                       raw_len := len |}]) s)) ;;
    on_conn (modify next_packet_number)
  end.

(** The second half of [prepare_packet]: a packet is allocated, the long
    header is written, and room is kept for the tag or the hash.  (The
    allocation is taken to succeed.) *)
Definition start_packet : M send_state unit :=
  let* s := get_ctx in
  let* c := get_conn in
  let header := emit_long_header (packet_type s) (connection_id (super c))
                  (wrap32 (packet_number (egress c))) in
  let t := {| tg_header := header; tg_items := [];
              dst := Z.of_nat (length header);
              dst_end := max_packet_size (ctx c)
                         - match aead s with
                           | Some _ => aead_tag_size E
                           | None => 8 (* space for fnv1a-64 *)
                           end |} in
  modify_ctx (set_target (Some t)) ;;
  assert (dst t <? dst_end t).

Definition prepare_packet (min_space : Z) : M send_state unit :=
  let* s := get_ctx in
  let room := match target s with Some t => wrap64 (dst_end t - dst t) | None => 0 end in
  (* allocate and setup the new packet if necessary *)
  let* fresh :=
    if room <? min_space then mret true
    else match target s with
         | None => abort
         | Some t => mret (negb (GET_TYPE_FROM_PACKET_HEADER (tg_header t) =? packet_type s))
         end in
  if fresh then
    (match target s with
     | Some t =>
       (if negb (dst t =? dst_end t)
        then push_item (item_padding (dst_end t - dst t)) (dst_end t - dst t)
        else mret tt) ;;
       commit_send_packet
     | None => mret tt
     end) ;;
    let* s := get_ctx in
    if max_packets s <=? num_packets s then mret tt
    else start_packet
  else mret tt.

Definition quicly_acks_allocate (now : Z) (data : quicly_ack_data_t) : M send_state unit :=
  on_conn (modify (allocate_ack now data)).

(** The [do ... while (range_index != SIZE_MAX)] loop of [send_ack]. *)
Fixpoint send_ack_loop (n : nat) (range_index : nat) : M send_state unit :=
  let* c := get_conn in
  prepare_packet (quicly_ack_frame_get_minimum_capacity E (ack_queue (ingress c)) range_index) ;;
  let* s := get_ctx in
  match target s with
  | None => mret tt
  | Some t =>
    let (size, next) :=
      quicly_encode_ack_frame E (dst_end t - dst t) (ack_queue (ingress c)) range_index in
    push_item (item_ack size range_index next) size ;;
    match next with
    | None => mret tt
    | Some range_index =>
      match n with
      | O => out_of_fuel
      | S n' => send_ack_loop n' range_index
      end
    end
  end.

Definition send_ack : M send_state unit :=
  let* c := get_conn in
  match ack_queue (ingress c) with
  | [] => mret tt
  | _ =>
    send_ack_loop fuel (length (ack_queue (ingress c)) - 1)%nat ;;
    on_conn (modify clear_ack_queue)
  end.

Definition send_max_data_frame : M send_state unit :=
  prepare_packet (QUICLY_MAX_DATA_FRAME_SIZE E) ;;
  let* s := get_ctx in
  match target s with
  | None => mret tt
  | Some _ =>
    let* c := get_conn in
    (* calculate new value *)
    let new_value := wrap64 (wrap64 (bytes_consumed (ingress c) / 1024)
                             + initial_max_data_kb (transport_params (ctx c))) in
    quicly_acks_allocate (now s) (ack_max_data new_value) ;;
    push_item (item_max_data new_value) (QUICLY_MAX_DATA_FRAME_SIZE E) ;;
    on_conn (modify (update_max_data_sender (quicly_maxsender_record new_value)))
  end.

Definition send_max_stream_data_frame (sid : Z) : M send_state unit :=
  prepare_packet (QUICLY_MAX_STREAM_DATA_FRAME_SIZE E) ;;
  let* s := get_ctx in
  match target s with
  | None => mret tt
  | Some _ =>
    let* stream := on_conn (stream_ptr sid) in
    let new_value := wrap64 (rb_data_off (recvbuf stream) + window stream) in
    quicly_acks_allocate (now s) (ack_max_stream_data (stream_id stream) new_value) ;;
    push_item (item_max_stream_data (stream_id stream) new_value)
      (QUICLY_MAX_STREAM_DATA_FRAME_SIZE E) ;;
    on_conn (update_stream sid
               (with_max_stream_data_sender (quicly_maxsender_record new_value)))
  end.

(** [send_stream_frame]: the result is [iter->stream_off] after the call. *)
Definition send_stream_frame (sid : Z) (stream_off : Z) (max_bytes : Z) : M send_state Z :=
  let* stream := on_conn (stream_ptr sid) in
  let eos := sb_eos (sendbuf stream) in
  let (stream_id_length, offset_length) :=
    quicly_determine_stream_frame_field_lengths E (stream_id stream) stream_off in
  let header_length := 1 + stream_id_length + offset_length in
  prepare_packet (header_length + (if stream_off =? eos then 0 else 1)) ;;
  let* s := get_ctx in
  match target s with
  | None => mret stream_off
  | Some t =>
    let capacity := wrap64 (dst_end t - dst t - header_length) in
    let avail := wrap64 (max_bytes - (if eos <? wrap64 (stream_off + max_bytes) then 1 else 0)) in
    let copysize := if capacity <=? avail then capacity else avail in
    let explicit_length := copysize + 2 <? capacity in
    let fin := eos <=? wrap64 (stream_off + copysize) in
    (* prepare ack storage *)
    let (emitted, args) := quicly_sendbuf_emit (sendbuf stream) stream_off copysize in
    let (bytes, stream_off') := emitted in
    quicly_acks_allocate (now s) (ack_stream (stream_id stream) args.1 args.2) ;;
    (* adjust remaining send window *)
    (if max_sent stream <? stream_off + copysize then
       (if negb (stream_id stream =? 0) then
          let delta := stream_off + copysize - max_sent stream in
          let* c := get_conn in
          assert (max_data_sent (egress c) + delta <=? max_data_permitted (egress c)) ;;
          on_conn (modify (add_max_data_sent delta))
        else mret tt) ;;
       on_conn (update_stream sid (set_max_sent (stream_off + copysize)))
     else mret tt) ;;
    (* send *)
    push_item (item_stream fin (stream_id stream) stream_off explicit_length bytes)
      (header_length + (if explicit_length then 2 else 0) + copysize) ;;
    mret stream_off'
  end.

(** The [while (iter.stream_off < end)] loop; the boolean tells that no
    packet was left to write into ([goto ShrinkToIter]). *)
Fixpoint send_range (n : nat) (sid : Z) (stream_off end_ : Z) : M send_state (Z * bool) :=
  if stream_off <? end_ then
    match n with
    | O => out_of_fuel
    | S n' =>
      let* stream_off := send_stream_frame sid stream_off (end_ - stream_off) in
      let* s := get_ctx in
      match target s with
      | None => mret (stream_off, true)
      | Some _ => send_range n' sid stream_off end_
      end
    end
  else mret (stream_off, false).

(** The [for] loop over the pending ranges, from the range of index [i];
    the result is how the loop was left: [None] when all ranges were sent,
    otherwise the index and the new start of its range (for
    [ShrinkToIter]), if any. *)
Fixpoint send_pending (ranges : quicly_ranges_t) (i : nat) (sid : Z)
    (max_stream_data stream_off : Z) : M send_state (option (nat * option Z)) :=
  match ranges with
  | [] => mret None
  | (start, range_end) :: ranges' =>
    if max_stream_data <=? start then mret (Some (i, None))
    else
      let end_ := if max_stream_data <? range_end then max_stream_data else range_end in
      assert (stream_off <=? start) ;;
      let* (stream_off, stopped) := send_range fuel sid start end_ in
      if stopped then mret (Some (i, Some stream_off))
      else if stream_off <? range_end then mret (Some (i, Some stream_off))
      else send_pending ranges' (S i) sid max_stream_data stream_off
  end.

Definition send_stream_frames (sid : Z) : M send_state unit :=
  let* stream := on_conn (stream_ptr sid) in
  let* c := get_conn in
  let eos := sb_eos (sendbuf stream) in
  let max_stream_data :=
    if eos <=? wrap64 (max_sent stream + 1) then wrap64 (eos + 1)
    else
      let delta := wrap64 (max_stream_data stream - max_sent stream) in
      let window := wrap128 (max_data_permitted (egress c) - max_data_sent (egress c)) in
      let delta := if negb (stream_id stream =? 0) && (window <? delta)
                   then wrap64 window else delta in
      let m := wrap64 (max_sent stream + delta) in
      if m =? eos then wrap64 (m + 1) else m in
  let pending := sb_pending (sendbuf stream) in
  let* r := send_pending pending 0%nat sid max_stream_data (sb_data_off (sendbuf stream)) in
  let new_pending :=
    match r with
    | None => quicly_ranges_clear pending
    | Some (i, None) => quicly_ranges_shrink pending 0 i
    | Some (i, Some stream_off) =>
      quicly_ranges_shrink
        (match pending !! i with
         | Some (_, e) => <[i := (stream_off, e)]> pending
         | None => pending
         end) 0 i
    end in
  on_conn (update_stream sid (with_sendbuf (set_sb_pending new_pending))).

(** [prepare_stream_state_sender]: room is asked for a STOP_SENDING frame
    whatever [min_space] is. *)
Definition prepare_stream_state_sender (sid : Z) (which : state_sender_t) (min_space : Z)
  : M send_state unit :=
  prepare_packet (QUICLY_STOP_SENDING_FRAME_SIZE E) ;;
  let* s := get_ctx in
  match target s with
  | None => mret tt
  | Some _ =>
    let* stream := on_conn (stream_ptr sid) in
    quicly_acks_allocate (now s) (ack_stream_state_sender (stream_id stream) which) ;;
    on_conn (update_stream sid (set_sender_state which QUICLY_SENDER_STATE_UNACKED))
  end.

Definition send_stream (sid : Z) : M send_state unit :=
  let* destroyed := on_conn (destroy_stream_if_unneeded sid) in
  if destroyed then mret tt
  else
    let* stream := on_conn (stream_ptr sid) in
    (* send STOP_SENDING if necessary *)
    let* go_on :=
      if sender_state_is_send (stop_sending_state stream) then
        prepare_stream_state_sender sid stop_sending_sender (QUICLY_STOP_SENDING_FRAME_SIZE E) ;;
        let* s := get_ctx in
        match target s with
        | None => mret false
        | Some _ =>
          push_item (item_stop_sending (stream_id stream) (stop_sending_reason stream))
            (QUICLY_STOP_SENDING_FRAME_SIZE E) ;;
          mret true
        end
      else mret true in
    if negb go_on then mret tt
    else
      (* send RST_STREAM if necessary *)
      if sender_state_is_send (rst_state stream) then
        prepare_stream_state_sender sid rst_sender (QUICLY_RST_FRAME_SIZE E) ;;
        let* s := get_ctx in
        match target s with
        | None => mret tt
        | Some _ =>
          push_item (item_rst_stream (stream_id stream) (rst_reason_sent stream)
                       (max_sent stream)) (QUICLY_RST_FRAME_SIZE E)
        end
      else
        (* send MAX_STREAM_DATA if necessary *)
        (if quicly_maxsender_should_update (max_stream_data_sender stream)
              (rb_data_off (recvbuf stream)) (window stream) 512
         then send_max_stream_data_frame sid
         else mret tt) ;;
        send_stream_frames sid.

(** [kh_foreach_value(conn->streams, ...)] over the streams that were in
    the table when the loop began. *)
Fixpoint send_streams (ids : list Z) : M send_state unit :=
  match ids with
  | [] => mret tt
  | sid :: ids' =>
    let* c := get_conn in
    (match quicly_get_stream c sid with
     | Some stream => if negb (stream_id stream =? 0) then send_stream sid else mret tt
     | None => mret tt
     end) ;;
    send_streams ids'
  end.

(** The cleartext part of [quicly_send]: the packet type is chosen, the
    pending ACKs are sent unless they require encryption, and stream 0 is
    driven. *)
Definition send_cleartext_frames : M send_state unit :=
  let* c := get_conn in
  let packet_type :=
    if quicly_is_client c then
      if state_is_before_sh (quicly_get_state c) then QUICLY_PACKET_TYPE_CLIENT_INITIAL
      else QUICLY_PACKET_TYPE_CLIENT_CLEARTEXT
    else QUICLY_PACKET_TYPE_SERVER_CLEARTEXT in
  modify_ctx (set_packet_type packet_type None) ;;
  (if negb (acks_require_encryption (egress c))
      && negb (packet_type =? QUICLY_PACKET_TYPE_CLIENT_INITIAL)
   then send_ack else mret tt) ;;
  send_stream 0.

(** [if (s.target != NULL) { ... commit_send_packet(conn, &s); }] at the end
    of the cleartext part: a CLIENT_INITIAL packet is padded to 1272
    octets, and must be the only one. *)
Definition commit_cleartext_packet : M send_state unit :=
  let* s := get_ctx in
  match target s with
  | Some t =>
    (if packet_type s =? QUICLY_PACKET_TYPE_CLIENT_INITIAL then
       if negb (num_packets s =? 0) then fail QUICLY_ERROR_HANDSHAKE_TOO_LARGE
       else
         let max_size := 1272 in (* max UDP packet size excluding fnv1a hash *)
         assert (dst t <=? max_size) ;;
         push_item (item_padding (max_size - dst t)) (max_size - dst t)
     else mret tt) ;;
    commit_send_packet
  | None => mret tt
  end.

(** The encrypted part of [quicly_send]. *)
Definition send_encrypted_frames : M send_state unit :=
  let* c := get_conn in
  if state_is_1rtt (quicly_get_state c) then
    modify_ctx (set_packet_type QUICLY_PACKET_TYPE_1RTT_KEY_PHASE_0
                  (aead_key_phase0 (egress_pp (egress c)))) ;;
    send_ack ;;
    let* c := get_conn in
    (if quicly_maxsender_should_update (max_data_sender (ingress c))
          (wrap64 (bytes_consumed (ingress c) / 1024))
          (initial_max_data_kb (transport_params (ctx c))) 512
     then send_max_data_frame else mret tt) ;;
    let* c := get_conn in
    send_streams (map fst (map_to_list (streams c))) ;;
    let* s := get_ctx in
    match target s with
    | Some _ => commit_send_packet
    | None => mret tt
    end
  else mret tt.

(** The body of [quicly_send] after the timeouts, on the send context. *)
Definition send_packets : M send_state unit :=
  send_cleartext_frames ;;
  commit_cleartext_packet ;;
  send_encrypted_frames.

Definition send_context_init (now : Z) (num_packets : Z) : st_quicly_send_context_t :=
  {| packet_type := 255; aead := None; now := now; max_packets := num_packets;
     packets := []; target := None |}.

(** [quicly_send(conn, packets, num_packets)] at the time [now]: the state
    the call leaves, the connection and the send context with the packets
    written into the array. *)
Definition quicly_send_run (now : Z) (num_packets : Z) (c : quicly_conn_t)
  : result unit * send_state :=
  match handle_timeouts now c with
  | (Ok _, c') => send_packets (c', send_context_init now num_packets)
  | (Err e, c') => (Err e, (c', send_context_init now num_packets))
  | (Abort, c') => (Abort, (c', send_context_init now num_packets))
  | (OutOfFuel, c') => (OutOfFuel, (c', send_context_init now num_packets))
  end.

(** What the caller of [quicly_send] gets: on success, the packets. *)
Definition quicly_send (now : Z) (num_packets : Z) : M quicly_conn_t (list quicly_raw_packet_t) :=
  fun c =>
    match quicly_send_run now num_packets c with
    | (Ok _, (c', s)) => (Ok (packets s), c')
    | (Err e, (c', _)) => (Err e, c')
    | (Abort, (c', _)) => (Abort, c')
    | (OutOfFuel, (c', _)) => (OutOfFuel, c')
    end.

(** ** Creating a connection *)

Definition create_connection (ctx : quicly_context_t) (is_client : bool) : quicly_conn_t :=
  let conn :=
    {| ctx := ctx;
       super := {| connection_id := 0; state := QUICLY_STATE_BEFORE_SH;
                   host_num_streams := 0; host_next_stream_id := 0;
                   peer_num_streams := 0; peer_next_stream_id := 0;
                   peer_transport_params := transport_params_before_handshake |};
       streams := ∅;
       ingress := {| ingress_pp := packet_protection_zero; ack_queue := [];
                     bytes_consumed := 0;
                     max_data_sender :=
                       quicly_maxsender_init (initial_max_data_kb (transport_params ctx)) |};
       egress := {| egress_pp := packet_protection_zero; acks := []; packet_number := 0;
                    max_data_permitted := 0; max_data_sent := 0;
                    acks_require_encryption := false |};
       crypto_data := {| tls_is_server := negb is_client; tls_inputs := [];
                         collected_extensions := None; additional_extensions := None |} |} in
  (* instantiate the crypto stream *)
  let conn := with_streams (insert 0 (set_on_update (Some crypto_update_cb) (new_stream conn 0)))
                conn in
  if is_client
  then with_super (fun p => set_peer (peer_num_streams p) 2 (set_host (host_num_streams p) 1 p)) conn
  else with_super (fun p => set_peer (peer_num_streams p) 1 (set_host (host_num_streams p) 2 p)) conn.

Definition quicly_connect (ctx : quicly_context_t) : M quicly_conn_t unit :=
  fun _ =>
    let conn := create_connection ctx true in
    let buf := be_encode 4 QUICLY_PROTOCOL_VERSION ++ be_encode 4 QUICLY_PROTOCOL_VERSION
               ++ TransportParameters.encode_transport_parameter_list (transport_params ctx) in
    let conn := with_crypto_data
                  (set_crypto_extensions (Some client_collected_extensions_cb) (Some buf)) conn in
    (let* (ret, _, output) := call_ptls_handshake [] in
     if is_in_progress ret then write_tlsbuf 0 output
     else match ret with
          | Some e => fail e
          | None => mret tt
          end) conn.

End Engine.

(** * A concrete environment *)

(** Modelled from the spec: [quicly/frame.h], [quicly/error.h] and the TLS
    provider are not among the sources.  The frame types and layouts are
    those of the draft whose version number the source carries (PADDING is
    0 and STREAM is the family with the two high bits set); the provider
    is a scripted one.  The theorems below hold for every environment; this
    one is used where a statement is evaluated on a concrete input. *)
Module Example.

Definition code_of_error (e : error) : Z :=
  match e with
  | QUICLY_ERROR_INVALID_PACKET_HEADER => 0xff01
  | QUICLY_ERROR_INVALID_FRAME_DATA => 0xff02
  | QUICLY_ERROR_INVALID_STREAM_DATA => 0xff03
  | QUICLY_ERROR_DECRYPTION_FAILURE => 0xff04
  | QUICLY_ERROR_PACKET_IGNORED => 0xff05
  | QUICLY_ERROR_VERSION_NEGOTIATION_MISMATCH => 0xff06
  | QUICLY_ERROR_HANDSHAKE_TOO_LARGE => 0xff07
  | QUICLY_ERROR_FIN_CLOSED => 0xff08
  | QUICLY_ERROR_TOO_MANY_OPEN_STREAMS => 0xff09
  | QUICLY_ERROR_FLOW_CONTROL_ERROR => 0xff0a
  | QUICLY_ERROR_TBD => 0xff0b
  | PTLS_ERROR_NO_MEMORY => 0x201
  | PTLS_ERROR_IN_PROGRESS => 0x202
  | PTLS_ALERT_DECODE_ERROR => 50
  | PTLS_ALERT_ILLEGAL_PARAMETER => 47
  | OTHER_ERROR code => code
  end.

(** A reader of [n] octets in network order. *)
Definition read (n : nat) (src : list Z) : result (Z * list Z) :=
  if (length src <? n)%nat then Err QUICLY_ERROR_INVALID_FRAME_DATA
  else Ok (be_decode (take n src), drop n src).

Definition rbind {A B} (r : result A) (k : A -> result B) : result B :=
  match r with
  | Ok a => k a
  | Err e => Err e
  | Abort => Abort
  | OutOfFuel => OutOfFuel
  end.

(** STREAM: the type octet is [11FSSOOD]. *)
Definition decode_stream_frame (type_flags : Z) (src : list Z)
  : result (quicly_stream_frame_t * list Z) :=
  let fin := Z.testbit type_flags 5 in
  let sid_len := Z.to_nat (Z.land (Z.shiftr type_flags 3) 3 + 1) in
  let off_len := match Z.land (Z.shiftr type_flags 1) 3 with
                 | 0 => 0%nat | 1 => 2%nat | 2 => 4%nat | _ => 8%nat
                 end in
  rbind (read sid_len src) (fun '(sid, src) =>
  rbind (read off_len src) (fun '(off, src) =>
  if Z.testbit type_flags 0 then
    rbind (read 2 src) (fun '(len, src) =>
    if (length src <? Z.to_nat len)%nat then Err QUICLY_ERROR_INVALID_FRAME_DATA
    else Ok ({| sf_stream_id := sid; sf_is_fin := fin; sf_offset := off;
                sf_data := take (Z.to_nat len) src |}, drop (Z.to_nat len) src))
  else Ok ({| sf_stream_id := sid; sf_is_fin := fin; sf_offset := off; sf_data := src |}, []))).

(** The [count] pairs of a gap (one octet) and a block length. *)
Fixpoint decode_ack_blocks (count : nat) (src : list Z) (lengths gaps : list Z)
  : result (list Z * list Z * list Z) :=
  match count with
  | O => Ok (lengths, gaps, src)
  | S count' =>
    rbind (read 1 src) (fun '(gap, src) =>
    rbind (read 4 src) (fun '(len, src) =>
    decode_ack_blocks count' src (len :: lengths) (gap :: gaps)))
  end.

(** ACK: the type octet is [101NLLMM]; the largest acknowledged and the
    block lengths are read on four octets, the number of blocks and of
    timestamps on one. *)
Definition decode_ack_frame (type_flags : Z) (src : list Z)
  : result (quicly_ack_frame_t * list Z) :=
  rbind (if Z.testbit type_flags 4 then read 1 src else Ok (0, src)) (fun '(nblocks, src) =>
  rbind (read 1 src) (fun '(_, src) =>
  rbind (read 4 src) (fun '(largest, src) =>
  rbind (read 2 src) (fun '(_, src) =>
  rbind (read 4 src) (fun '(first, src) =>
  rbind (decode_ack_blocks (Z.to_nat nblocks) src [first] []) (fun '(lengths, gaps, src) =>
  let covered := fold_right Z.add 0 lengths + fold_right Z.add 0 gaps in
  Ok ({| smallest_acknowledged := wrap64 (largest + 1 - covered);
         num_gaps := Z.to_nat nblocks;
         ack_block_lengths := lengths; gaps := gaps |}, src))))))).

Definition decode_rst_stream_frame (src : list Z) :=
  rbind (read 4 src) (fun '(sid, src) =>
  rbind (read 4 src) (fun '(reason, src) =>
  rbind (read 8 src) (fun '(final, src) =>
  Ok ({| rf_stream_id := sid; rf_reason := reason; rf_final_offset := final |}, src)))).

Definition decode_max_data_frame (src : list Z) :=
  rbind (read 8 src) (fun '(v, src) => Ok ({| max_data_kb := v |}, src)).

Definition decode_max_stream_data_frame (src : list Z) :=
  rbind (read 4 src) (fun '(sid, src) =>
  rbind (read 8 src) (fun '(v, src) =>
  Ok ({| mf_stream_id := sid; mf_max_stream_data := v |}, src))).

Definition decode_stop_sending_frame (src : list Z) :=
  rbind (read 4 src) (fun '(sid, src) =>
  rbind (read 4 src) (fun '(reason, src) =>
  Ok ({| ss_stream_id := sid; ss_reason := reason |}, src))).

(** The encoder picks the minimum width for the stream id and the offset. *)
Definition determine_stream_frame_field_lengths (stream_id offset : Z) : Z * Z :=
  ((if stream_id <? 2 ^ 8 then 1 else if stream_id <? 2 ^ 16 then 2
    else if stream_id <? 2 ^ 24 then 3 else 4),
   (if offset =? 0 then 0 else if offset <? 2 ^ 16 then 2
    else if offset <? 2 ^ 32 then 4 else 8)).

(** An ACK frame takes 12 octets and 5 more for every further range; the
    encoder writes the ranges from [range_index] down while they fit. *)
Definition ack_frame_get_minimum_capacity (ranges : quicly_ranges_t) (range_index : nat) : Z := 12.

Definition encode_ack_frame (room : Z) (ranges : quicly_ranges_t) (range_index : nat)
  : Z * option nat :=
  let fits := Z.to_nat ((room - 12) / 5) in
  if (range_index <=? fits)%nat then (12 + 5 * Z.of_nat range_index, None)
  else (12 + 5 * Z.of_nat fits, Some (range_index - fits - 1)%nat).

(** The scripted provider.  A client's first call produces a first flight
    of [hello] octets; a later call consumes its input, and the script
    [finished] tells from the input so far whether the handshake is then
    complete.  [export_ok] and [aead_ok] tell whether a secret can be
    exported under a label and whether an AEAD context can be allocated. *)
Section Provider.

Variable hello : nat.
Variable finished : list (list Z) -> bool.
Variable export_ok : string -> bool.
Variable aead_ok : bool -> bool.
Variable stream_open_ret : option error.

Definition handshake (is_server : bool) (inputs : list (list Z)) (ext : option (list Z))
    (input : list Z) : ptls_handshake_result :=
  match input with
  | [] => {| hs_ret := Some PTLS_ERROR_IN_PROGRESS; hs_consumed := 0;
             hs_output := if is_server then [] else replicate hello 1; hs_collected := None |}
  | _ => {| hs_ret := if finished (inputs ++ [input]) then None
                      else Some PTLS_ERROR_IN_PROGRESS;
            hs_consumed := Z.of_nat (length input);
            hs_output := []; hs_collected := None |}
  end.

Definition export_secret (is_server : bool) (inputs : list (list Z)) (label : string)
  : error + list Z :=
  if export_ok label then inr (replicate 32 (Z.of_nat (String.length label)))
  else inl (OTHER_ERROR 1).

Definition aead_new (is_enc : bool) (secret : list Z) : option ptls_aead_context_t :=
  if aead_ok is_enc then Some {| aead_secret := secret; aead_is_enc := is_enc |} else None.

(** Opening a packet: the tag of 16 octets at its end must repeat the first
    octet of the secret. *)
Definition aead_decrypt (a : ptls_aead_context_t) (payload : list Z) (pn : Z)
    (header : list Z) : option (list Z) :=
  let n := (length payload - 16)%nat in
  if (length payload <? 16)%nat then None
  else if forallb (fun b => b =? hd 0 (aead_secret a)) (drop n payload)
  then Some (take n payload) else None.

Definition env : env :=
  {| error_code := code_of_error;
     shl_wide := TransportParameters.shl_count_masked;
     QUICLY_FRAME_TYPE_PADDING := 0;
     QUICLY_FRAME_TYPE_RST_STREAM := 1;
     QUICLY_FRAME_TYPE_MAX_DATA := 4;
     QUICLY_FRAME_TYPE_MAX_STREAM_DATA := 5;
     QUICLY_FRAME_TYPE_STOP_SENDING := 12;
     QUICLY_FRAME_TYPE_ACK := 0xa0;
     QUICLY_FRAME_TYPE_STREAM := 0xc0;
     quicly_decode_stream_frame := decode_stream_frame;
     quicly_decode_ack_frame := decode_ack_frame;
     quicly_decode_rst_stream_frame := decode_rst_stream_frame;
     quicly_decode_max_data_frame := decode_max_data_frame;
     quicly_decode_max_stream_data_frame := decode_max_stream_data_frame;
     quicly_decode_stop_sending_frame := decode_stop_sending_frame;
     QUICLY_MAX_DATA_FRAME_SIZE := 9;
     QUICLY_MAX_STREAM_DATA_FRAME_SIZE := 13;
     QUICLY_STOP_SENDING_FRAME_SIZE := 9;
     QUICLY_RST_FRAME_SIZE := 17;
     quicly_determine_stream_frame_field_lengths := determine_stream_frame_field_lengths;
     quicly_ack_frame_get_minimum_capacity := ack_frame_get_minimum_capacity;
     quicly_encode_ack_frame := encode_ack_frame;
     ptls_handshake := handshake;
     ptls_export_secret := export_secret;
     ptls_aead_new := aead_new;
     ptls_aead_decrypt := aead_decrypt;
     aead_tag_size := 16;
     on_stream_open := fun sid _ => ([do_set_on_update sid 0], stream_open_ret);
     app_on_update := fun _ _ _ => ([], None) |}.

End Provider.

(** The default context: an MTU of 1280 octets and an RTO of 1000 ms. *)
Definition ctx : quicly_context_t :=
  {| max_packet_size := 1280; initial_rto := 1000;
     transport_params := transport_params_before_handshake |}.

End Example.


(** * Frame properties *)

(** ** The monad's operations preserve a preorder *)

Section Preserves.

Context {St : Type} (R : St -> St -> Prop).
Hypothesis R_refl : forall s, R s s.
Hypothesis R_trans : forall s1 s2 s3, R s1 s2 -> R s2 s3 -> R s1 s3.

Lemma preserves_mret {A} (a : A) : preserves R (mret a).
Proof. intros s. apply R_refl. Qed.

Lemma preserves_fail {A} (e : error) : preserves R (@fail St A e).
Proof. intros s. apply R_refl. Qed.

Lemma preserves_abort {A} : preserves R (@abort St A).
Proof. intros s. apply R_refl. Qed.

Lemma preserves_out_of_fuel {A} : preserves R (@out_of_fuel St A).
Proof. intros s. apply R_refl. Qed.

Lemma preserves_get : preserves R (@get St).
Proof. intros s. apply R_refl. Qed.

Lemma preserves_gets {A} (f : St -> A) : preserves R (gets f).
Proof. intros s. apply R_refl. Qed.

Lemma preserves_assert (b : bool) : preserves R (@assert St b).
Proof. intros s. unfold assert. destruct b; apply R_refl. Qed.

Lemma preserves_lift_result {A} (r : result A) : preserves R (@lift_result St A r).
Proof. intros s. apply R_refl. Qed.

Lemma preserves_ret_of (r : option error) : preserves R (@ret_of St r).
Proof. intros s. destruct r; apply R_refl. Qed.

Lemma preserves_modify (f : St -> St) : (forall s, R s (f s)) -> preserves R (modify f).
Proof. intros H s. apply H. Qed.

Lemma preserves_mbind {A B} (m : M St A) (k : A -> M St B) :
  preserves R m -> (forall a, preserves R (k a)) -> preserves R (mbind m k).
Proof.
  intros Hm Hk s. unfold mbind. specialize (Hm s).
  destruct (m s) as [[a| | |] s']; simpl in *; try assumption.
  eapply R_trans; [exact Hm | apply Hk].
Qed.

Lemma preserves_mtry (m : M St unit) : preserves R m -> preserves R (mtry m).
Proof.
  intros Hm s. unfold mtry. specialize (Hm s).
  destruct (m s) as [[a| | |] s']; simpl in *; assumption.
Qed.

End Preserves.

(** One step of a proof that a computation preserves a relation: the
    computation is taken apart along its binds, tests and matches. *)
Ltac pres_step :=
  lazymatch goal with
  | |- preserves _ (mbind _ _) => apply preserves_mbind; [ .. | | intros ? ]; try assumption
  | |- preserves _ (mret _) => apply preserves_mret; assumption
  | |- preserves _ (fail _) => apply preserves_fail; assumption
  | |- preserves _ abort => apply preserves_abort; assumption
  | |- preserves _ out_of_fuel => apply preserves_out_of_fuel; assumption
  | |- preserves _ get => apply preserves_get; assumption
  | |- preserves _ (gets _) => apply preserves_gets; assumption
  | |- preserves _ (assert _) => apply preserves_assert; assumption
  | |- preserves _ (lift_result _) => apply preserves_lift_result; assumption
  | |- preserves _ (ret_of _) => apply preserves_ret_of; assumption
  | |- preserves _ (mtry _) => apply preserves_mtry
  | |- preserves _ (modify _) => apply preserves_modify; intros ?
  | |- preserves _ (if ?b then _ else _) => destruct b eqn:?
  | |- preserves _ (match ?x with _ => _ end) => destruct x eqn:?
  end.

Create HintDb pres.

Ltac pres := repeat pres_step; eauto with pres.

Section Frame.

Variable E : env.
Variable fuel : nat.
Variable R : quicly_conn_t -> quicly_conn_t -> Prop.
Hypothesis R_refl : forall c, R c c.
Hypothesis R_trans : forall c1 c2 c3, R c1 c2 -> R c2 c3 -> R c1 c3.

(** What [R] has to allow, update by update. *)
Hypothesis R_put_stream : forall sid s c, R c (put_stream sid s c).
Hypothesis R_remove_stream : forall sid c, R c (remove_stream sid c).
Hypothesis R_consume_bytes : forall n c, R c (consume_bytes n c).
Hypothesis R_host_stream_closed : forall c, R c (host_stream_closed c).
Hypothesis R_peer_stream_closed : forall c, R c (peer_stream_closed c).
Hypothesis R_update_max_data_sender : forall f c, R c (update_max_data_sender f c).
Hypothesis R_host_stream_opened :
  forall c, host_next_stream_id (super c) <> 0 -> R c (host_stream_opened c).

Local Hint Resolve R_put_stream R_remove_stream R_consume_bytes R_host_stream_closed
  R_peer_stream_closed R_update_max_data_sender : pres.

Lemma stream_ptr_pres sid : preserves R (stream_ptr sid).
Proof. unfold stream_ptr. pres. Qed.
Local Hint Resolve stream_ptr_pres : pres.

Lemma update_stream_pres sid f : preserves R (update_stream sid f).
Proof. unfold update_stream. pres. Qed.
Local Hint Resolve update_stream_pres : pres.

Lemma on_sendbuf_change_pres sid : preserves R (on_sendbuf_change sid).
Proof. unfold on_sendbuf_change. pres. Qed.

Lemma on_recvbuf_change_pres sid n : preserves R (on_recvbuf_change sid n).
Proof. unfold on_recvbuf_change. pres. Qed.
Local Hint Resolve on_sendbuf_change_pres on_recvbuf_change_pres : pres.

Lemma quicly_sendbuf_write_pres sid data : preserves R (quicly_sendbuf_write sid data).
Proof. unfold quicly_sendbuf_write. pres. Qed.

Lemma quicly_sendbuf_shutdown_pres sid : preserves R (quicly_sendbuf_shutdown sid).
Proof. unfold quicly_sendbuf_shutdown. pres. Qed.

Lemma quicly_sendbuf_acked_pres sid a b : preserves R (quicly_sendbuf_acked sid a b).
Proof. unfold quicly_sendbuf_acked. pres. Qed.

Lemma quicly_sendbuf_lost_pres sid a b : preserves R (quicly_sendbuf_lost sid a b).
Proof. unfold quicly_sendbuf_lost. pres. Qed.

Lemma quicly_recvbuf_shift_pres sid n : preserves R (quicly_recvbuf_shift sid n).
Proof. unfold quicly_recvbuf_shift. pres. Qed.
Local Hint Resolve quicly_sendbuf_write_pres quicly_sendbuf_shutdown_pres
  quicly_sendbuf_acked_pres quicly_sendbuf_lost_pres quicly_recvbuf_shift_pres : pres.

Lemma open_stream_pres sid : preserves R (open_stream E sid).
Proof. unfold open_stream. pres. Qed.

Lemma destroy_stream_pres sid : preserves R (destroy_stream sid).
Proof. unfold destroy_stream. pres. Qed.
Local Hint Resolve open_stream_pres destroy_stream_pres : pres.

Lemma destroy_stream_if_unneeded_pres sid : preserves R (destroy_stream_if_unneeded sid).
Proof. unfold destroy_stream_if_unneeded. pres. Qed.
Local Hint Resolve destroy_stream_if_unneeded_pres : pres.

Lemma reset_sender_pres sid reason : preserves R (reset_sender sid reason).
Proof. unfold reset_sender. pres. Qed.

Lemma call_acked_pres acked ack : preserves R (call_acked acked ack).
Proof.
  unfold call_acked, on_ack_stream, on_ack_max_stream_data, on_ack_max_data,
    on_ack_stream_state_sender.
  pres.
Qed.
Local Hint Resolve reset_sender_pres call_acked_pres : pres.


Lemma quicly_open_stream_pres : preserves R (quicly_open_stream E).
Proof.
  intros c. unfold quicly_open_stream, mbind, get, open_stream, modify. simpl.
  destruct (host_next_stream_id (super c) =? 0) eqn:Hnext; simpl; [apply R_refl|].
  eapply R_trans; [apply R_put_stream|].
  apply R_host_stream_opened. simpl. lia.
Qed.
Local Hint Resolve quicly_open_stream_pres : pres.

Lemma quicly_close_stream_pres sid : preserves R (quicly_close_stream sid).
Proof. unfold quicly_close_stream. pres. Qed.
Local Hint Resolve quicly_close_stream_pres : pres.

Lemma run_app_action_pres a : preserves R (run_app_action E a).
Proof. unfold run_app_action. pres. Qed.
Local Hint Resolve run_app_action_pres : pres.

Lemma run_app_actions_pres l : preserves R (run_app_actions E l).
Proof. induction l; simpl; pres. Qed.
Local Hint Resolve run_app_actions_pres : pres.

Lemma call_on_stream_open_pres sid : preserves R (call_on_stream_open E sid).
Proof. unfold call_on_stream_open. pres. Qed.
Local Hint Resolve call_on_stream_open_pres : pres.

(** The handshake driver. *)
Hypothesis R_install_key_phase0 : forall side a secret c, R c (install_key_phase0 side a secret c).
Hypothesis R_set_state : forall st c, R c (with_super (set_state st) c).
Hypothesis R_set_peer_transport_params :
  forall p c, R c (with_super (set_peer_transport_params p) c).
Hypothesis R_with_crypto_data : forall f c, R c (with_crypto_data f c).
Hypothesis R_set_max_data_permitted : forall v c, R c (with_egress (set_max_data_permitted v) c).

Local Hint Resolve R_install_key_phase0 R_set_state R_set_peer_transport_params
  R_with_crypto_data R_set_max_data_permitted : pres.

Lemma setup_1rtt_secret_pres side label is_enc :
  preserves R (setup_1rtt_secret E side label is_enc).
Proof. unfold setup_1rtt_secret. pres. Qed.
Local Hint Resolve setup_1rtt_secret_pres : pres.

Lemma setup_1rtt_pres : preserves R (setup_1rtt E).
Proof. unfold setup_1rtt. pres. Qed.

Lemma write_tlsbuf_pres sid buf : preserves R (write_tlsbuf sid buf).
Proof. unfold write_tlsbuf. pres. Qed.
Local Hint Resolve setup_1rtt_pres write_tlsbuf_pres : pres.

Lemma on_peer_transport_params_pres {A} (m : M quicly_transport_parameters_t A) :
  preserves R (on_peer_transport_params m).
Proof.
  intros c. unfold on_peer_transport_params.
  destruct (m (peer_transport_params (super c))) as [r p]. simpl.
  apply R_set_peer_transport_params.
Qed.
Local Hint Resolve on_peer_transport_params_pres : pres.

Lemma client_collected_extensions_pres slot : preserves R (client_collected_extensions E slot).
Proof. unfold client_collected_extensions. pres. Qed.

Lemma server_collected_extensions_pres slot : preserves R (server_collected_extensions E slot).
Proof. unfold server_collected_extensions. pres. Qed.
Local Hint Resolve client_collected_extensions_pres server_collected_extensions_pres : pres.

Lemma call_ptls_handshake_pres input : preserves R (call_ptls_handshake E input).
Proof. unfold call_ptls_handshake. pres. Qed.
Local Hint Resolve call_ptls_handshake_pres : pres.

Lemma handshake_loop_pres n sid ret buf : preserves R (handshake_loop E n sid ret buf).
Proof.
  revert ret buf. induction n; intros ret buf; simpl; pres.
Qed.
Local Hint Resolve handshake_loop_pres : pres.

Lemma crypto_stream_receive_handshake_pres sid :
  preserves R (crypto_stream_receive_handshake E fuel sid).
Proof. unfold crypto_stream_receive_handshake. pres. Qed.
Local Hint Resolve crypto_stream_receive_handshake_pres : pres.

Lemma call_on_update_pres sid : preserves R (call_on_update E fuel sid).
Proof. unfold call_on_update. pres. Qed.
Local Hint Resolve call_on_update_pres : pres.

Lemma do_apply_stream_frame_pres sid off data :
  preserves R (do_apply_stream_frame E fuel sid off data).
Proof. unfold do_apply_stream_frame. pres. Qed.
Local Hint Resolve do_apply_stream_frame_pres : pres.

Lemma apply_stream_frame_pres sid frame : preserves R (apply_stream_frame E fuel sid frame).
Proof. unfold apply_stream_frame. pres. Qed.
Local Hint Resolve apply_stream_frame_pres : pres.

(** The streams of the peer.  The first lemma is for a relation that
    allows the two updates of the peer's counters wherever they occur; the
    lemmas after it only ask that [get_stream_or_open_if_new] preserves the
    relation. *)
Lemma open_peer_stream_pres :
  (forall c, R c (peer_stream_opened c)) -> preserves R (open_peer_stream E).
Proof. intros Hopened. unfold open_peer_stream. pres. Qed.

Lemma open_peer_streams_pres :
  (forall c, R c (peer_stream_opened c)) ->
  forall n sid, preserves R (open_peer_streams E n sid).
Proof.
  intros Hopened n sid. pose proof (open_peer_stream_pres Hopened) as Hstep.
  induction n; simpl; pres.
Qed.

Lemma get_stream_or_open_if_new_pres :
  (forall c, R c (peer_stream_opened c)) ->
  (forall c, R c (peer_streams_exhausted c)) ->
  forall sid, preserves R (get_stream_or_open_if_new E fuel sid).
Proof.
  intros Hopened Hexhausted sid.
  pose proof (open_peer_streams_pres Hopened) as Hloop.
  unfold get_stream_or_open_if_new. pres.
Qed.

Hypothesis R_get_stream_or_open_if_new :
  forall sid, preserves R (get_stream_or_open_if_new E fuel sid).
Hypothesis R_release_ack : forall i c, R c (release_ack i c).

Local Hint Resolve R_get_stream_or_open_if_new R_release_ack : pres.

Lemma handle_stream_frame_pres frame : preserves R (handle_stream_frame E fuel frame).
Proof. unfold handle_stream_frame. pres. Qed.

Lemma handle_rst_stream_frame_pres frame : preserves R (handle_rst_stream_frame E fuel frame).
Proof. unfold handle_rst_stream_frame. pres. Qed.

Lemma handle_stop_sending_frame_pres frame :
  preserves R (handle_stop_sending_frame E fuel frame).
Proof. unfold handle_stop_sending_frame. pres. Qed.

Lemma handle_max_stream_data_frame_pres frame :
  preserves R (handle_max_stream_data_frame frame).
Proof. unfold handle_max_stream_data_frame. pres. Qed.

Lemma handle_max_data_frame_pres frame : preserves R (handle_max_data_frame frame).
Proof. unfold handle_max_data_frame. pres. Qed.

Lemma quicly_acks_release_pres i : preserves R (quicly_acks_release i).
Proof. unfold quicly_acks_release. pres. Qed.
Local Hint Resolve quicly_acks_release_pres : pres.

Lemma ack_skip_pres n i pn : preserves R (ack_skip n i pn).
Proof. revert i. induction n; intros i; simpl; pres. Qed.

Lemma ack_entries_pres n i pn : preserves R (ack_entries n i pn).
Proof. induction n; simpl; pres. Qed.
Local Hint Resolve ack_skip_pres ack_entries_pres : pres.

Lemma ack_block_pres n i pn len : preserves R (ack_block fuel n i pn len).
Proof. revert pn len. induction n; intros pn len; simpl; pres. Qed.
Local Hint Resolve ack_block_pres : pres.

Lemma ack_blocks_pres frame g i pn : preserves R (ack_blocks fuel frame g i pn).
Proof. revert i pn. induction g; intros i pn; simpl; pres. Qed.
Local Hint Resolve ack_blocks_pres : pres.

Lemma handle_ack_frame_pres frame : preserves R (handle_ack_frame fuel frame).
Proof. unfold handle_ack_frame. pres. Qed.

Local Hint Resolve handle_stream_frame_pres handle_rst_stream_frame_pres
  handle_stop_sending_frame_pres handle_max_stream_data_frame_pres
  handle_max_data_frame_pres handle_ack_frame_pres : pres.

Lemma receive_frames_pres n src should_ack :
  preserves R (receive_frames E fuel n src should_ack).
Proof. revert src should_ack. induction n; intros src should_ack; simpl; pres. Qed.
Local Hint Resolve receive_frames_pres : pres.

(** The whole of [quicly_receive]. *)
Hypothesis R_schedule_ack : forall pn c, R c (schedule_ack pn c).
Hypothesis R_set_acks_require_encryption :
  forall c, R c (with_egress (set_acks_require_encryption true) c).
Hypothesis R_set_connection_id : forall v c, R c (with_super (set_connection_id v) c).

Local Hint Resolve R_schedule_ack R_set_acks_require_encryption R_set_connection_id : pres.

Lemma receive_payload_pres aead packet : preserves R (receive_payload E fuel aead packet).
Proof. unfold receive_payload. pres. Qed.
Local Hint Resolve receive_payload_pres : pres.

Lemma quicly_receive_pres packet : preserves R (quicly_receive E fuel packet).
Proof. unfold quicly_receive. pres. Qed.

(** Loss detection. *)
Lemma handle_timeouts_loop_pres n sent_before : preserves R (handle_timeouts_loop n sent_before).
Proof. induction n; simpl; pres. Qed.
Local Hint Resolve handle_timeouts_loop_pres : pres.

Lemma handle_timeouts_pres now : preserves R (handle_timeouts now).
Proof. unfold handle_timeouts. pres. Qed.

End Frame.

#[global] Hint Resolve preserves_modify stream_ptr_pres update_stream_pres
  destroy_stream_if_unneeded_pres : pres.

(** ** The sender *)

Section FrameSend.

Variable E : env.
Variable fuel : nat.
Variable Rc : quicly_conn_t -> quicly_conn_t -> Prop.
Variable R : send_state -> send_state -> Prop.
Hypothesis Rc_refl : forall c, Rc c c.
Hypothesis Rc_trans : forall c1 c2 c3, Rc c1 c2 -> Rc c2 c3 -> Rc c1 c3.
Hypothesis R_refl : forall s, R s s.
Hypothesis R_trans : forall s1 s2 s3, R s1 s2 -> R s2 s3 -> R s1 s3.

(** What is done to the connection alone is judged by [Rc]. *)
Hypothesis R_on_conn :
  forall A (m : M quicly_conn_t A), preserves Rc m -> preserves R (on_conn m).
Hypothesis Rc_put_stream : forall sid s c, Rc c (put_stream sid s c).
Hypothesis Rc_remove_stream : forall sid c, Rc c (remove_stream sid c).
Hypothesis Rc_host_stream_closed : forall c, Rc c (host_stream_closed c).
Hypothesis Rc_peer_stream_closed : forall c, Rc c (peer_stream_closed c).
Hypothesis Rc_allocate_ack : forall now data c, Rc c (allocate_ack now data c).
Hypothesis Rc_update_max_data_sender : forall f c, Rc c (update_max_data_sender f c).
Hypothesis Rc_add_max_data_sent : forall delta c, Rc c (add_max_data_sent delta c).
Hypothesis Rc_clear_ack_queue : forall c, Rc c (clear_ack_queue c).

(** What is done to the packets. *)
Hypothesis R_push_item :
  forall i size, item_is_ack i = false -> preserves R (push_item i size).
Hypothesis R_push_ack :
  forall size range_index next,
    preserves R (push_item (item_ack size range_index next) size).
Hypothesis R_commit_send_packet : preserves R (commit_send_packet E).
Hypothesis R_start_packet : preserves R (start_packet E).

Local Hint Resolve R_on_conn Rc_put_stream Rc_remove_stream Rc_host_stream_closed
  Rc_peer_stream_closed Rc_allocate_ack Rc_update_max_data_sender Rc_add_max_data_sent
  Rc_clear_ack_queue R_push_item R_push_ack R_commit_send_packet R_start_packet : pres.

Lemma get_conn_pres : preserves R get_conn.
Proof. apply preserves_gets. assumption. Qed.

Lemma get_ctx_pres : preserves R get_ctx.
Proof. apply preserves_gets. assumption. Qed.
Local Hint Resolve get_conn_pres get_ctx_pres : pres.

Lemma prepare_packet_pres min_space : preserves R (prepare_packet E min_space).
Proof. unfold prepare_packet. pres. Qed.
Local Hint Resolve prepare_packet_pres : pres.

Lemma quicly_acks_allocate_pres now data : preserves R (quicly_acks_allocate now data).
Proof. unfold quicly_acks_allocate. pres. Qed.
Local Hint Resolve quicly_acks_allocate_pres : pres.

Lemma send_ack_loop_pres n range_index : preserves R (send_ack_loop E n range_index).
Proof. revert range_index. induction n; intros range_index; simpl; pres. Qed.
Local Hint Resolve send_ack_loop_pres : pres.

Lemma send_ack_pres : preserves R (send_ack E fuel).
Proof. unfold send_ack. pres. Qed.

Lemma send_max_data_frame_pres : preserves R (send_max_data_frame E).
Proof. unfold send_max_data_frame. pres. Qed.

Lemma send_max_stream_data_frame_pres sid : preserves R (send_max_stream_data_frame E sid).
Proof. unfold send_max_stream_data_frame. pres. Qed.
Local Hint Resolve send_max_stream_data_frame_pres : pres.

Lemma send_stream_frame_pres sid stream_off max_bytes :
  preserves R (send_stream_frame E sid stream_off max_bytes).
Proof. unfold send_stream_frame. pres. Qed.
Local Hint Resolve send_stream_frame_pres : pres.

Lemma send_range_pres n sid stream_off end_ : preserves R (send_range E n sid stream_off end_).
Proof. revert stream_off. induction n; intros stream_off; simpl; pres. Qed.
Local Hint Resolve send_range_pres : pres.

Lemma send_pending_pres ranges i sid max_stream_data stream_off :
  preserves R (send_pending E fuel ranges i sid max_stream_data stream_off).
Proof. revert i stream_off. induction ranges; intros i stream_off; simpl; pres. Qed.
Local Hint Resolve send_pending_pres : pres.

Lemma send_stream_frames_pres sid : preserves R (send_stream_frames E fuel sid).
Proof. unfold send_stream_frames. pres. Qed.
Local Hint Resolve send_stream_frames_pres : pres.

Lemma prepare_stream_state_sender_pres sid which min_space :
  preserves R (prepare_stream_state_sender E sid which min_space).
Proof. unfold prepare_stream_state_sender. pres. Qed.
Local Hint Resolve prepare_stream_state_sender_pres : pres.

Lemma send_stream_pres sid : preserves R (send_stream E fuel sid).
Proof. unfold send_stream. pres. Qed.
Local Hint Resolve send_stream_pres : pres.

Lemma send_streams_pres ids : preserves R (send_streams E fuel ids).
Proof. induction ids; simpl; pres. Qed.

End FrameSend.

(** ** The calls of the host *)

(** What the host does with a connection once it is created. *)
Inductive api_call : Type :=
| api_receive (packet : quicly_decoded_packet_t)
| api_send (now : Z) (num_packets : Z)
| api_open_stream
| api_close_stream (sid : Z)
| api_recvbuf_shift (sid : Z) (n : Z)
| api_sendbuf_write (sid : Z) (data : list Z)
| api_sendbuf_shutdown (sid : Z)
| api_set_on_update (sid : Z) (handler : nat).

Definition run_api (E : env) (fuel : nat) (a : api_call) : M quicly_conn_t unit :=
  match a with
  | api_receive packet => quicly_receive E fuel packet
  | api_send now num_packets => let* _ := quicly_send E fuel now num_packets in mret tt
  | api_open_stream => let* _ := quicly_open_stream E in mret tt
  | api_close_stream sid => quicly_close_stream sid
  | api_recvbuf_shift sid n => quicly_recvbuf_shift sid n
  | api_sendbuf_write sid data => quicly_sendbuf_write sid data
  | api_sendbuf_shutdown sid => quicly_sendbuf_shutdown sid
  | api_set_on_update sid handler =>
    update_stream sid (set_on_update (Some (app_update_cb handler)))
  end.

(** The connection after a sequence of calls. *)
Fixpoint run_trace (E : env) (fuel : nat) (l : list api_call) (c : quicly_conn_t)
  : quicly_conn_t :=
  match l with
  | [] => c
  | a :: l' => run_trace E fuel l' (run_api E fuel a c).2
  end.

(** A relation on connections that every update of the engine respects. *)
Record conn_frame (E : env) (fuel : nat) (Rc : quicly_conn_t -> quicly_conn_t -> Prop)
  : Prop := {
  cf_refl : forall c, Rc c c;
  cf_trans : forall c1 c2 c3, Rc c1 c2 -> Rc c2 c3 -> Rc c1 c3;
  cf_put_stream : forall sid s c, Rc c (put_stream sid s c);
  cf_remove_stream : forall sid c, Rc c (remove_stream sid c);
  cf_consume_bytes : forall n c, Rc c (consume_bytes n c);
  cf_host_stream_closed : forall c, Rc c (host_stream_closed c);
  cf_peer_stream_closed : forall c, Rc c (peer_stream_closed c);
  cf_update_max_data_sender : forall f c, Rc c (update_max_data_sender f c);
  cf_host_stream_opened :
    forall c, host_next_stream_id (super c) <> 0 -> Rc c (host_stream_opened c);
  cf_install_key_phase0 : forall side a secret c, Rc c (install_key_phase0 side a secret c);
  cf_set_state : forall st c, Rc c (with_super (set_state st) c);
  cf_set_peer_transport_params : forall p c, Rc c (with_super (set_peer_transport_params p) c);
  cf_with_crypto_data : forall f c, Rc c (with_crypto_data f c);
  cf_set_max_data_permitted : forall v c, Rc c (with_egress (set_max_data_permitted v) c);
  cf_get_stream_or_open_if_new :
    forall sid, preserves Rc (get_stream_or_open_if_new E fuel sid);
  cf_release_ack : forall i c, Rc c (release_ack i c);
  cf_schedule_ack : forall pn c, Rc c (schedule_ack pn c);
  cf_set_acks_require_encryption :
    forall c, Rc c (with_egress (set_acks_require_encryption true) c);
  cf_set_connection_id : forall v c, Rc c (with_super (set_connection_id v) c);
  cf_allocate_ack : forall now data c, Rc c (allocate_ack now data c);
  cf_add_max_data_sent : forall delta c, Rc c (add_max_data_sent delta c);
  cf_clear_ack_queue : forall c, Rc c (clear_ack_queue c);
  cf_next_packet_number : forall c, Rc c (next_packet_number c)
}.

(** [Rc] on the connection of a state of the sender. *)
Definition on_conn_of (Rc : quicly_conn_t -> quicly_conn_t -> Prop) (s s' : send_state) : Prop :=
  Rc s.1 s'.1.

Section FrameApi.

Variable E : env.
Variable fuel : nat.
Variable Rc : quicly_conn_t -> quicly_conn_t -> Prop.
Hypothesis F : conn_frame E fuel Rc.

Let R := on_conn_of Rc.

Lemma on_conn_of_refl s : R s s.
Proof. apply (cf_refl _ _ _ F). Qed.

Lemma on_conn_of_trans s1 s2 s3 : R s1 s2 -> R s2 s3 -> R s1 s3.
Proof. apply (cf_trans _ _ _ F). Qed.

Lemma on_conn_of_on_conn A (m : M quicly_conn_t A) : preserves Rc m -> preserves R (on_conn m).
Proof.
  intros Hm [c s]. unfold R, on_conn_of, on_conn. simpl.
  specialize (Hm c). destruct (m c) as [r c']. exact Hm.
Qed.

Lemma on_conn_of_modify_ctx f : preserves R (modify_ctx f).
Proof. intros [c s]. apply (cf_refl _ _ _ F). Qed.

Lemma on_conn_of_push_item i size : preserves R (push_item i size).
Proof.
  intros [c s]. unfold R, on_conn_of, push_item, mbind, get_ctx, gets, modify_ctx, modify, abort.
  simpl. destruct (target s); simpl; apply (cf_refl _ _ _ F).
Qed.

Lemma on_conn_of_commit_send_packet : preserves R (commit_send_packet E).
Proof.
  intros [c s].
  unfold R, on_conn_of, commit_send_packet, mbind, get_ctx, gets, modify_ctx, modify, abort,
    on_conn.
  simpl. destruct (target s); simpl;
    [apply (cf_next_packet_number _ _ _ F) | apply (cf_refl _ _ _ F)].
Qed.

Lemma on_conn_of_start_packet : preserves R (start_packet E).
Proof.
  intros [c s].
  unfold R, on_conn_of, start_packet, mbind, get_ctx, get_conn, gets, modify_ctx, modify, assert.
  simpl.
  match goal with |- context [if ?b then _ else _] => destruct b end;
    apply (cf_refl _ _ _ F).
Qed.

Local Hint Resolve on_conn_of_refl on_conn_of_trans on_conn_of_on_conn on_conn_of_modify_ctx
  on_conn_of_push_item on_conn_of_commit_send_packet on_conn_of_start_packet : pres.

Lemma send_stream_on_conn sid : preserves R (send_stream E fuel sid).
Proof.
  apply (send_stream_pres E fuel Rc R); eauto with pres; destruct F; assumption.
Qed.

Lemma send_ack_on_conn : preserves R (send_ack E fuel).
Proof.
  apply (send_ack_pres E fuel Rc R); eauto with pres; destruct F; assumption.
Qed.

Lemma send_max_data_frame_on_conn : preserves R (send_max_data_frame E).
Proof.
  apply (send_max_data_frame_pres E Rc R); eauto with pres; destruct F; assumption.
Qed.

Lemma send_streams_on_conn ids : preserves R (send_streams E fuel ids).
Proof.
  apply (send_streams_pres E fuel Rc R); eauto with pres; destruct F; assumption.
Qed.

Local Hint Resolve send_stream_on_conn send_ack_on_conn send_max_data_frame_on_conn
  send_streams_on_conn : pres.

Lemma send_packets_on_conn : preserves R (send_packets E fuel).
Proof.
  assert (Hget : forall A (f : send_state -> A), preserves R (gets f))
    by (intros; apply preserves_gets; exact on_conn_of_refl).
  assert (Hconn : preserves R get_conn) by apply Hget.
  assert (Hctx : preserves R get_ctx) by apply Hget.
  assert (Hrefl := on_conn_of_refl). assert (Htrans := on_conn_of_trans).
  unfold send_packets, send_cleartext_frames, commit_cleartext_packet, send_encrypted_frames.
  pres.
Qed.

Lemma quicly_send_frame now num_packets : preserves Rc (quicly_send E fuel now num_packets).
Proof.
  intros c. unfold quicly_send, quicly_send_run.
  assert (Ht : Rc c (handle_timeouts now c).2)
    by (apply handle_timeouts_pres; destruct F; assumption).
  destruct (handle_timeouts now c) as [[[]| | |] c1]; simpl in *; try exact Ht.
  pose proof (send_packets_on_conn (c1, send_context_init now num_packets)) as Hs.
  unfold R, on_conn_of in Hs. simpl in Hs.
  destruct (send_packets E fuel (c1, send_context_init now num_packets)) as [[[]| | |] [c2 s2]];
    simpl in *; exact (cf_trans _ _ _ F _ _ _ Ht Hs).
Qed.

Lemma run_api_frame a : preserves Rc (run_api E fuel a).
Proof.
  assert (Hrefl := cf_refl _ _ _ F). assert (Htrans := cf_trans _ _ _ F).
  destruct a; simpl.
  - apply quicly_receive_pres; destruct F; assumption.
  - pres_step. apply quicly_send_frame.
  - pres_step. apply quicly_open_stream_pres; destruct F; assumption.
  - apply quicly_close_stream_pres; destruct F; assumption.
  - apply quicly_recvbuf_shift_pres; destruct F; assumption.
  - apply quicly_sendbuf_write_pres; destruct F; assumption.
  - apply quicly_sendbuf_shutdown_pres; destruct F; assumption.
  - apply update_stream_pres; destruct F; assumption.
Qed.

Lemma run_trace_frame l : forall c, Rc c (run_trace E fuel l c).
Proof.
  induction l as [|a l IH]; intros c; simpl; [apply (cf_refl _ _ _ F)|].
  eapply (cf_trans _ _ _ F); [apply run_api_frame | apply IH].
Qed.

End FrameApi.

(** * Loss detection: [handle_timeouts] *)

Module Timeouts.

(** An entry is declared lost when [sent_before < ack->sent_at] fails. *)
Definition expired (sent_before : Z) (a : quicly_ack_t) : bool :=
  negb (sent_before <? sent_at a).

(** The entries from the oldest on up to the first that is not expired. *)
Fixpoint expired_prefix (sent_before : Z) (l : quicly_acks_t) : quicly_acks_t :=
  match l with
  | [] => []
  | a :: l' => if expired sent_before a then a :: expired_prefix sent_before l' else []
  end.

(** What the specification says of the entries to be declared lost: each
    has its callback invoked with [acked = false] and is released. *)
Fixpoint release_lost (l : quicly_acks_t) : M quicly_conn_t unit :=
  match l with
  | [] => mret tt
  | a :: l' => call_acked false a ;; quicly_acks_release 0 ;; release_lost l'
  end.

(** The ack book is in the order of the times of sending. *)
Fixpoint sorted_by_sent_at (l : quicly_acks_t) : Prop :=
  match l with
  | [] => True
  | a :: l' => (forall b, In b l' -> sent_at a <= sent_at b) /\ sorted_by_sent_at l'
  end.

(** A connection whose ack book holds three entries, sent at the times 0,
    1 and 5000, in a context whose [initial_rto] is 1000. *)
Definition example_conn : quicly_conn_t :=
  with_egress
    (set_acks [ {| ack_packet_number := 0; sent_at := 0; ack_data := ack_max_data 16 |};
                {| ack_packet_number := 1; sent_at := 1; ack_data := ack_max_data 17 |};
                {| ack_packet_number := 2; sent_at := 5000; ack_data := ack_max_data 18 |} ])
    (create_connection (Example.env 0 (fun _ => false) (fun _ => true) (fun _ => true) None)
       Example.ctx true).

Lemma call_acked_keeps_acks acked a c :
  acks (egress (call_acked acked a c).2) = acks (egress c).
Proof.
  apply (call_acked_pres (fun c c' => acks (egress c') = acks (egress c)));
    try (intros; reflexivity).
  intros c1 c2 c3 H12 H23. congruence.
Qed.

Lemma handle_timeouts_loop_spec sent_before n :
  forall c, (length (acks (egress c)) <= n)%nat ->
  handle_timeouts_loop n sent_before c
  = release_lost (expired_prefix sent_before (acks (egress c))) c.
Proof.
  induction n as [|n IH]; intros c Hlen.
  - destruct (acks (egress c)) as [|a l] eqn:Hacks; [|simpl in Hlen; lia].
    simpl. unfold mbind, get, quicly_acks_get. rewrite Hacks. reflexivity.
  - simpl. unfold mbind at 1. unfold get at 1. unfold quicly_acks_get.
    destruct (acks (egress c)) as [|a l] eqn:Hacks; simpl; [reflexivity|].
    unfold expired. destruct (sent_before <? sent_at a) eqn:Hlt; simpl; [reflexivity|].
    unfold mbind at 1 3.
    pose proof (call_acked_keeps_acks false a c) as Hkeep.
    destruct (call_acked false a c) as [[[]| | |] c1] eqn:Hcall; simpl in *; try reflexivity.
    unfold mbind at 1 2. unfold quicly_acks_release, modify. 
    assert (Hrel : acks (egress (release_ack 0 c1)) = l).
    { unfold release_ack. simpl. rewrite Hkeep, Hacks. reflexivity. }
    rewrite IH by (rewrite Hrel; simpl in Hlen; lia).
    rewrite Hrel. reflexivity.
Qed.

Lemma release_lost_acks l :
  forall c c', release_lost l c = (Ok tt, c') ->
  acks (egress c') = drop (length l) (acks (egress c)).
Proof.
  induction l as [|a l IH]; intros c c' H; simpl in H.
  - inversion H. subst. rewrite drop_0. reflexivity.
  - unfold mbind at 1 in H.
    pose proof (call_acked_keeps_acks false a c) as Hkeep.
    destruct (call_acked false a c) as [[[]| | |] c1] eqn:Hcall; simpl in *; try discriminate.
    unfold mbind at 1 in H. unfold quicly_acks_release, modify in H.
    apply IH in H. rewrite H. unfold release_ack. simpl. rewrite Hkeep.
    destruct (acks (egress c)); simpl; [rewrite drop_nil|]; reflexivity.
Qed.

Lemma expired_prefix_sorted sent_before l :
  sorted_by_sent_at l ->
  expired_prefix sent_before l = List.filter (expired sent_before) l
  /\ drop (length (expired_prefix sent_before l)) l
     = List.filter (fun a => negb (expired sent_before a)) l.
Proof.
  induction l as [|a l IH]; intros Hs; simpl; [split; reflexivity|].
  destruct Hs as [Hmin Hs]. specialize (IH Hs). destruct IH as [IH1 IH2].
  destruct (expired sent_before a) eqn:Hexp; simpl.
  - rewrite <- IH1. split; [reflexivity | exact IH2].
  - assert (Hall : forall b, In b l -> expired sent_before b = false).
    { intros b Hb. specialize (Hmin b Hb). unfold expired in *.
      apply negb_false_iff in Hexp. apply negb_false_iff.
      apply Z.ltb_lt in Hexp. apply Z.ltb_lt. lia. }
    assert (Hnone : List.filter (expired sent_before) l = []).
    { clear - Hall. induction l as [|b l IHl]; simpl; [reflexivity|].
      rewrite (Hall b) by (left; reflexivity). apply IHl. intros; apply Hall; right; assumption. }
    assert (Hevery : List.filter (fun a => negb (expired sent_before a)) l = l).
    { clear - Hall. induction l as [|b l IHl]; simpl; [reflexivity|].
      rewrite (Hall b) by (left; reflexivity). simpl. f_equal.
      apply IHl. intros; apply Hall; right; assumption. }
    rewrite Hnone, Hevery. split; reflexivity.
Qed.

(** C3, as the code has it.  [handle_timeouts] visits the ack book from
    the oldest entry and stops at the first entry whose [sent_at] is
    greater than [now - initial_rto]; the entries before it, each with
    [sent_at <= now - initial_rto], have their callback invoked with
    [acked = false] and are released, and all the others remain.  In a
    book ordered by [sent_at] the released entries are exactly those with
    [sent_at <= now - initial_rto], and exactly those with
    [sent_at > now - initial_rto] remain. *)
Theorem handle_timeouts_releases_expired_prefix (now : Z) (c : quicly_conn_t) :
  let sent_before := now - initial_rto (ctx c) in
  let lost := expired_prefix sent_before (acks (egress c)) in
  handle_timeouts now c = release_lost lost c
  /\ (forall a, In a lost -> sent_at a <= sent_before)
  /\ (forall c', handle_timeouts now c = (Ok tt, c') ->
        acks (egress c') = drop (length lost) (acks (egress c))
        /\ (forall a, head (acks (egress c')) = Some a -> sent_before < sent_at a))
  /\ (sorted_by_sent_at (acks (egress c)) ->
        lost = List.filter (fun a => sent_at a <=? sent_before) (acks (egress c))
        /\ drop (length lost) (acks (egress c))
           = List.filter (fun a => sent_before <? sent_at a) (acks (egress c))).
Proof.
  intros sent_before lost.
  assert (Hspec : handle_timeouts now c = release_lost lost c).
  { unfold handle_timeouts, mbind, get. apply handle_timeouts_loop_spec. lia. }
  assert (Hlost : forall l a, In a (expired_prefix sent_before l) -> sent_at a <= sent_before).
  { induction l as [|b l IHl]; simpl; [tauto|].
    intros a. destruct (expired sent_before b) eqn:Hexp; simpl; [|tauto].
    intros [<-|Hin]; [|auto].
    unfold expired in Hexp. apply negb_true_iff, Z.ltb_ge in Hexp. exact Hexp. }
  split; [exact Hspec|]. split; [apply Hlost|]. split.
  - intros c' Hrun. rewrite Hspec in Hrun. apply release_lost_acks in Hrun.
    split; [exact Hrun|]. rewrite Hrun. subst lost.
    generalize (acks (egress c)) as l. induction l as [|b l IHl]; simpl; [discriminate|].
    destruct (expired sent_before b) eqn:Hexp; simpl.
    + exact IHl.
    + intros a [= <-].
      unfold expired in Hexp. apply negb_false_iff, Z.ltb_lt in Hexp. exact Hexp.
  - intros Hs. destruct (expired_prefix_sorted sent_before _ Hs) as [H1 H2].
    subst lost. rewrite H1. split.
    + apply filter_ext. intros a. unfold expired.
      destruct (Z.ltb_spec sent_before (sent_at a)), (Z.leb_spec (sent_at a) sent_before);
        simpl; try reflexivity; lia.
    + rewrite <- H1, H2. apply filter_ext. intros a. unfold expired.
      rewrite negb_involutive. reflexivity.
Qed.

(** C3 as stated fails: an entry sent exactly [initial_rto] before [now]
    (here [sent_at = 0], [now = 1000]) is declared lost and released, where
    the claim keeps every entry with [sent_at >= now - initial_rto]. *)
Lemma entry_sent_at_the_bound_is_released :
  let c' := (handle_timeouts 1000 example_conn).2 in
  initial_rto (ctx example_conn) = 1000
  /\ map sent_at (acks (egress example_conn)) = [0; 1; 5000]
  /\ (0 >=? 1000 - 1000) = true
  /\ (handle_timeouts 1000 example_conn).1 = Ok tt
  /\ map sent_at (acks (egress c')) = [1; 5000]
  /\ max_data_sender (ingress c') = quicly_maxsender_lost 16 (max_data_sender (ingress example_conn)).
Proof. vm_compute. repeat split; reflexivity. Qed.

End Timeouts.

(** * 1-RTT keys: [setup_1rtt] *)

Module Keys.

(** Whether [setup_1rtt_secret] fails on the connection: the secret cannot
    be exported under the label, or no AEAD context can be allocated. *)
Definition secret_setup_fails (E : env) (c : quicly_conn_t) (label : string) (is_enc : bool)
  : bool :=
  match ptls_export_secret E (tls_is_server (crypto_data c)) (tls_inputs (crypto_data c)) label with
  | inl _ => true
  | inr secret =>
    match ptls_aead_new E is_enc secret with
    | None => true
    | Some _ => false
    end
  end.

Definition setup_1rtt_fails (E : env) (c : quicly_conn_t) : bool :=
  secret_setup_fails E c (labels (quicly_is_client c)) false
  || secret_setup_fails E c (labels (negb (quicly_is_client c))) true.

(** A provider that completes the handshake on its first input, exports
    the secrets, and cannot allocate the AEAD context for sending. *)
Definition example_env : env :=
  Example.env 0 (fun _ => true) (fun _ => true) (fun is_enc => negb is_enc) None.

(** A server whose stream 0 holds three octets of the client's flight. *)
Definition example_conn : quicly_conn_t :=
  let c := create_connection example_env Example.ctx false in
  match streams c !! 0 with
  | Some s =>
    put_stream 0 (with_recvbuf (fun b =>
                    match quicly_recvbuf_write 0 [1; 2; 3] b with
                    | Ok b' => b'
                    | _ => b
                    end) s) c
  | None => c
  end.

(** The connection after the provider has consumed the flight, and after
    its (empty) output has been written to the send buffer of stream 0. *)
Definition example_conn_after_tls : quicly_conn_t :=
  (handshake_loop example_env 5 0 (Some PTLS_ERROR_IN_PROGRESS) [] example_conn).2.
Definition example_conn_after_write : quicly_conn_t :=
  (write_tlsbuf 0 [] example_conn_after_tls).2.

Lemma setup_1rtt_result E c :
  (setup_1rtt E c).1 = Ok tt
  /\ (setup_1rtt_fails E c = true ->
      aead_key_phase0 (egress_pp (egress c)) = None ->
      state (super (setup_1rtt E c).2) = state (super c)
      /\ (aead_key_phase0 (ingress_pp (ingress (setup_1rtt E c).2)) = None
          \/ aead_key_phase0 (egress_pp (egress (setup_1rtt E c).2)) = None)).
Proof.
  unfold setup_1rtt_fails, secret_setup_fails, setup_1rtt, setup_1rtt_secret.
  unfold mbind, mtry, get, modify, fail, mret. simpl.
  destruct (ptls_export_secret E (tls_is_server (crypto_data c)) (tls_inputs (crypto_data c))
              (labels (quicly_is_client c))) as [e1|secret1]; simpl.
  { split; [reflexivity|]. intros _ Hegress. split; [reflexivity|]. right. exact Hegress. }
  destruct (ptls_aead_new E false secret1) as [a1|]; simpl.
  2:{ split; [reflexivity|]. intros _ _. split; [reflexivity|]. left. reflexivity. }
  destruct (ptls_export_secret E (tls_is_server (crypto_data c)) (tls_inputs (crypto_data c))
              (labels (negb (quicly_is_client c)))) as [e2|secret2]; simpl.
  { split; [reflexivity|]. intros _ Hegress. split; [reflexivity|]. right. exact Hegress. }
  destruct (ptls_aead_new E true secret2) as [a2|]; simpl.
  - split; [reflexivity|]. intros Hfail. discriminate Hfail.
  - split; [reflexivity|]. intros _ _. split; [reflexivity|]. right. reflexivity.
Qed.

(** C10.  [setup_1rtt] returns 0 whatever happens.  When the TLS handshake
    has completed on a connection that is not yet 1-RTT encrypted and whose
    keys for sending are not installed, and deriving a secret or allocating
    an AEAD context fails, the handshake driver still returns 0; the state
    of the connection has not advanced to [QUICLY_STATE_1RTT_ENCRYPTED] and
    at least one of the two 1-RTT AEAD contexts is missing. *)
Theorem setup_1rtt_failure_is_reported_as_success
    (E : env) (fuel : nat) (sid : Z) (c c0 c1 : quicly_conn_t) (buf : list Z) :
  handshake_loop E fuel sid (Some PTLS_ERROR_IN_PROGRESS) [] c = (Ok (None, buf), c0) ->
  write_tlsbuf sid buf c0 = (Ok tt, c1) ->
  state_is_1rtt (quicly_get_state c1) = false ->
  aead_key_phase0 (egress_pp (egress c1)) = None ->
  setup_1rtt_fails E c1 = true ->
  let c' := (crypto_stream_receive_handshake E fuel sid c).2 in
  (forall c2, (setup_1rtt E c2).1 = Ok tt)
  /\ (crypto_stream_receive_handshake E fuel sid c).1 = Ok tt
  /\ quicly_get_state c' = quicly_get_state c1
  /\ state_is_1rtt (quicly_get_state c') = false
  /\ (aead_key_phase0 (ingress_pp (ingress c')) = None
      \/ aead_key_phase0 (egress_pp (egress c')) = None).
Proof.
  intros Hloop Hwrite Hstate Hegress Hfail c'.
  split; [intros c2; apply setup_1rtt_result|].
  set (c2 := with_egress (set_max_data_permitted
                (initial_max_data_kb (peer_transport_params (super c1)) * 1024)) c1).
  assert (Hrun : crypto_stream_receive_handshake E fuel sid c = setup_1rtt E c2).
  { unfold crypto_stream_receive_handshake.
    unfold mbind at 1. rewrite Hloop.
    unfold mbind at 1. rewrite Hwrite.
    unfold mbind at 1. unfold get at 1.
    unfold quicly_get_state in Hstate. rewrite Hstate. reflexivity. }
  subst c'. rewrite Hrun.
  assert (Hfail2 : setup_1rtt_fails E c2 = true) by exact Hfail.
  assert (Hegress2 : aead_key_phase0 (egress_pp (egress c2)) = None) by exact Hegress.
  destruct (setup_1rtt_result E c2) as [Hok Hrest].
  destruct (Hrest Hfail2 Hegress2) as [Hst Hkeys].
  split; [exact Hok|]. unfold quicly_get_state in *. rewrite Hst.
  split; [reflexivity|]. split; [exact Hstate | exact Hkeys].
Qed.

Lemma setup_1rtt_failure_witness :
  let c' := (crypto_stream_receive_handshake example_env 5 0 example_conn).2 in
  (forall c2, (setup_1rtt example_env c2).1 = Ok tt)
  /\ (crypto_stream_receive_handshake example_env 5 0 example_conn).1 = Ok tt
  /\ quicly_get_state c' = quicly_get_state example_conn_after_write
  /\ state_is_1rtt (quicly_get_state c') = false
  /\ (aead_key_phase0 (ingress_pp (ingress c')) = None
      \/ aead_key_phase0 (egress_pp (egress c')) = None).
Proof.
  apply (setup_1rtt_failure_is_reported_as_success example_env 5 0 example_conn
           example_conn_after_tls example_conn_after_write []);
    vm_compute; reflexivity.
Defined.

End Keys.

(** * The connection id of a received packet *)

Module ConnectionId.

Definition example_env : env :=
  Example.env 0 (fun _ => false) (fun _ => true) (fun _ => true) None.

(** A server connection whose connection id is [0x1111]. *)
Definition example_conn : quicly_conn_t :=
  with_super (set_connection_id 0x1111) (create_connection example_env Example.ctx false).

(** A CLIENT_CLEARTEXT packet of another connection, [0x2222], with the
    packet number 7: a MAX_DATA frame of 32 KB, then the FNV-1a hash. *)
Definition example_header : list Z :=
  emit_long_header QUICLY_PACKET_TYPE_CLIENT_CLEARTEXT 0x2222 7.
Definition example_frames : list Z := [4; 0; 0; 0; 0; 0; 0; 0; 32].
Definition example_packet : quicly_decoded_packet_t :=
  {| pk_type := QUICLY_PACKET_TYPE_CLIENT_CLEARTEXT; is_long_header := true;
     has_connection_id := true; pk_connection_id := 0x2222; pk_packet_number := 7;
     pk_version := QUICLY_PROTOCOL_VERSION; pk_header := example_header;
     pk_payload := example_frames
                   ++ be_encode 8 (fnv1a (fnv1a FNV1A_OFFSET_BASIS example_header)
                                     example_frames) |}.

(** The connection id the connection holds has no part in what
    [quicly_receive] does: it is overwritten by the id of the packet before
    the two are compared. *)
Lemma quicly_receive_overwrites_connection_id E fuel packet c :
  quicly_receive E fuel packet c
  = quicly_receive E fuel packet
      (with_super (set_connection_id (pk_connection_id packet)) c).
Proof. reflexivity. Qed.

(** C1 at the failing input.  The packet carries the connection id
    [0x2222], the connection holds [0x1111]; the packet is not ignored: the
    call returns 0, the MAX_DATA frame has raised the limit, the packet
    number is queued for acknowledgement, and the connection now holds the
    id of the packet. *)
Theorem packet_of_another_connection_is_processed :
  let r := quicly_receive example_env 5 example_packet example_conn in
  connection_id (super example_conn) = 0x1111
  /\ pk_connection_id example_packet = 0x2222
  /\ r.1 = Ok tt
  /\ connection_id (super r.2) = 0x2222
  /\ max_data_permitted (egress example_conn) = 0
  /\ max_data_permitted (egress r.2) = 32768
  /\ ack_queue (ingress r.2) = [(7, 8)].
Proof. vm_compute. repeat split; reflexivity. Qed.

End ConnectionId.

(** * MAX_DATA and MAX_STREAM_DATA *)

Module FlowControl.

Definition example_env : env :=
  Example.env 0 (fun _ => false) (fun _ => true) (fun _ => true) None.

(** A connection that may send 16384 octets, of which stream 0 may send
    8192. *)
Definition example_conn : quicly_conn_t :=
  with_egress (set_max_data_permitted 16384) (create_connection example_env Example.ctx true).

(** What the two handlers do, for every connection and frame: a value
    below the limit fails with [QUICLY_ERROR_TBD] and changes nothing; any
    other value becomes the limit. *)
Lemma flow_control_frames (c : quicly_conn_t) :
  (forall frame,
     handle_max_data_frame frame c
     = if max_data_kb frame * 1024 <? max_data_permitted (egress c)
       then (Err QUICLY_ERROR_TBD, c)
       else (Ok tt, with_egress (set_max_data_permitted (max_data_kb frame * 1024)) c))
  /\ (forall frame s,
        streams c !! mf_stream_id frame = Some s ->
        handle_max_stream_data_frame frame c
        = if mf_max_stream_data frame <? max_stream_data s
          then (Err QUICLY_ERROR_TBD, c)
          else (Ok tt, put_stream (mf_stream_id frame)
                         (set_max_stream_data (mf_max_stream_data frame) s) c)).
Proof.
  split.
  - intros frame. unfold handle_max_data_frame, mbind, get. simpl.
    destruct (max_data_kb frame * 1024 <? max_data_permitted (egress c)); reflexivity.
  - intros frame s Hs. unfold handle_max_stream_data_frame, mbind, get, quicly_get_stream.
    simpl. rewrite Hs.
    destruct (mf_max_stream_data frame <? max_stream_data s); [reflexivity|].
    unfold update_stream, stream_ptr, mbind, get. simpl. rewrite Hs. reflexivity.
Qed.

(** C5 at the failing input.  A MAX_DATA frame of 1 KB on a connection
    whose limit is 16384, and a MAX_STREAM_DATA frame of 100 on a stream
    whose limit is 8192, leave the limits as they are, and fail with the
    placeholder [QUICLY_ERROR_TBD], which is not the flow-control error. *)
Theorem regressing_limit_fails_with_tbd :
  handle_max_data_frame {| max_data_kb := 1 |} example_conn
  = (Err QUICLY_ERROR_TBD, example_conn)
  /\ handle_max_stream_data_frame {| mf_stream_id := 0; mf_max_stream_data := 100 |} example_conn
     = (Err QUICLY_ERROR_TBD, example_conn)
  /\ max_data_permitted (egress example_conn) = 16384
  /\ (max_stream_data <$> streams example_conn !! 0) = Some 8192
  /\ QUICLY_ERROR_TBD <> QUICLY_ERROR_FLOW_CONTROL_ERROR.
Proof.
  destruct (flow_control_frames example_conn) as [Hdata Hstream].
  split; [rewrite Hdata; reflexivity|].
  split; [erewrite Hstream by (vm_compute; reflexivity); reflexivity|].
  split; [reflexivity|]. split; [vm_compute; reflexivity | discriminate].
Qed.

End FlowControl.

(** * RST_STREAM *)

Module RstStream.

Definition example_env : env :=
  Example.env 0 (fun _ => false) (fun _ => true) (fun _ => true) None.

(** A server on which the peer's stream 1 has received the octets up to
    the offset 30. *)
Definition conn_received_30 : quicly_conn_t :=
  (handle_stream_frame example_env 5
     {| sf_stream_id := 1; sf_is_fin := false; sf_offset := 0; sf_data := replicate 30 7 |}
     (create_connection example_env Example.ctx false)).2.

Definition rst (final_offset : Z) : quicly_rst_stream_frame_t :=
  {| rf_stream_id := 1; rf_reason := 99; rf_final_offset := final_offset |}.

(** The same server after an RST_STREAM with the final offset 42. *)
Definition conn_reset_at_42 : quicly_conn_t :=
  (handle_rst_stream_frame example_env 5 (rst 42) conn_received_30).2.

(** C6 at the failing input.  On a stream that has received 30 octets, an
    RST_STREAM with the final offset 42 sets the end of stream to 42 and
    records the reason.  A later RST_STREAM with the final offset 41 fails,
    but one with the final offset 30, which differs from the final offset
    42 established before, is accepted (the value is compared with the end
    of the received data); one that repeats the final offset 42 fails. *)
Theorem later_rst_stream_is_compared_with_received_end :
  (rb_received ∘ recvbuf <$> streams conn_received_30 !! 1) = Some [(0, 30)]
  /\ (handle_rst_stream_frame example_env 5 (rst 42) conn_received_30).1 = Ok tt
  /\ (rb_eos ∘ recvbuf <$> streams conn_reset_at_42 !! 1) = Some 42
  /\ (rst_reason <$> streams conn_reset_at_42 !! 1) = Some 99
  /\ (handle_rst_stream_frame example_env 5 (rst 41) conn_reset_at_42).1 = Err QUICLY_ERROR_TBD
  /\ handle_rst_stream_frame example_env 5 (rst 30) conn_reset_at_42 = (Ok tt, conn_reset_at_42)
  /\ (handle_rst_stream_frame example_env 5 (rst 42) conn_reset_at_42).1 = Err QUICLY_ERROR_TBD.
Proof. vm_compute. repeat split; reflexivity. Qed.

End RstStream.

(** * Decoding the transport parameters *)

Module TransportParametersFacts.

Import TransportParameters.

(** A parameter list without the mandatory id 0: the unknown id 64 with an
    empty value, then the ids 1, 2 and 3. *)
Definition list_without_id_0 : list Z :=
  let body := PUSH_TRANSPORT_PARAMETER 64 []
              ++ PUSH_TRANSPORT_PARAMETER 1 (be_encode 4 7)
              ++ PUSH_TRANSPORT_PARAMETER 2 (be_encode 4 9)
              ++ PUSH_TRANSPORT_PARAMETER 3 (be_encode 2 30) in
  be_encode 2 (Z.of_nat (length body)) ++ body.

(** A list with the four mandatory ids, each once, after the unknown id
    64. *)
Definition list_with_id_64_first : list Z :=
  let body := PUSH_TRANSPORT_PARAMETER 64 []
              ++ PUSH_TRANSPORT_PARAMETER 0 (be_encode 4 5)
              ++ PUSH_TRANSPORT_PARAMETER 1 (be_encode 4 7)
              ++ PUSH_TRANSPORT_PARAMETER 2 (be_encode 4 9)
              ++ PUSH_TRANSPORT_PARAMETER 3 (be_encode 2 30) in
  be_encode 2 (Z.of_nat (length body)) ++ body.

(** C7 at the failing input, where a shift by 64 gives what the shift
    instructions of x86-64 and AArch64 give (the count modulo 64).  The
    list has no parameter of id 0, and decoding it succeeds: the statement
    after the test [id < 64] has set the bit 0 for the id 64.  The
    parameter [initial_max_stream_data] keeps the value it had before.  A
    list that has the id 0 once after the id 64 is refused as if the id 0
    were there twice. *)
Theorem id_64_stands_for_id_0 :
  decode_transport_parameter_list shl_count_masked list_without_id_0
    transport_params_before_handshake
  = (Ok tt, {| initial_max_stream_data := 8192; initial_max_data_kb := 7;
               initial_max_stream_id := 9; idle_timeout := 30;
               truncate_connection_id := false |})
  /\ (decode_transport_parameter_list shl_count_masked list_with_id_64_first
        transport_params_before_handshake).1 = Err QUICLY_ERROR_INVALID_STREAM_DATA
  /\ ID_TO_BIT shl_count_masked 64 = ID_TO_BIT shl_count_masked 0.
Proof. vm_compute. repeat split; reflexivity. Qed.

End TransportParametersFacts.

(** * Scheduling acknowledgements: [quicly_receive] *)

Module AckScheduling.

(** The frames of a payload, as the loop of [quicly_receive] tells them
    apart. *)
Inductive frame : Type :=
| frame_stream (f : quicly_stream_frame_t)
| frame_ack (f : quicly_ack_frame_t)
| frame_padding
| frame_rst_stream (f : quicly_rst_stream_frame_t)
| frame_max_data (f : quicly_max_data_frame_t)
| frame_max_stream_data (f : quicly_max_stream_data_frame_t)
| frame_stop_sending (f : quicly_stop_sending_frame_t).

Definition with_rest {A B} (f : A -> B) (r : result (A * list Z)) : result (B * list Z) :=
  match r with
  | Ok (a, rest) => Ok (f a, rest)
  | Err e => Err e
  | Abort => Abort
  | OutOfFuel => OutOfFuel
  end.

(** The frame that starts with the octet [type_flags], and what follows
    it. *)
Definition decode_frame (E : env) (type_flags : Z) (src : list Z) : result (frame * list Z) :=
  if QUICLY_FRAME_TYPE_STREAM E <=? type_flags then
    with_rest frame_stream (quicly_decode_stream_frame E type_flags src)
  else if QUICLY_FRAME_TYPE_ACK E <=? type_flags then
    with_rest frame_ack (quicly_decode_ack_frame E type_flags src)
  else if type_flags =? QUICLY_FRAME_TYPE_PADDING E then Ok (frame_padding, src)
  else if type_flags =? QUICLY_FRAME_TYPE_RST_STREAM E then
    with_rest frame_rst_stream (quicly_decode_rst_stream_frame E src)
  else if type_flags =? QUICLY_FRAME_TYPE_MAX_DATA E then
    with_rest frame_max_data (quicly_decode_max_data_frame E src)
  else if type_flags =? QUICLY_FRAME_TYPE_MAX_STREAM_DATA E then
    with_rest frame_max_stream_data (quicly_decode_max_stream_data_frame E src)
  else if type_flags =? QUICLY_FRAME_TYPE_STOP_SENDING E then
    with_rest frame_stop_sending (quicly_decode_stop_sending_frame E src)
  else Abort.

(** The frames of a payload, in at most [n] rounds. *)
Fixpoint payload_frames (E : env) (n : nat) (src : list Z) : result (list frame) :=
  match n with
  | O => OutOfFuel
  | S n' =>
    match src with
    | [] => Abort
    | type_flags :: src =>
      match decode_frame E type_flags src with
      | Ok (f, []) => Ok [f]
      | Ok (f, src') =>
        match payload_frames E n' src' with
        | Ok fs => Ok (f :: fs)
        | r => r
        end
      | Err e => Err e
      | Abort => Abort
      | OutOfFuel => OutOfFuel
      end
    end
  end.

(** The frames after which [should_ack] is set: all but ACK. *)
Definition sets_should_ack (f : frame) : bool :=
  match f with
  | frame_ack _ => false
  | _ => true
  end.

Definition is_padding (f : frame) : bool :=
  match f with
  | frame_padding => true
  | _ => false
  end.

(** The payload of the packet once its protection has been checked and
    removed, if the check succeeds. *)
Definition opened_payload (E : env) (aead : option ptls_aead_context_t)
    (packet : quicly_decoded_packet_t) : option (list Z) :=
  match aead with
  | Some a =>
    ptls_aead_decrypt E a (pk_payload packet) (pk_packet_number packet) (pk_header packet)
  | None =>
    let (ok, payload) := verify_cleartext_packet packet in
    if ok then Some payload else None
  end.

(** What [quicly_receive] does with a packet, by the type of the packet,
    the side and the keys of the connection: the frames are read once the
    protection the type selects has been removed (the FNV-1a hash, or the
    AEAD context of the key phase), or the packet is passed over with the
    return value 0, or it is refused. *)
Inductive treatment : Type :=
| frames_read (aead : option ptls_aead_context_t)
| passed_over
| refused.

Definition treatment_of (c : quicly_conn_t) (packet : quicly_decoded_packet_t) : treatment :=
  if negb (is_long_header packet) && negb (state_is_1rtt (state (super c))) then refused
  else
    let type := pk_type packet in
    if type =? QUICLY_PACKET_TYPE_CLIENT_CLEARTEXT then
      if quicly_is_client c then refused else frames_read None
    else if type =? QUICLY_PACKET_TYPE_SERVER_CLEARTEXT then
      if negb (quicly_is_client c) then refused else frames_read None
    else if type =? QUICLY_PACKET_TYPE_0RTT_PROTECTED then
      match quicly_is_client c, aead_early_data (ingress_pp (ingress c)) with
      | false, Some aead => frames_read (Some aead)
      | _, _ => refused
      end
    else if type =? QUICLY_PACKET_TYPE_1RTT_KEY_PHASE_0 then
      match aead_key_phase0 (ingress_pp (ingress c)) with
      | None => if state_is_1rtt (quicly_get_state c) then refused else passed_over
      | Some aead => frames_read (Some aead)
      end
    else if type =? QUICLY_PACKET_TYPE_1RTT_KEY_PHASE_1 then
      match aead_key_phase1 (ingress_pp (ingress c)) with
      | None => refused
      | Some aead => frames_read (Some aead)
      end
    else if type =? QUICLY_PACKET_TYPE_CLIENT_INITIAL then passed_over
    else refused.

Definition example_env : env :=
  Example.env 0 (fun _ => false) (fun _ => true) (fun _ => true) None.

Definition example_conn : quicly_conn_t := create_connection example_env Example.ctx false.

(** A CLIENT_CLEARTEXT packet, number 7, whose payload is [frames] and the
    FNV-1a hash. *)
Definition cleartext_packet (frames : list Z) : quicly_decoded_packet_t :=
  let header := emit_long_header QUICLY_PACKET_TYPE_CLIENT_CLEARTEXT 0 7 in
  {| pk_type := QUICLY_PACKET_TYPE_CLIENT_CLEARTEXT; is_long_header := true;
     has_connection_id := true; pk_connection_id := 0; pk_packet_number := 7;
     pk_version := QUICLY_PROTOCOL_VERSION; pk_header := header;
     pk_payload := frames ++ be_encode 8 (fnv1a (fnv1a FNV1A_OFFSET_BASIS header) frames) |}.

(** Three PADDING frames. *)
Definition padding_only_packet : quicly_decoded_packet_t := cleartext_packet [0; 0; 0].

(** A PADDING frame and a MAX_DATA frame. *)
Definition max_data_packet : quicly_decoded_packet_t :=
  cleartext_packet [0; 4; 0; 0; 0; 0; 0; 0; 0; 32].

(** A CLIENT_CLEARTEXT packet with the given number. *)
Definition numbered_packet (pn : Z) (frames : list Z) : quicly_decoded_packet_t :=
  let header := emit_long_header QUICLY_PACKET_TYPE_CLIENT_CLEARTEXT 0 pn in
  {| pk_type := QUICLY_PACKET_TYPE_CLIENT_CLEARTEXT; is_long_header := true;
     has_connection_id := true; pk_connection_id := 0; pk_packet_number := pn;
     pk_version := QUICLY_PROTOCOL_VERSION; pk_header := header;
     pk_payload := frames ++ be_encode 8 (fnv1a (fnv1a FNV1A_OFFSET_BASIS header) frames) |}.

(** A MAX_DATA frame in the packet with the last 32-bit number. *)
Definition last_numbered_packet : quicly_decoded_packet_t :=
  numbered_packet (2 ^ 32 - 1) [4; 0; 0; 0; 0; 0; 0; 0; 32].

(** A range that is added covers its offsets, whatever the set held. *)
Lemma ranges_merge_covers ranges : forall start end_ x,
  start <= x < end_ -> in_ranges (ranges_merge ranges start end_) x = true.
Proof.
  induction ranges as [|[a b] ranges IH]; intros start end_ x Hx; cbn [ranges_merge].
  - unfold in_ranges. cbn. rewrite orb_false_r.
    apply andb_true_intro. split; [apply Z.leb_le | apply Z.ltb_lt]; lia.
  - destruct (end_ <? a).
    + unfold in_ranges. cbn [existsb fst snd].
      replace ((start <=? x) && (x <? end_)) with true; [reflexivity|].
      symmetry. apply andb_true_intro. split; [apply Z.leb_le | apply Z.ltb_lt]; lia.
    + destruct (b <? start).
      * unfold in_ranges in *. cbn [existsb]. rewrite (IH start end_ x Hx).
        apply orb_true_r.
      * apply IH. lia.
Qed.

Lemma quicly_ranges_update_covers ranges pn :
  in_ranges (quicly_ranges_update ranges pn (pn + 1)) pn = true.
Proof.
  unfold quicly_ranges_update.
  replace (pn + 1 <=? pn) with false by (symmetry; apply Z.leb_gt; lia).
  apply ranges_merge_covers. lia.
Qed.

Section Receive.

Variable E : env.
Variable fuel : nat.

Let keeps_ack_queue (c c' : quicly_conn_t) : Prop :=
  ack_queue (ingress c') = ack_queue (ingress c).

Lemma receive_frames_keeps_ack_queue n src should_ack c :
  ack_queue (ingress (receive_frames E fuel n src should_ack c).2) = ack_queue (ingress c).
Proof.
  assert (Htrans : forall c1 c2 c3, keeps_ack_queue c1 c2 -> keeps_ack_queue c2 c3 ->
                                    keeps_ack_queue c1 c3)
    by (unfold keeps_ack_queue; intros; congruence).
  assert (Hkey : forall side a secret c, keeps_ack_queue c (install_key_phase0 side a secret c))
    by (intros [] ? ? ?; reflexivity).
  apply (receive_frames_pres E fuel keeps_ack_queue); try exact Htrans; try exact Hkey;
    try (intros; reflexivity).
  apply get_stream_or_open_if_new_pres; try exact Htrans; try exact Hkey;
    try (intros; reflexivity).
Qed.

(** One round of the loop is the decoding of a frame followed by its
    handler. *)
Definition handle_frame (f : frame) : M quicly_conn_t unit :=
  match f with
  | frame_stream f => handle_stream_frame E fuel f
  | frame_ack f => handle_ack_frame fuel f
  | frame_padding => mret tt
  | frame_rst_stream f => handle_rst_stream_frame E fuel f
  | frame_max_data f => handle_max_data_frame f
  | frame_max_stream_data f => handle_max_stream_data_frame f
  | frame_stop_sending f => handle_stop_sending_frame E fuel f
  end.

Lemma receive_frames_round n type_flags src should_ack c :
  receive_frames E fuel (S n) (type_flags :: src) should_ack c
  = match decode_frame E type_flags src with
    | Ok (f, src') =>
      match handle_frame f c with
      | (Ok _, c1) =>
        match src' with
        | [] => (Ok (should_ack || sets_should_ack f), c1)
        | _ => receive_frames E fuel n src' (should_ack || sets_should_ack f) c1
        end
      | (Err e, c1) => (Err e, c1)
      | (Abort, c1) => (Abort, c1)
      | (OutOfFuel, c1) => (OutOfFuel, c1)
      end
    | Err e => (Err e, c)
    | Abort => (Abort, c)
    | OutOfFuel => (OutOfFuel, c)
    end.
Proof.
  simpl. unfold decode_frame.
  repeat match goal with
         | |- context [if ?b then _ else _] =>
           lazymatch b with
           | (_ <=? _) => destruct b
           | (_ =? _) => destruct b
           end
         end;
    try reflexivity;
    unfold mbind, lift_result, with_rest;
    try match goal with
        | |- context [quicly_decode_stream_frame E ?a ?b] =>
          destruct (quicly_decode_stream_frame E a b) as [[f src']| | |]
        | |- context [quicly_decode_ack_frame E ?a ?b] =>
          destruct (quicly_decode_ack_frame E a b) as [[f src']| | |]
        | |- context [quicly_decode_rst_stream_frame E ?b] =>
          destruct (quicly_decode_rst_stream_frame E b) as [[f src']| | |]
        | |- context [quicly_decode_max_data_frame E ?b] =>
          destruct (quicly_decode_max_data_frame E b) as [[f src']| | |]
        | |- context [quicly_decode_max_stream_data_frame E ?b] =>
          destruct (quicly_decode_max_stream_data_frame E b) as [[f src']| | |]
        | |- context [quicly_decode_stop_sending_frame E ?b] =>
          destruct (quicly_decode_stop_sending_frame E b) as [[f src']| | |]
        end;
    try reflexivity; simpl;
    try match goal with
        | |- context [handle_stream_frame E fuel ?f ?c] =>
          destruct (handle_stream_frame E fuel f c) as [[[]| | |] c1]
        | |- context [handle_ack_frame fuel ?f ?c] =>
          destruct (handle_ack_frame fuel f c) as [[[]| | |] c1]
        | |- context [handle_rst_stream_frame E fuel ?f ?c] =>
          destruct (handle_rst_stream_frame E fuel f c) as [[[]| | |] c1]
        | |- context [handle_max_data_frame ?f ?c] =>
          destruct (handle_max_data_frame f c) as [[[]| | |] c1]
        | |- context [handle_max_stream_data_frame ?f ?c] =>
          destruct (handle_max_stream_data_frame f c) as [[[]| | |] c1]
        | |- context [handle_stop_sending_frame E fuel ?f ?c] =>
          destruct (handle_stop_sending_frame E fuel f c) as [[[]| | |] c1]
        end;
    try reflexivity; simpl;
    try (rewrite orb_true_r); try (rewrite orb_false_r);
    try (destruct src'; reflexivity);
    destruct src; reflexivity.
Qed.

Lemma receive_frames_should_ack n :
  forall src should_ack c b c',
  receive_frames E fuel n src should_ack c = (Ok b, c') ->
  exists fs, payload_frames E n src = Ok fs
             /\ b = should_ack || existsb sets_should_ack fs.
Proof.
  induction n as [|n IH]; intros src should_ack c b c' Hrun; [discriminate|].
  destruct src as [|type_flags src]; [discriminate|].
  rewrite receive_frames_round in Hrun. simpl.
  destruct (decode_frame E type_flags src) as [[f src']| | |]; try discriminate.
  destruct (handle_frame f c) as [[[]| | |] c1]; try discriminate.
  destruct src' as [|t src'].
  - inversion Hrun. subst. exists [f]. split; [reflexivity|]. simpl.
    rewrite orb_false_r. reflexivity.
  - apply IH in Hrun. destruct Hrun as [fs [Hfs Hb]].
    rewrite Hfs. exists (f :: fs). split; [reflexivity|]. simpl.
    rewrite Hb, orb_assoc. reflexivity.
Qed.

Lemma receive_payload_schedules_ack aead packet c c' :
  receive_payload E fuel aead packet c = (Ok tt, c') ->
  exists payload frames,
    opened_payload E aead packet = Some payload
    /\ payload_frames E fuel payload = Ok frames
    /\ ack_queue (ingress c')
       = if existsb sets_should_ack frames
         then quicly_ranges_update (ack_queue (ingress c)) (pk_packet_number packet)
                (wrap32 (pk_packet_number packet + 1))
         else ack_queue (ingress c).
Proof.
  unfold receive_payload, opened_payload. intros Hrun.
  unfold mbind at 1 in Hrun.
  assert (Hopen : exists payload,
             match aead with
             | Some a => ptls_aead_decrypt E a (pk_payload packet) (pk_packet_number packet)
                           (pk_header packet)
             | None => let (ok, payload) := verify_cleartext_packet packet in
                       if ok then Some payload else None
             end = Some payload
             /\ match payload with
                | [] => fail QUICLY_ERROR_INVALID_FRAME_DATA
                | _ =>
                  let* should_ack := receive_frames E fuel fuel payload false in
                  if should_ack then
                    modify (schedule_ack (pk_packet_number packet)) ;;
                    match aead with
                    | Some _ => modify (with_egress (set_acks_require_encryption true))
                    | None => mret tt
                    end
                  else mret tt
                end c = (Ok tt, c')).
  { destruct aead as [a|].
    - destruct (ptls_aead_decrypt E a (pk_payload packet) (pk_packet_number packet)
                  (pk_header packet)) as [payload|]; [|discriminate].
      exists payload. split; [reflexivity | exact Hrun].
    - destruct (verify_cleartext_packet packet) as [[] payload]; [|discriminate].
      exists payload. split; [reflexivity | exact Hrun]. }
  destruct Hopen as [payload [Hopen Hrest]]. exists payload.
  destruct payload as [|t payload]; [discriminate|].
  unfold mbind at 1 in Hrest.
  pose proof (receive_frames_keeps_ack_queue fuel (t :: payload) false c) as Hkeep.
  destruct (receive_frames E fuel fuel (t :: payload) false c) as [[b| | |] c1] eqn:Hframes;
    try discriminate.
  apply receive_frames_should_ack in Hframes. destruct Hframes as [frames [Hframes Hb]].
  exists frames. split; [exact Hopen|]. split; [exact Hframes|].
  simpl in Hb. rewrite <- Hb. simpl in Hkeep.
  destruct b.
  - unfold mbind, modify in Hrest. destruct aead; inversion Hrest; subst; simpl;
      rewrite Hkeep; reflexivity.
  - inversion Hrest. subst. exact Hkeep.
Qed.

(** [quicly_receive], by the treatment of the packet. *)
Lemma quicly_receive_treatment packet c :
  quicly_receive E fuel packet c
  = let c0 := with_super (set_connection_id (pk_connection_id packet)) c in
    match treatment_of c packet with
    | frames_read aead => receive_payload E fuel aead packet c0
    | passed_over => (Ok tt, c0)
    | refused => (Err QUICLY_ERROR_INVALID_PACKET_HEADER, c0)
    end.
Proof.
  unfold quicly_receive, treatment_of.
  unfold mbind at 1. unfold modify at 1. unfold mbind at 1. unfold get at 1.
  cbv zeta. set (c0 := with_super (set_connection_id (pk_connection_id packet)) c).
  cbn [fst snd].
  change (connection_id (super c0)) with (pk_connection_id packet).
  rewrite Z.eqb_refl. cbn [negb].
  change (state (super c0)) with (state (super c)).
  change (quicly_is_client c0) with (quicly_is_client c).
  change (ingress c0) with (ingress c).
  change (quicly_get_state c0) with (quicly_get_state c).
  destruct (negb (is_long_header packet) && negb (state_is_1rtt (state (super c))));
    [reflexivity|].
  destruct (pk_type packet =? QUICLY_PACKET_TYPE_CLIENT_CLEARTEXT).
  { destruct (quicly_is_client c); reflexivity. }
  destruct (pk_type packet =? QUICLY_PACKET_TYPE_SERVER_CLEARTEXT).
  { destruct (quicly_is_client c); reflexivity. }
  destruct (pk_type packet =? QUICLY_PACKET_TYPE_0RTT_PROTECTED).
  { destruct (quicly_is_client c), (aead_early_data (ingress_pp (ingress c))); reflexivity. }
  destruct (pk_type packet =? QUICLY_PACKET_TYPE_1RTT_KEY_PHASE_0).
  { destruct (aead_key_phase0 (ingress_pp (ingress c))); [reflexivity|].
    destruct (state_is_1rtt (quicly_get_state c)); reflexivity. }
  destruct (pk_type packet =? QUICLY_PACKET_TYPE_1RTT_KEY_PHASE_1).
  { destruct (aead_key_phase1 (ingress_pp (ingress c))); reflexivity. }
  destruct (pk_type packet =? QUICLY_PACKET_TYPE_CLIENT_INITIAL); reflexivity.
Qed.

(** The packets that are passed over. *)
Lemma passed_over_packets packet c :
  treatment_of c packet = passed_over ->
  pk_type packet = QUICLY_PACKET_TYPE_CLIENT_INITIAL
  \/ (pk_type packet = QUICLY_PACKET_TYPE_1RTT_KEY_PHASE_0
      /\ aead_key_phase0 (ingress_pp (ingress c)) = None).
Proof.
  unfold treatment_of.
  destruct (negb (is_long_header packet) && negb (state_is_1rtt (state (super c))));
    [discriminate|]. cbv zeta.
  destruct (pk_type packet =? QUICLY_PACKET_TYPE_CLIENT_CLEARTEXT);
    [destruct (quicly_is_client c); discriminate|].
  destruct (pk_type packet =? QUICLY_PACKET_TYPE_SERVER_CLEARTEXT);
    [destruct (quicly_is_client c); discriminate|].
  destruct (pk_type packet =? QUICLY_PACKET_TYPE_0RTT_PROTECTED);
    [destruct (quicly_is_client c), (aead_early_data (ingress_pp (ingress c))); discriminate|].
  destruct (pk_type packet =? QUICLY_PACKET_TYPE_1RTT_KEY_PHASE_0) eqn:Hphase0.
  { destruct (aead_key_phase0 (ingress_pp (ingress c))); [discriminate|].
    intros _. right. split; [apply Z.eqb_eq; exact Hphase0 | reflexivity]. }
  destruct (pk_type packet =? QUICLY_PACKET_TYPE_1RTT_KEY_PHASE_1);
    [destruct (aead_key_phase1 (ingress_pp (ingress c))); discriminate|].
  destruct (pk_type packet =? QUICLY_PACKET_TYPE_CLIENT_INITIAL) eqn:Hinitial; [|discriminate].
  intros _. left. apply Z.eqb_eq. exact Hinitial.
Qed.


End Receive.



(** The packet with the number 2^32 - 1 is processed, its MAX_DATA frame is
    not an ACK frame, and the ack queue stays empty: on 32 bits the end of
    the range wraps to 0. *)
Lemma last_packet_number_is_not_queued :
  let r := quicly_receive example_env 5 last_numbered_packet example_conn in
  r.1 = Ok tt
  /\ max_data_permitted (egress r.2) = 32768
  /\ ack_queue (ingress example_conn) = []
  /\ ack_queue (ingress r.2) = [].
Proof. vm_compute. repeat split; reflexivity. Qed.

End AckScheduling.

(** * Stream ids *)

Module StreamIds.

(** The parity of the ids of the streams a side opens: a client opens the
    odd ids, a server the even ones. *)
Definition host_parity (is_client : bool) : Z := if is_client then 1 else 0.
Definition peer_parity (is_client : bool) : Z := if is_client then 0 else 1.

(** The next id of the host is 0 (no id is left) or has the parity of the
    host; the next id of the peer likewise. *)
Definition host_ids_ok (is_client : bool) (c : quicly_conn_t) : Prop :=
  0 <= host_next_stream_id (super c) < 2 ^ 32
  /\ (host_next_stream_id (super c) = 0
      \/ host_next_stream_id (super c) mod 2 = host_parity is_client).

Definition peer_ids_ok (is_client : bool) (c : quicly_conn_t) : Prop :=
  peer_next_stream_id (super c) = 0
  \/ peer_next_stream_id (super c) mod 2 = peer_parity is_client.

Definition peer_ids_strict (is_client : bool) (c : quicly_conn_t) : Prop :=
  peer_next_stream_id (super c) mod 2 = peer_parity is_client.

(** What the calls of the host preserve, and what the loop that opens the
    streams of the peer preserves. *)
Definition ids_rel (is_client : bool) (c c' : quicly_conn_t) : Prop :=
  (host_ids_ok is_client c -> host_ids_ok is_client c')
  /\ (peer_ids_ok is_client c -> peer_ids_ok is_client c').

Definition loop_rel (is_client : bool) (c c' : quicly_conn_t) : Prop :=
  (host_ids_ok is_client c -> host_ids_ok is_client c')
  /\ (peer_ids_strict is_client c -> peer_ids_strict is_client c').

(** The id was taken from the counter of the host between [c] and [c']:
    it is not below the next id of the host in [c], and it is below the
    next id in [c'] unless no id is left there. *)
Definition taken_by_host (c c' : quicly_conn_t) (id : Z) : Prop :=
  host_next_stream_id (super c) <> 0
  /\ host_next_stream_id (super c) <= id
  /\ (id < host_next_stream_id (super c') \/ host_next_stream_id (super c') = 0).

(** The stream [id] is in the table of [c'] and was not in that of [c]. *)
Definition added (c c' : quicly_conn_t) (id : Z) : Prop :=
  quicly_get_stream c id = None /\ is_Some (quicly_get_stream c' id).

(** What enters the stream table: streams with the parity of the peer, and
    streams whose ids the host took from its counter.  [P] is what is known
    of the next id of the peer: [peer_ids_ok] between the calls,
    [peer_ids_strict] in the loop that opens the streams of the peer. *)
Definition table_rel (is_client : bool) (P : quicly_conn_t -> Prop)
    (c c' : quicly_conn_t) : Prop :=
  host_ids_ok is_client c -> P c ->
  host_ids_ok is_client c' /\ P c'
  /\ (host_next_stream_id (super c) = 0 -> host_next_stream_id (super c') = 0)
  /\ (host_next_stream_id (super c) <= host_next_stream_id (super c')
      \/ host_next_stream_id (super c') = 0)
  /\ forall id, added c c' id -> id mod 2 = peer_parity is_client \/ taken_by_host c c' id.

Lemma wrap32_add_2_parity x : wrap32 (x + 2) mod 2 = x mod 2.
Proof.
  unfold wrap32. rewrite Z.mod_mod_divide by (exists (2 ^ 31); reflexivity).
  replace (x + 2) with (x + 1 * 2) by lia. apply Z_mod_plus_full.
Qed.

Lemma wrap32_range x : 0 <= wrap32 x < 2 ^ 32.
Proof. unfold wrap32. apply Z.mod_pos_bound. lia. Qed.

Lemma same_ids_ids_rel b c c' :
  host_next_stream_id (super c') = host_next_stream_id (super c) ->
  peer_next_stream_id (super c') = peer_next_stream_id (super c) ->
  ids_rel b c c'.
Proof.
  intros Hh Hp. unfold ids_rel, host_ids_ok, peer_ids_ok. rewrite Hh, Hp. tauto.
Qed.

Lemma same_ids_loop_rel b c c' :
  host_next_stream_id (super c') = host_next_stream_id (super c) ->
  peer_next_stream_id (super c') = peer_next_stream_id (super c) ->
  loop_rel b c c'.
Proof.
  intros Hh Hp. unfold loop_rel, host_ids_ok, peer_ids_strict. rewrite Hh, Hp. tauto.
Qed.

Lemma host_stream_opened_ok b c :
  host_next_stream_id (super c) <> 0 ->
  host_ids_ok b c -> host_ids_ok b (host_stream_opened c).
Proof.
  intros Hne [Hrange [H0|Hpar]]; [contradiction|].
  unfold host_ids_ok, host_stream_opened. simpl.
  pose proof (wrap32_range (host_next_stream_id (super c) + 2)) as Hw.
  pose proof (wrap32_add_2_parity (host_next_stream_id (super c))) as Hp.
  destruct (wrap32 (host_next_stream_id (super c) + 2) <? 2) eqn:Hlt.
  - split; [lia | left; reflexivity].
  - split; [exact Hw | right; congruence].
Qed.

Section Ids.

Variable E : env.
Variable fuel : nat.
Variable is_client : bool.

Lemma loop_rel_refl c : loop_rel is_client c c.
Proof. unfold loop_rel. tauto. Qed.

Lemma loop_rel_trans c1 c2 c3 :
  loop_rel is_client c1 c2 -> loop_rel is_client c2 c3 -> loop_rel is_client c1 c3.
Proof. unfold loop_rel. tauto. Qed.

Lemma ids_rel_refl c : ids_rel is_client c c.
Proof. unfold ids_rel. tauto. Qed.

Lemma ids_rel_trans c1 c2 c3 :
  ids_rel is_client c1 c2 -> ids_rel is_client c2 c3 -> ids_rel is_client c1 c3.
Proof. unfold ids_rel. tauto. Qed.

Lemma loop_rel_host_stream_opened c :
  host_next_stream_id (super c) <> 0 -> loop_rel is_client c (host_stream_opened c).
Proof.
  intros Hne. split; [apply host_stream_opened_ok; exact Hne | intros H; exact H].
Qed.

Lemma loop_rel_peer_stream_opened c : loop_rel is_client c (peer_stream_opened c).
Proof.
  split; [intros H; exact H|].
  unfold peer_ids_strict, peer_stream_opened. simpl. rewrite wrap32_add_2_parity. tauto.
Qed.

(** One round of the loop preserves the parity of the peer's next id. *)
Lemma open_peer_stream_loop_rel : preserves (loop_rel is_client) (open_peer_stream E).
Proof.
  apply open_peer_stream_pres;
    first [ exact loop_rel_refl | exact loop_rel_trans | exact loop_rel_host_stream_opened
          | exact loop_rel_peer_stream_opened
          | intros; apply same_ids_loop_rel; reflexivity ].
Qed.

Lemma open_peer_streams_loop_rel n sid :
  preserves (loop_rel is_client) (open_peer_streams E n sid).
Proof.
  apply open_peer_streams_pres;
    first [ exact loop_rel_refl | exact loop_rel_trans | exact loop_rel_host_stream_opened
          | exact loop_rel_peer_stream_opened
          | intros; apply same_ids_loop_rel; reflexivity ].
Qed.

Lemma get_stream_or_open_if_new_ids_rel sid :
  preserves (ids_rel is_client) (get_stream_or_open_if_new E fuel sid).
Proof.
  intros c. unfold get_stream_or_open_if_new, mbind, get. simpl.
  destruct (quicly_get_stream c sid); [apply ids_rel_refl|].
  destruct (negb (sid mod 2 =? Z.b2z (quicly_is_client c))); simpl; [|apply ids_rel_refl].
  destruct (peer_next_stream_id (super c) =? 0) eqn:Hzero; simpl; [apply ids_rel_refl|].
  destruct (peer_next_stream_id (super c) <=? sid); [|apply ids_rel_refl].
  pose proof (open_peer_streams_loop_rel fuel sid c) as [Hhost Hpeer].
  assert (Hstrict : peer_ids_ok is_client c -> peer_ids_strict is_client c).
  { intros [H0|Hpar]; [|exact Hpar]. apply Z.eqb_neq in Hzero. contradiction. }
  assert (Hweak : forall c1, peer_ids_strict is_client c1 -> peer_ids_ok is_client c1)
    by (intros c1 H; right; exact H).
  destruct (open_peer_streams E fuel sid c) as [[[]| | |] c1]; simpl in *;
    try (split; [exact Hhost | intros H; apply Hweak, Hpeer, Hstrict, H]).
  unfold modify. simpl. split.
  - intros H. specialize (Hhost H). unfold host_ids_ok, peer_streams_exhausted in *. simpl.
    destruct (peer_next_stream_id (super c1) <? 2); exact Hhost.
  - intros H. specialize (Hpeer (Hstrict H)).
    unfold peer_ids_ok, peer_ids_strict, peer_streams_exhausted in *. simpl.
    destruct (peer_next_stream_id (super c1) <? 2); simpl; [left; reflexivity | right; exact Hpeer].
Qed.

Lemma ids_rel_frame : conn_frame E fuel (ids_rel is_client).
Proof.
  split;
    first [ exact ids_rel_refl | exact ids_rel_trans | exact get_stream_or_open_if_new_ids_rel
          | intros [] ? ? ?; apply same_ids_ids_rel; reflexivity
          | intros; apply same_ids_ids_rel; reflexivity
          | idtac ].
  intros c Hne. split; [apply host_stream_opened_ok; exact Hne | intros H; exact H].
Qed.

Lemma create_connection_ids_ok ctx :
  host_ids_ok is_client (create_connection E ctx is_client)
  /\ peer_ids_strict is_client (create_connection E ctx is_client).
Proof.
  unfold host_ids_ok, peer_ids_strict, create_connection.
  destruct is_client; simpl; repeat split; try lia; right; reflexivity.
Qed.

Lemma run_trace_ids_ok ctx trace :
  host_ids_ok is_client (run_trace E fuel trace (create_connection E ctx is_client))
  /\ peer_ids_ok is_client (run_trace E fuel trace (create_connection E ctx is_client)).
Proof.
  destruct (create_connection_ids_ok ctx) as [Hh Hp].
  destruct (run_trace_frame E fuel _ ids_rel_frame trace (create_connection E ctx is_client))
    as [Hhost Hpeer].
  split; [apply Hhost, Hh | apply Hpeer; right; exact Hp].
Qed.

End Ids.

Section Table.

Variable E : env.
Variable fuel : nat.
Variable is_client : bool.
Variable P : quicly_conn_t -> Prop.
Hypothesis P_same_peer :
  forall c c', peer_next_stream_id (super c') = peer_next_stream_id (super c) -> P c -> P c'.

Local Abbreviation R := (table_rel is_client P).

Lemma table_rel_refl c : R c c.
Proof.
  intros Hh Hp. split; [exact Hh|]. split; [exact Hp|]. split; [tauto|]. split; [left; lia|].
  intros id [Hnone [s Hsome]]. congruence.
Qed.

Lemma table_rel_trans c1 c2 c3 : R c1 c2 -> R c2 c3 -> R c1 c3.
Proof.
  intros H12 H23 Hh Hp.
  destruct (H12 Hh Hp) as (Hh2 & Hp2 & Hz12 & Hm12 & Hnew12).
  destruct (H23 Hh2 Hp2) as (Hh3 & Hp3 & Hz23 & Hm23 & Hnew23).
  split; [exact Hh3|]. split; [exact Hp3|]. split; [tauto|].
  split; [destruct Hm12 as [?|H0]; [destruct Hm23; [left; lia | right; assumption]
                                   | right; apply Hz23, H0]|].
  intros id [Hnone Hsome].
  destruct (quicly_get_stream c2 id) as [s2|] eqn:H2.
  - destruct (Hnew12 id) as [Hpar | (Hne & Hle & Hlt)];
      [split; [exact Hnone | rewrite H2; eexists; reflexivity] | left; exact Hpar |].
    right. split; [exact Hne|]. split; [exact Hle|].
    destruct Hlt as [Hlt|H0]; [|right; apply Hz23, H0].
    destruct Hm23 as [Hm|H0]; [left; lia | right; exact H0].
  - destruct (Hnew23 id) as [Hpar | (Hne & Hle & Hlt)];
      [split; [exact H2 | exact Hsome] | left; exact Hpar |].
    right. split; [intros H0; apply Hne, Hz12, H0|].
    split; [destruct Hm12 as [Hm|H0]; [lia | contradiction]|]. exact Hlt.
Qed.

(** An update that adds no stream and leaves the two counters alone. *)
Lemma table_rel_same c c' :
  (forall id, streams c !! id = None -> streams c' !! id = None) ->
  host_next_stream_id (super c') = host_next_stream_id (super c) ->
  peer_next_stream_id (super c') = peer_next_stream_id (super c) ->
  R c c'.
Proof.
  intros Hkeys Hhost Hpeer Hh Hp. unfold host_ids_ok in *.
  rewrite Hhost. split; [exact Hh|]. split; [exact (P_same_peer c c' Hpeer Hp)|].
  split; [tauto|]. split; [left; lia|].
  intros id [Hnone [s Hsome]]. unfold quicly_get_stream in *.
  rewrite (Hkeys id Hnone) in Hsome. discriminate.
Qed.

Lemma table_rel_remove_stream sid c : R c (remove_stream sid c).
Proof.
  apply table_rel_same; try reflexivity. intros id Hnone. cbn.
  apply lookup_delete_None. right. exact Hnone.
Qed.

Lemma table_rel_install_key_phase0 side a secret c : R c (install_key_phase0 side a secret c).
Proof. destruct side; apply table_rel_same; try reflexivity; intros id Hnone; exact Hnone. Qed.

(** [update_stream] writes to a stream that is in the table. *)
Lemma update_stream_table sid f : preserves R (update_stream sid f).
Proof.
  intros c. unfold update_stream, stream_ptr, mbind, get, modify. cbn.
  destruct (streams c !! sid) as [s|] eqn:Hs; cbn; [|apply table_rel_refl].
  apply table_rel_same; try reflexivity. intros id Hnone. cbn.
  rewrite lookup_insert_ne; [exact Hnone | congruence].
Qed.

(** [quicly_open_stream] takes the id of the stream from the counter of
    the host. *)
Lemma quicly_open_stream_table : preserves R (quicly_open_stream E).
Proof.
  intros c. unfold quicly_open_stream, mbind, get, open_stream, modify. cbn.
  destruct (host_next_stream_id (super c) =? 0) eqn:Hzero; cbn; [apply table_rel_refl|].
  apply Z.eqb_neq in Hzero. intros Hh Hp.
  pose proof (host_stream_opened_ok is_client c Hzero Hh) as Hh'.
  destruct Hh as [Hrange _].
  assert (Hnext : host_next_stream_id (super c) < host_next_stream_id
                    (super (host_stream_opened c))
                  \/ host_next_stream_id (super (host_stream_opened c)) = 0).
  { unfold host_stream_opened. cbn.
    destruct (wrap32 (host_next_stream_id (super c) + 2) <? 2) eqn:Hlt; [right; reflexivity|].
    left. apply Z.ltb_ge in Hlt. unfold wrap32 in *.
    destruct (Z.ltb_spec (host_next_stream_id (super c) + 2) (2 ^ 32)).
    - rewrite Z.mod_small by lia. lia.
    - rewrite <- (Z.mod_unique (host_next_stream_id (super c) + 2) (2 ^ 32) 1
                    (host_next_stream_id (super c) + 2 - 2 ^ 32)) in Hlt by lia.
      lia. }
  split; [exact Hh'|]. split; [apply (P_same_peer c); [reflexivity | exact Hp]|].
  split; [intros H0; contradiction|].
  split; [destruct Hnext; [left; cbn in *; lia | right; assumption]|].
  intros id [Hnone [s Hsome]]. unfold quicly_get_stream in *. cbn in Hsome.
  destruct (decide (id = host_next_stream_id (super c))) as [->|Hne];
    [|rewrite lookup_insert_ne in Hsome by congruence; congruence].
  right. split; [exact Hzero|]. split; [lia|]. exact Hnext.
Qed.

Local Hint Resolve table_rel_refl table_rel_remove_stream table_rel_install_key_phase0
  update_stream_table quicly_open_stream_table : pres.

(** The other updates touch neither the table nor the counters. *)
Local Hint Extern 1 (table_rel _ _ _ _) =>
  apply table_rel_same; [intros ? Hnone; exact Hnone | reflexivity | reflexivity] : pres.

Local Ltac table :=
  pose proof table_rel_refl as Hrefl; pose proof table_rel_trans as Htrans; pres.

Lemma on_sendbuf_change_table sid : preserves R (on_sendbuf_change sid).
Proof. unfold on_sendbuf_change, stream_ptr. table. Qed.

Lemma on_recvbuf_change_table sid n : preserves R (on_recvbuf_change sid n).
Proof. unfold on_recvbuf_change, stream_ptr. table. Qed.

Local Hint Resolve on_sendbuf_change_table on_recvbuf_change_table : pres.

Lemma quicly_sendbuf_write_table sid data : preserves R (quicly_sendbuf_write sid data).
Proof. unfold quicly_sendbuf_write. table. Qed.

Lemma quicly_sendbuf_shutdown_table sid : preserves R (quicly_sendbuf_shutdown sid).
Proof. unfold quicly_sendbuf_shutdown. table. Qed.

Lemma quicly_sendbuf_acked_table sid a b : preserves R (quicly_sendbuf_acked sid a b).
Proof. unfold quicly_sendbuf_acked. table. Qed.

Lemma quicly_sendbuf_lost_table sid a b : preserves R (quicly_sendbuf_lost sid a b).
Proof. unfold quicly_sendbuf_lost. table. Qed.

Lemma quicly_recvbuf_shift_table sid n : preserves R (quicly_recvbuf_shift sid n).
Proof. unfold quicly_recvbuf_shift. table. Qed.

Lemma destroy_stream_table sid : preserves R (destroy_stream sid).
Proof. unfold destroy_stream, stream_ptr. table. Qed.

Local Hint Resolve quicly_sendbuf_write_table quicly_sendbuf_shutdown_table
  quicly_sendbuf_acked_table quicly_sendbuf_lost_table quicly_recvbuf_shift_table
  destroy_stream_table : pres.

Lemma destroy_stream_if_unneeded_table sid : preserves R (destroy_stream_if_unneeded sid).
Proof. unfold destroy_stream_if_unneeded, stream_ptr. table. Qed.

Local Hint Resolve destroy_stream_if_unneeded_table : pres.

Lemma reset_sender_table sid reason : preserves R (reset_sender sid reason).
Proof. unfold reset_sender, stream_ptr. table. Qed.

Lemma call_acked_table acked ack : preserves R (call_acked acked ack).
Proof.
  unfold call_acked, on_ack_stream, on_ack_max_stream_data, on_ack_max_data,
    on_ack_stream_state_sender, stream_ptr.
  table.
Qed.

Lemma quicly_close_stream_table sid : preserves R (quicly_close_stream sid).
Proof. unfold quicly_close_stream, stream_ptr. table. Qed.

Local Hint Resolve reset_sender_table call_acked_table quicly_close_stream_table : pres.

Lemma run_app_action_table a : preserves R (run_app_action E a).
Proof. unfold run_app_action. table. Qed.

Local Hint Resolve run_app_action_table : pres.

Lemma run_app_actions_table l : preserves R (run_app_actions E l).
Proof. induction l; simpl; table. Qed.

Local Hint Resolve run_app_actions_table : pres.

Lemma call_on_stream_open_table sid : preserves R (call_on_stream_open E sid).
Proof. unfold call_on_stream_open. table. Qed.

(** The handshake driver. *)
Lemma setup_1rtt_secret_table side label is_enc :
  preserves R (setup_1rtt_secret E side label is_enc).
Proof. unfold setup_1rtt_secret. table. Qed.

Local Hint Resolve setup_1rtt_secret_table : pres.

Lemma setup_1rtt_table : preserves R (setup_1rtt E).
Proof. unfold setup_1rtt. table. Qed.

Lemma write_tlsbuf_table sid buf : preserves R (write_tlsbuf sid buf).
Proof. unfold write_tlsbuf. table. Qed.

Lemma on_peer_transport_params_table {A} (m : M quicly_transport_parameters_t A) :
  preserves R (on_peer_transport_params m).
Proof.
  intros c. unfold on_peer_transport_params.
  destruct (m (peer_transport_params (super c))) as [r p]. cbn.
  apply table_rel_same; try reflexivity. intros id Hnone. exact Hnone.
Qed.

Local Hint Resolve setup_1rtt_table write_tlsbuf_table on_peer_transport_params_table : pres.

Lemma client_collected_extensions_table slot :
  preserves R (client_collected_extensions E slot).
Proof. unfold client_collected_extensions. table. Qed.

Lemma server_collected_extensions_table slot :
  preserves R (server_collected_extensions E slot).
Proof. unfold server_collected_extensions. table. Qed.

Local Hint Resolve client_collected_extensions_table server_collected_extensions_table : pres.

Lemma call_ptls_handshake_table input : preserves R (call_ptls_handshake E input).
Proof. unfold call_ptls_handshake. table. Qed.

Local Hint Resolve call_ptls_handshake_table : pres.

Lemma handshake_loop_table n sid ret buf : preserves R (handshake_loop E n sid ret buf).
Proof. revert ret buf. induction n; intros ret buf; simpl; table. Qed.

Local Hint Resolve handshake_loop_table : pres.

Lemma crypto_stream_receive_handshake_table sid :
  preserves R (crypto_stream_receive_handshake E fuel sid).
Proof. unfold crypto_stream_receive_handshake, stream_ptr. table. Qed.

Local Hint Resolve crypto_stream_receive_handshake_table : pres.

Lemma call_on_update_table sid : preserves R (call_on_update E fuel sid).
Proof. unfold call_on_update, stream_ptr. table. Qed.

Local Hint Resolve call_on_update_table : pres.

Lemma do_apply_stream_frame_table sid off data :
  preserves R (do_apply_stream_frame E fuel sid off data).
Proof. unfold do_apply_stream_frame, stream_ptr. table. Qed.

Local Hint Resolve do_apply_stream_frame_table : pres.

Lemma apply_stream_frame_table sid frame : preserves R (apply_stream_frame E fuel sid frame).
Proof. unfold apply_stream_frame, stream_ptr. table. Qed.

Local Hint Resolve apply_stream_frame_table : pres.

(** The frames, once it is known what [get_stream_or_open_if_new] adds. *)
Hypothesis get_stream_or_open_if_new_R :
  forall sid, preserves R (get_stream_or_open_if_new E fuel sid).

Local Hint Resolve get_stream_or_open_if_new_R : pres.

Lemma handle_stream_frame_table frame : preserves R (handle_stream_frame E fuel frame).
Proof. unfold handle_stream_frame. table. Qed.

Lemma handle_rst_stream_frame_table frame : preserves R (handle_rst_stream_frame E fuel frame).
Proof. unfold handle_rst_stream_frame, stream_ptr. table. Qed.

Lemma handle_stop_sending_frame_table frame :
  preserves R (handle_stop_sending_frame E fuel frame).
Proof. unfold handle_stop_sending_frame. table. Qed.

Lemma handle_max_stream_data_frame_table frame :
  preserves R (handle_max_stream_data_frame frame).
Proof. unfold handle_max_stream_data_frame. table. Qed.

Lemma handle_max_data_frame_table frame : preserves R (handle_max_data_frame frame).
Proof. unfold handle_max_data_frame. table. Qed.

Lemma quicly_acks_release_table i : preserves R (quicly_acks_release i).
Proof. unfold quicly_acks_release. table. Qed.

Local Hint Resolve quicly_acks_release_table : pres.

Lemma ack_skip_table n i pn : preserves R (ack_skip n i pn).
Proof. revert i. induction n; intros i; simpl; table. Qed.

Lemma ack_entries_table n i pn : preserves R (ack_entries n i pn).
Proof. induction n; simpl; table. Qed.

Local Hint Resolve ack_skip_table ack_entries_table : pres.

Lemma ack_block_table n i pn len : preserves R (ack_block fuel n i pn len).
Proof. revert pn len. induction n; intros pn len; simpl; table. Qed.

Local Hint Resolve ack_block_table : pres.

Lemma ack_blocks_table frame g i pn : preserves R (ack_blocks fuel frame g i pn).
Proof. revert i pn. induction g; intros i pn; simpl; table. Qed.

Local Hint Resolve ack_blocks_table : pres.

Lemma handle_ack_frame_table frame : preserves R (handle_ack_frame fuel frame).
Proof. unfold handle_ack_frame. table. Qed.

Local Hint Resolve handle_stream_frame_table handle_rst_stream_frame_table
  handle_stop_sending_frame_table handle_max_stream_data_frame_table
  handle_max_data_frame_table handle_ack_frame_table : pres.

Lemma receive_frames_table n src should_ack :
  preserves R (receive_frames E fuel n src should_ack).
Proof. revert src should_ack. induction n; intros src should_ack; simpl; table. Qed.

Local Hint Resolve receive_frames_table : pres.

Lemma receive_payload_table aead packet : preserves R (receive_payload E fuel aead packet).
Proof. unfold receive_payload. table. Qed.

Local Hint Resolve receive_payload_table : pres.

Lemma quicly_receive_table packet : preserves R (quicly_receive E fuel packet).
Proof. unfold quicly_receive. table. Qed.

End Table.

Section Added.

Variable E : env.
Variable fuel : nat.
Variable is_client : bool.

Lemma peer_ids_strict_same c c' :
  peer_next_stream_id (super c') = peer_next_stream_id (super c) ->
  peer_ids_strict is_client c -> peer_ids_strict is_client c'.
Proof. unfold peer_ids_strict. intros ->. tauto. Qed.

Lemma peer_ids_ok_same c c' :
  peer_next_stream_id (super c') = peer_next_stream_id (super c) ->
  peer_ids_ok is_client c -> peer_ids_ok is_client c'.
Proof. unfold peer_ids_ok. intros ->. tauto. Qed.

Local Abbreviation in_loop := (table_rel is_client (peer_ids_strict is_client)).
Local Abbreviation in_call := (table_rel is_client (peer_ids_ok is_client)).

Lemma table_rel_peer_stream_opened c : in_loop c (peer_stream_opened c).
Proof.
  intros Hh Hp. split; [exact Hh|]. split.
  { unfold peer_ids_strict, peer_stream_opened. cbn. rewrite wrap32_add_2_parity. exact Hp. }
  split; [tauto|]. split; [left; cbn; lia|].
  intros id [Hnone [s Hsome]]. unfold quicly_get_stream in *. cbn in Hsome. congruence.
Qed.

(** One round of the loop: the stream it opens has the next id of the
    peer, and the callback of the host runs before the counter advances. *)
Lemma open_peer_stream_table : preserves in_loop (open_peer_stream E).
Proof.
  pose proof (table_rel_refl is_client (peer_ids_strict is_client)) as Hrefl.
  pose proof (table_rel_trans is_client (peer_ids_strict is_client)) as Htrans.
  intros c. unfold open_peer_stream. unfold mbind at 1. unfold get at 1. cbv beta iota.
  unfold mbind at 1. unfold open_stream at 1, modify at 1. cbv beta iota.
  set (n := peer_next_stream_id (super c)).
  set (c1 := put_stream n (new_stream E c n) c).
  apply Htrans with c1.
  - intros Hh Hp. split; [exact Hh|]. split; [exact Hp|]. split; [tauto|].
    split; [left; cbn; lia|].
    intros id [Hnone [s Hsome]]. left. unfold quicly_get_stream in *. cbn in Hsome.
    destruct (decide (id = n)) as [->|Hne]; [exact Hp|].
    rewrite lookup_insert_ne in Hsome by congruence. congruence.
  - assert (Hrest : preserves in_loop
                      (call_on_stream_open E n ;;
                       (modify peer_stream_opened ;;
                        (let* s := stream_ptr n in mret (stream_id s))))).
    { pose proof (call_on_stream_open_table E is_client _ peer_ids_strict_same n) as Hcb.
      pose proof table_rel_peer_stream_opened as Hopened.
      unfold stream_ptr. pres. }
    exact (Hrest c1).
Qed.

Lemma open_peer_streams_table n sid : preserves in_loop (open_peer_streams E n sid).
Proof.
  pose proof (table_rel_refl is_client (peer_ids_strict is_client)) as Hrefl.
  pose proof (table_rel_trans is_client (peer_ids_strict is_client)) as Htrans.
  pose proof open_peer_stream_table as Hstep.
  induction n; simpl; pres.
Qed.

(** The streams that [get_stream_or_open_if_new] adds to the table. *)
Lemma get_stream_or_open_if_new_table sid :
  preserves in_call (get_stream_or_open_if_new E fuel sid).
Proof.
  pose proof (table_rel_refl is_client (peer_ids_ok is_client)) as Hrefl.
  intros c. unfold get_stream_or_open_if_new, mbind, get. cbn [fst snd].
  destruct (quicly_get_stream c sid); [apply Hrefl|].
  destruct (negb (sid mod 2 =? Z.b2z (quicly_is_client c))); cbn [andb]; [|apply Hrefl].
  destruct (peer_next_stream_id (super c) =? 0) eqn:Hzero; cbn [negb andb]; [apply Hrefl|].
  destruct (peer_next_stream_id (super c) <=? sid); [|apply Hrefl].
  intros Hh Hp.
  assert (Hstrict : peer_ids_strict is_client c).
  { destruct Hp as [H0|Hpar]; [|exact Hpar]. apply Z.eqb_neq in Hzero. contradiction. }
  destruct (open_peer_streams_table fuel sid c Hh Hstrict) as (Hh1 & Hp1 & Hz & Hm & Hnew).
  destruct (open_peer_streams E fuel sid c) as [[[]| | |] c1]; cbn [fst snd] in *;
    try (split; [exact Hh1|]; split; [right; exact Hp1|]; split; [exact Hz|];
         split; [exact Hm | exact Hnew]).
  unfold modify, mret. cbn [fst snd].
  split; [unfold host_ids_ok, peer_streams_exhausted in *; cbn;
          destruct (peer_next_stream_id (super c1) <? 2); exact Hh1|].
  split; [unfold peer_ids_ok, peer_ids_strict, peer_streams_exhausted in *; cbn;
          destruct (peer_next_stream_id (super c1) <? 2); cbn;
          [left; reflexivity | right; exact Hp1]|].
  assert (Hhost : host_next_stream_id (super (peer_streams_exhausted c1))
                  = host_next_stream_id (super c1)).
  { unfold peer_streams_exhausted. cbn.
    destruct (peer_next_stream_id (super c1) <? 2); reflexivity. }
  unfold taken_by_host, added in *. rewrite Hhost.
  split; [exact Hz|]. split; [exact Hm | exact Hnew].
Qed.

(** The streams that a call of [quicly_receive] adds to the table. *)
Lemma quicly_receive_table_ok packet : preserves in_call (quicly_receive E fuel packet).
Proof.
  apply (quicly_receive_table E fuel is_client _ peer_ids_ok_same).
  exact get_stream_or_open_if_new_table.
Qed.

(** C9.  The connection is created with stream 0, the crypto stream, and
    with the next id of the host set to 1 on a client and 2 on a server.
    After any sequence of calls of the host, a stream that
    [quicly_open_stream] opens has the next id of the host, which has the
    parity of the host, and the next id advances by 2 (to 0 when the ids
    are used up).  Every stream that [get_stream_or_open_if_new] adds to
    the stream table for an id the peer refers to, and every stream that a
    call of [quicly_receive] adds to it, has the parity of the peer, unless
    its id was taken from the counter of the host, by a callback of the
    host that called [quicly_open_stream] meanwhile; when the counter of
    the host is after the call as before, every stream added has the parity
    of the peer. *)
Theorem stream_ids_have_the_parity_of_their_side
    (ctx : quicly_context_t) (trace : list api_call) :
  let c0 := create_connection E ctx is_client in
  let c := run_trace E fuel trace c0 in
  (exists s, streams c0 !! 0 = Some s /\ stream_id s = 0
             /\ on_update s = Some crypto_update_cb /\ dom (streams c0) = {[ 0 ]})
  /\ host_next_stream_id (super c0) = (if is_client then 1 else 2)
  /\ peer_next_stream_id (super c0) = (if is_client then 2 else 1)
  /\ (forall id c', quicly_open_stream E c = (Ok id, c') ->
        id = host_next_stream_id (super c)
        /\ id mod 2 = host_parity is_client
        /\ id <> 0
        /\ (exists s, streams c' !! id = Some s /\ stream_id s = id)
        /\ host_next_stream_id (super c') = (if id + 2 <? 2 ^ 32 then id + 2 else 0))
  /\ (forall sid id,
        let c' := (get_stream_or_open_if_new E fuel sid c).2 in
        added c c' id ->
        (id mod 2 = peer_parity is_client \/ taken_by_host c c' id)
        /\ (host_next_stream_id (super c') = host_next_stream_id (super c) ->
            id mod 2 = peer_parity is_client))
  /\ (forall packet id,
        let c' := (quicly_receive E fuel packet c).2 in
        added c c' id ->
        (id mod 2 = peer_parity is_client \/ taken_by_host c c' id)
        /\ (host_next_stream_id (super c') = host_next_stream_id (super c) ->
            id mod 2 = peer_parity is_client)).
Proof.
  intros c0 c.
  destruct (run_trace_ids_ok E fuel is_client ctx trace) as [Hhost Hpeer].
  fold c0 in Hhost, Hpeer. fold c in Hhost, Hpeer.
  assert (Hadded : forall c' id,
            table_rel is_client (peer_ids_ok is_client) c c' -> added c c' id ->
            (id mod 2 = peer_parity is_client \/ taken_by_host c c' id)
            /\ (host_next_stream_id (super c') = host_next_stream_id (super c) ->
                id mod 2 = peer_parity is_client)).
  { intros c' id Hrel Hid. destruct (Hrel Hhost Hpeer) as (_ & _ & _ & _ & Hnew).
    destruct (Hnew id Hid) as [Hpar | (Hne & Hle & Hlt)]; [split; [left|]; tauto|].
    split; [right; repeat split; assumption|].
    intros Hsame. rewrite Hsame in Hlt. lia. }
  split.
  { subst c0. unfold create_connection.
    destruct is_client; simpl; eexists; (split; [apply lookup_insert_eq|]);
      repeat split; try reflexivity; rewrite dom_insert_L, dom_empty_L; set_solver. }
  split; [subst c0; destruct is_client; reflexivity|].
  split; [subst c0; destruct is_client; reflexivity|].
  split; [|split].
  - intros id c' Hopen. unfold quicly_open_stream, mbind, get in Hopen. simpl in Hopen.
    destruct (host_next_stream_id (super c) =? 0) eqn:Hzero; [discriminate|].
    apply Z.eqb_neq in Hzero. inversion Hopen. subst id c'. clear Hopen.
    destruct Hhost as [Hrange [H0|Hpar]]; [contradiction|].
    split; [reflexivity|]. split; [exact Hpar|]. split; [exact Hzero|]. split.
    + simpl. eexists. split; [apply lookup_insert_eq | reflexivity].
    + simpl. unfold wrap32.
      destruct (host_next_stream_id (super c) + 2 <? 2 ^ 32) eqn:Hlt.
      * apply Z.ltb_lt in Hlt. rewrite Z.mod_small by lia.
        destruct (host_next_stream_id (super c) + 2 <? 2) eqn:Hlt2; [lia | reflexivity].
      * apply Z.ltb_ge in Hlt.
        assert (Hw : (host_next_stream_id (super c) + 2) mod 2 ^ 32
                     = host_next_stream_id (super c) + 2 - 2 ^ 32).
        { symmetry. apply (Z.mod_unique _ _ 1); lia. }
        rewrite Hw.
        destruct (host_next_stream_id (super c) + 2 - 2 ^ 32 <? 2) eqn:Hlt2; [reflexivity|lia].
  - intros sid id c'. apply Hadded. apply get_stream_or_open_if_new_table.
  - intros packet id c'. apply Hadded. apply quicly_receive_table_ok.
Qed.

End Added.

End StreamIds.

(** * ACKs that require encryption *)

Module AcksRequireEncryption.

Definition flag (c : quicly_conn_t) : bool := acks_require_encryption (egress c).

(** Once set, the flag stays set. *)
Definition flag_rel (c c' : quicly_conn_t) : Prop := flag c = true -> flag c' = true.

(** The AEAD context that [quicly_receive] selects for a protected packet. *)
Definition protected_by (c : quicly_conn_t) (packet : quicly_decoded_packet_t)
  : option ptls_aead_context_t :=
  if pk_type packet =? QUICLY_PACKET_TYPE_0RTT_PROTECTED then
    if quicly_is_client c then None else aead_early_data (ingress_pp (ingress c))
  else if pk_type packet =? QUICLY_PACKET_TYPE_1RTT_KEY_PHASE_0 then
    aead_key_phase0 (ingress_pp (ingress c))
  else if pk_type packet =? QUICLY_PACKET_TYPE_1RTT_KEY_PHASE_1 then
    aead_key_phase1 (ingress_pp (ingress c))
  else None.

(** The cleartext packet types: Initial and Cleartext. *)
Definition is_cleartext_type (type : Z) : bool :=
  (type =? QUICLY_PACKET_TYPE_CLIENT_INITIAL)
  || (type =? QUICLY_PACKET_TYPE_SERVER_CLEARTEXT)
  || (type =? QUICLY_PACKET_TYPE_CLIENT_CLEARTEXT).

Definition is_cleartext_packet (p : quicly_raw_packet_t) : bool :=
  is_cleartext_type (GET_TYPE_FROM_PACKET_HEADER (raw_header p)).

Definition carries_ack (items : list frame_item) : bool := existsb item_is_ack items.

(** What holds of the send context while packets of the type [k] are
    written: no cleartext packet written so far carries an ACK frame, and
    the packet under construction has a header of the type [k] and carries
    no ACK frame if [k] is a cleartext type. *)
Definition packets_ok (s : st_quicly_send_context_t) : Prop :=
  forall p, In p (packets s) -> is_cleartext_packet p = true ->
            carries_ack (raw_items p) = false.

Definition target_ok (k : Z) (s : st_quicly_send_context_t) : Prop :=
  forall t, target s = Some t ->
            GET_TYPE_FROM_PACKET_HEADER (tg_header t) = k
            /\ (is_cleartext_type k = true -> carries_ack (tg_items t) = false).

Definition send_inv (k : Z) (s : st_quicly_send_context_t) : Prop :=
  packet_type s = k /\ packets_ok s /\ target_ok k s.

Definition send_rel (k : Z) (cs cs' : send_state) : Prop :=
  send_inv k cs.2 -> send_inv k cs'.2.

(** The packet types [quicly_send] writes. *)
Definition sent_type (k : Z) : Prop :=
  k = QUICLY_PACKET_TYPE_CLIENT_INITIAL \/ k = QUICLY_PACKET_TYPE_SERVER_CLEARTEXT
  \/ k = QUICLY_PACKET_TYPE_CLIENT_CLEARTEXT \/ k = QUICLY_PACKET_TYPE_1RTT_KEY_PHASE_0.

(** A server that has the 1-RTT keys for receiving, and a protected packet
    with a MAX_DATA frame. *)
Definition example_env : env :=
  Example.env 0 (fun _ => false) (fun _ => true) (fun _ => true) None.

Definition example_conn : quicly_conn_t :=
  install_key_phase0 true (Some {| aead_secret := [9]; aead_is_enc := false |}) [9]
    (create_connection example_env Example.ctx false).

Definition example_packet : quicly_decoded_packet_t :=
  {| pk_type := QUICLY_PACKET_TYPE_1RTT_KEY_PHASE_0; is_long_header := true;
     has_connection_id := true; pk_connection_id := 0; pk_packet_number := 3;
     pk_version := QUICLY_PROTOCOL_VERSION;
     pk_header := emit_long_header QUICLY_PACKET_TYPE_1RTT_KEY_PHASE_0 0 3;
     pk_payload := [4; 0; 0; 0; 0; 0; 0; 0; 32] ++ replicate 16 9 |}.

Lemma mbind_ok {St A B} (m : M St A) (k : A -> M St B) s b s' :
  mbind m k s = (Ok b, s') -> exists a s1, m s = (Ok a, s1) /\ k a s1 = (Ok b, s').
Proof.
  unfold mbind. destruct (m s) as [[a| | |] s1]; try discriminate.
  intros H. exists a, s1. split; [reflexivity | exact H].
Qed.

Section Flag.

Variable E : env.
Variable fuel : nat.

Lemma flag_rel_frame : conn_frame E fuel flag_rel.
Proof.
  assert (Hrefl : forall c, flag_rel c c) by (intros c H; exact H).
  assert (Htrans : forall c1 c2 c3, flag_rel c1 c2 -> flag_rel c2 c3 -> flag_rel c1 c3)
    by (unfold flag_rel; intros; tauto).
  assert (Hkey : forall side a secret c, flag_rel c (install_key_phase0 side a secret c))
    by (intros [] ? ? ? H; exact H).
  split;
    first [ exact Hrefl | exact Htrans | exact Hkey
          | apply get_stream_or_open_if_new_pres;
            first [ exact Hrefl | exact Htrans | intros; intro Hset; exact Hset ]
          | intros c _; reflexivity
          | intros; intro Hset; exact Hset ].
Qed.

(** The flag is set when a protected packet with a frame that is not an
    ACK has been processed. *)
Lemma receive_payload_sets_flag a packet c c' payload frames :
  receive_payload E fuel (Some a) packet c = (Ok tt, c') ->
  ptls_aead_decrypt E a (pk_payload packet) (pk_packet_number packet) (pk_header packet)
  = Some payload ->
  AckScheduling.payload_frames E fuel payload = Ok frames ->
  existsb AckScheduling.sets_should_ack frames = true ->
  flag c' = true.
Proof.
  intros Hrun Hopen Hframes Hack. unfold receive_payload in Hrun.
  unfold mbind at 1 in Hrun. rewrite Hopen in Hrun. simpl in Hrun.
  destruct payload as [|t payload].
  { destruct fuel; discriminate Hframes. }
  apply mbind_ok in Hrun. destruct Hrun as [b [c1 [Hloop Hrest]]].
  apply AckScheduling.receive_frames_should_ack in Hloop.
  destruct Hloop as [fs [Hfs Hb]]. rewrite Hframes in Hfs. inversion Hfs. subst fs.
  rewrite Hack in Hb. simpl in Hb. subst b.
  unfold mbind, modify in Hrest. inversion Hrest. reflexivity.
Qed.

Lemma quicly_receive_protected a packet c c' :
  protected_by c packet = Some a ->
  quicly_receive E fuel packet c = (Ok tt, c') ->
  receive_payload E fuel (Some a) packet
    (with_super (set_connection_id (pk_connection_id packet)) c) = (Ok tt, c').
Proof.
  unfold protected_by, quicly_receive. intros Hprot Hrun.
  unfold mbind at 1 in Hrun. unfold modify at 1 in Hrun.
  unfold mbind at 1 in Hrun. unfold get at 1 in Hrun.
  set (c0 := with_super (set_connection_id (pk_connection_id packet)) c) in *.
  change (quicly_is_client c0) with (quicly_is_client c) in Hrun.
  change (ingress c0) with (ingress c) in Hrun.
  destruct (negb (pk_connection_id packet =? connection_id (super c0))); [discriminate|].
  destruct (negb (is_long_header packet) && negb (state_is_1rtt (state (super c0))));
    [discriminate|].
  destruct (Z.eqb_spec (pk_type packet) QUICLY_PACKET_TYPE_CLIENT_CLEARTEXT) as [Ht|_].
  { rewrite Ht in Hprot. discriminate Hprot. }
  destruct (Z.eqb_spec (pk_type packet) QUICLY_PACKET_TYPE_SERVER_CLEARTEXT) as [Ht|_].
  { rewrite Ht in Hprot. discriminate Hprot. }
  destruct (pk_type packet =? QUICLY_PACKET_TYPE_0RTT_PROTECTED).
  { destruct (quicly_is_client c); [discriminate|]. rewrite Hprot in Hrun. exact Hrun. }
  destruct (pk_type packet =? QUICLY_PACKET_TYPE_1RTT_KEY_PHASE_0).
  { rewrite Hprot in Hrun. exact Hrun. }
  destruct (pk_type packet =? QUICLY_PACKET_TYPE_1RTT_KEY_PHASE_1); [|discriminate].
  rewrite Hprot in Hrun. exact Hrun.
Qed.

(** The sender keeps [send_inv k] while it writes packets of the type
    [k]. *)
Section Sender.

Variable k : Z.
Hypothesis Hk : sent_type k.

Lemma send_rel_refl cs : send_rel k cs cs.
Proof. intros H. exact H. Qed.

Lemma send_rel_trans cs1 cs2 cs3 : send_rel k cs1 cs2 -> send_rel k cs2 cs3 -> send_rel k cs1 cs3.
Proof. unfold send_rel. tauto. Qed.

Lemma send_rel_on_conn A (m : M quicly_conn_t A) :
  preserves (fun _ _ => True) m -> preserves (send_rel k) (on_conn m).
Proof.
  intros _ [c s]. unfold send_rel, on_conn. simpl. destruct (m c) as [r c']. simpl. tauto.
Qed.

Lemma carries_ack_app items i : carries_ack (items ++ [i]) = carries_ack items || item_is_ack i.
Proof. unfold carries_ack. rewrite existsb_app. simpl. rewrite orb_false_r. reflexivity. Qed.

Lemma send_rel_push i size :
  item_is_ack i = false \/ is_cleartext_type k = false ->
  preserves (send_rel k) (push_item i size).
Proof.
  intros Hi [c s].
  unfold send_rel, push_item, mbind, get_ctx, gets, modify_ctx, modify, abort. simpl.
  destruct (target s) as [t|] eqn:Ht; simpl; [|tauto].
  intros [Htype [Hpackets Htarget]]. split; [exact Htype|]. split; [exact Hpackets|].
  intros t' [= <-]. simpl. destruct (Htarget t Ht) as [Hhdr Hitems].
  split; [exact Hhdr|]. intros Hclear. rewrite carries_ack_app, (Hitems Hclear).
  destruct Hi as [Hi|Hi]; [rewrite Hi; reflexivity | congruence].
Qed.

Lemma send_rel_commit_send_packet : preserves (send_rel k) (commit_send_packet E).
Proof.
  intros [c s].
  unfold send_rel, commit_send_packet, mbind, get_ctx, gets, modify_ctx, modify, abort, on_conn.
  simpl. destruct (target s) as [t|] eqn:Ht; simpl; [|tauto].
  intros [Htype [Hpackets Htarget]]. split; [exact Htype|]. split.
  - intros p Hin. simpl in Hin. apply in_app_or in Hin. destruct Hin as [Hin|[<-|[]]].
    + apply Hpackets. exact Hin.
    + unfold is_cleartext_packet. simpl. destruct (Htarget t Ht) as [Hhdr Hitems].
      rewrite Hhdr. exact Hitems.
  - intros t' Hnone. discriminate Hnone.
Qed.

Lemma send_rel_start_packet : preserves (send_rel k) (start_packet E).
Proof.
  intros [c s].
  unfold send_rel, start_packet, mbind, get_ctx, get_conn, gets, modify_ctx, modify, assert.
  simpl.
  assert (Hinv : send_inv k s ->
            send_inv k
              (set_target
                 (Some {| tg_header := emit_long_header (packet_type s) (connection_id (super c))
                                         (wrap32 (packet_number (egress c)));
                          tg_items := [];
                          dst := Z.pos (Pos.of_succ_nat
                                   (length (be_encode 8 (connection_id (super c))
                                            ++ be_encode 4 (wrap32 (packet_number (egress c)))
                                            ++ be_encode 4 QUICLY_PROTOCOL_VERSION)));
                          dst_end := max_packet_size (ctx c)
                                     - match aead s with
                                       | Some _ => aead_tag_size E
                                       | None => 8
                                       end |}) s)).
  { intros [Htype [Hpackets Htarget]]. split; [exact Htype|]. split; [exact Hpackets|].
    intros t' [= <-]. simpl. rewrite Htype. split; [|reflexivity].
    unfold GET_TYPE_FROM_PACKET_HEADER. simpl.
    destruct Hk as [->|[->|[->| ->]]]; reflexivity. }
  match goal with |- context [if ?b then _ else _] => destruct b end; simpl; exact Hinv.
Qed.

Let always (_ _ : quicly_conn_t) : Prop := True.

Lemma send_stream_send_rel sid : preserves (send_rel k) (send_stream E fuel sid).
Proof.
  apply (send_stream_pres E fuel always (send_rel k));
    first [ exact send_rel_refl | exact send_rel_trans | exact send_rel_on_conn
          | exact send_rel_commit_send_packet | exact send_rel_start_packet
          | intros; exact I
          | intros i size Hi; apply send_rel_push; left; exact Hi ].
Qed.

Lemma send_streams_send_rel ids : preserves (send_rel k) (send_streams E fuel ids).
Proof.
  apply (send_streams_pres E fuel always (send_rel k));
    first [ exact send_rel_refl | exact send_rel_trans | exact send_rel_on_conn
          | exact send_rel_commit_send_packet | exact send_rel_start_packet
          | intros; exact I
          | intros i size Hi; apply send_rel_push; left; exact Hi ].
Qed.

Lemma send_max_data_frame_send_rel : preserves (send_rel k) (send_max_data_frame E).
Proof.
  apply (send_max_data_frame_pres E always (send_rel k));
    first [ exact send_rel_refl | exact send_rel_trans | exact send_rel_on_conn
          | exact send_rel_commit_send_packet | exact send_rel_start_packet
          | intros; exact I
          | intros i size Hi; apply send_rel_push; left; exact Hi ].
Qed.

Lemma send_ack_send_rel :
  is_cleartext_type k = false -> preserves (send_rel k) (send_ack E fuel).
Proof.
  intros Hclear.
  apply (send_ack_pres E fuel always (send_rel k));
    first [ exact send_rel_refl | exact send_rel_trans | exact send_rel_on_conn
          | exact send_rel_commit_send_packet | exact send_rel_start_packet
          | intros; exact I
          | intros i size Hi; apply send_rel_push; left; exact Hi
          | intros; apply send_rel_push; right; exact Hclear ].
Qed.

Lemma commit_cleartext_packet_send_rel : preserves (send_rel k) (commit_cleartext_packet E).
Proof.
  assert (Hrefl := send_rel_refl). assert (Htrans := send_rel_trans).
  assert (Hctx : preserves (send_rel k) get_ctx) by (apply preserves_gets; exact Hrefl).
  assert (Hcommit := send_rel_commit_send_packet).
  assert (Hpad : forall n size, preserves (send_rel k) (push_item (item_padding n) size))
    by (intros; apply send_rel_push; left; reflexivity).
  unfold commit_cleartext_packet. pres.
Qed.

End Sender.

Lemma commit_send_packet_target cs cs' :
  commit_send_packet E cs = (Ok tt, cs') -> target cs'.2 = None.
Proof.
  destruct cs as [c s].
  unfold commit_send_packet, mbind, get_ctx, gets, modify_ctx, modify, abort, on_conn. simpl.
  destruct (target s); simpl; [|discriminate]. intros [= <-]. reflexivity.
Qed.

Lemma commit_cleartext_packet_target cs cs' :
  commit_cleartext_packet E cs = (Ok tt, cs') -> target cs'.2 = None.
Proof.
  unfold commit_cleartext_packet. intros H.
  apply mbind_ok in H. destruct H as [s [cs1 [Hget H]]].
  unfold get_ctx, gets in Hget. inversion Hget. subst s cs1. clear Hget.
  destruct (target cs.2) eqn:Ht.
  - apply mbind_ok in H. destruct H as [[] [cs1 [_ H]]].
    eapply commit_send_packet_target, H.
  - inversion H. subst cs'. exact Ht.
Qed.

(** The cleartext part of [quicly_send], when the flag is set. *)
Lemma send_cleartext_frames_inv c s :
  flag c = true -> packets_ok s -> target s = None ->
  exists k, sent_type k /\ send_inv k (send_cleartext_frames E fuel (c, s)).2.2.
Proof.
  intros Hflag Hpackets Htarget.
  unfold send_cleartext_frames. unfold mbind at 1. unfold get_conn at 1. unfold gets at 1.
  simpl fst.
  set (k := if quicly_is_client c
            then if state_is_before_sh (quicly_get_state c)
                 then QUICLY_PACKET_TYPE_CLIENT_INITIAL
                 else QUICLY_PACKET_TYPE_CLIENT_CLEARTEXT
            else QUICLY_PACKET_TYPE_SERVER_CLEARTEXT).
  assert (Hk : sent_type k).
  { subst k. unfold sent_type.
    destruct (quicly_is_client c); [destruct (state_is_before_sh (quicly_get_state c))|]; tauto. }
  exists k. split; [exact Hk|].
  unfold flag in Hflag. rewrite Hflag. simpl negb. simpl andb.
  unfold mbind at 1. unfold modify_ctx at 1. unfold modify at 1.
  unfold mbind at 1. unfold mret at 1.
  apply (send_stream_send_rel k Hk 0). simpl.
  split; [reflexivity|]. split; [exact Hpackets|].
  intros t Ht. simpl in Ht. rewrite Htarget in Ht. discriminate Ht.
Qed.

Lemma send_encrypted_frames_inv c s :
  packets_ok s -> target s = None ->
  packets_ok (send_encrypted_frames E fuel (c, s)).2.2.
Proof.
  intros Hpackets Htarget.
  assert (H7 : sent_type QUICLY_PACKET_TYPE_1RTT_KEY_PHASE_0) by (unfold sent_type; tauto).
  set (k := QUICLY_PACKET_TYPE_1RTT_KEY_PHASE_0) in *.
  assert (Hrefl := send_rel_refl k). assert (Htrans := send_rel_trans k).
  assert (Hconn : preserves (send_rel k) get_conn) by (apply preserves_gets; exact Hrefl).
  assert (Hctx : preserves (send_rel k) get_ctx) by (apply preserves_gets; exact Hrefl).
  assert (Hack : preserves (send_rel k) (send_ack E fuel))
    by (apply send_ack_send_rel; [exact H7 | reflexivity]).
  assert (Hmax := send_max_data_frame_send_rel k H7).
  assert (Hstreams := send_streams_send_rel k H7).
  assert (Hcommit := send_rel_commit_send_packet k).
  unfold send_encrypted_frames. unfold mbind at 1. unfold get_conn at 1. unfold gets at 1.
  cbv beta. change (c, s).1 with c.
  destruct (state_is_1rtt (quicly_get_state c)); [|exact Hpackets].
  unfold mbind at 1. unfold modify_ctx at 1. unfold modify at 1. simpl.
  match goal with
  | |- packets_ok (?m ?cs).2.2 =>
    assert (Hrest : preserves (send_rel k) m) by pres;
    destruct (Hrest cs) as [_ [H _]]; [|exact H]
  end.
  simpl. split; [reflexivity|]. split; [exact Hpackets|].
  intros t Ht. simpl in Ht. rewrite Htarget in Ht. discriminate Ht.
Qed.

Lemma send_packets_inv c s :
  flag c = true -> packets_ok s -> target s = None ->
  packets_ok (send_packets E fuel (c, s)).2.2.
Proof.
  intros Hflag Hpackets Htarget.
  destruct (send_cleartext_frames_inv c s Hflag Hpackets Htarget) as [k [Hk Hinv]].
  unfold send_packets. unfold mbind at 1.
  destruct (send_cleartext_frames E fuel (c, s)) as [[[]| | |] cs1]; simpl in Hinv;
    try (destruct Hinv as [_ [H _]]; exact H).
  pose proof (commit_cleartext_packet_send_rel k cs1 Hinv) as Hinv2.
  pose proof (commit_cleartext_packet_target cs1) as Hnone.
  unfold mbind at 1.
  destruct (commit_cleartext_packet E cs1) as [[[]| | |] [c2 s2]]; simpl in Hinv2;
    try (destruct Hinv2 as [_ [H _]]; exact H).
  specialize (Hnone _ eq_refl). simpl in Hnone.
  apply send_encrypted_frames_inv; [destruct Hinv2 as [_ [H _]]; exact H | exact Hnone].
Qed.

(** C8.  The flag is set when [quicly_receive] has processed a protected
    packet that holds a frame other than an ACK; no call of the host
    clears it; and while it is set, no cleartext packet that [quicly_send]
    writes carries an ACK frame. *)
Theorem acks_require_encryption_once_set :
  (forall packet c c' a payload frames,
     quicly_receive E fuel packet c = (Ok tt, c') ->
     protected_by c packet = Some a ->
     ptls_aead_decrypt E a (pk_payload packet) (pk_packet_number packet) (pk_header packet)
     = Some payload ->
     AckScheduling.payload_frames E fuel payload = Ok frames ->
     existsb AckScheduling.sets_should_ack frames = true ->
     flag c' = true)
  /\ (forall trace c, flag c = true -> flag (run_trace E fuel trace c) = true)
  /\ (forall now num_packets c p,
        flag c = true ->
        In p (packets (quicly_send_run E fuel now num_packets c).2.2) ->
        is_cleartext_packet p = true ->
        carries_ack (raw_items p) = false).
Proof.
  split; [|split].
  - intros packet c c' a payload frames Hrun Hprot Hopen Hframes Hack.
    eapply receive_payload_sets_flag; eauto using quicly_receive_protected.
  - intros trace c. apply (run_trace_frame E fuel flag_rel flag_rel_frame).
  - intros now num_packets c p Hflag Hin Hclear.
    assert (Hinit : packets_ok (send_context_init now num_packets)) by (intros q []).
    assert (Hflag1 : flag (handle_timeouts now c).2 = true).
    { apply (handle_timeouts_pres flag_rel); try (intros; intro H; exact H); [|exact Hflag].
      unfold flag_rel; intros; tauto. }
    unfold quicly_send_run in Hin.
    destruct (handle_timeouts now c) as [[[]| | |] c1]; simpl in Hflag1; simpl in Hin;
      try contradiction.
    exact (send_packets_inv c1 _ Hflag1 Hinit eq_refl p Hin Hclear).
Qed.

End Flag.

(** The first part of C8 on the example: the protected packet brings a
    MAX_DATA frame, and the flag is set once it has been processed. *)
Lemma flag_set_by_protected_packet :
  flag example_conn = false
  /\ (quicly_receive example_env 5 example_packet example_conn).1 = Ok tt
  /\ flag (quicly_receive example_env 5 example_packet example_conn).2 = true.
Proof. vm_compute. repeat split; reflexivity. Qed.

End AcksRequireEncryption.

Module AcksRequireEncryptionExample.

Import AcksRequireEncryption.

(** The server of the example after the protected packet, and then with
    three octets written to stream 0. *)
Definition example_conn_received : quicly_conn_t :=
  (quicly_receive example_env 5 example_packet example_conn).2.

Definition example_trace : list api_call := [api_sendbuf_write 0 [1; 2; 3]].

Definition example_conn_pending : quicly_conn_t :=
  run_trace example_env 5 example_trace example_conn_received.

(** On the example, the packet number 3 waits in the ACK queue, and the
    cleartext packet that [quicly_send] writes holds the stream frame
    only. *)
Lemma acks_require_encryption_witness :
  flag example_conn_received = true
  /\ flag example_conn_pending = true
  /\ ack_queue (ingress example_conn_pending) = [(3, 4)]
  /\ exists p,
       packets (quicly_send_run example_env 5 10 4 example_conn_pending).2.2 = [p]
       /\ is_cleartext_packet p = true
       /\ carries_ack (raw_items p) = false.
Proof.
  destruct (acks_require_encryption_once_set example_env 5) as [Hset [Hkeep Hsend]].
  assert (Hreceived : flag example_conn_received = true).
  { apply (Hset example_packet example_conn example_conn_received
                {| aead_secret := [9]; aead_is_enc := false |}
                [4; 0; 0; 0; 0; 0; 0; 0; 32]
                [AckScheduling.frame_max_data {| max_data_kb := 32 |}]);
      vm_compute; reflexivity. }
  split; [exact Hreceived|].
  split; [exact (Hkeep example_trace example_conn_received Hreceived)|].
  split; [vm_compute; reflexivity|].
  eexists. split; [vm_compute; reflexivity|].
  split; [vm_compute; reflexivity|].
  apply (Hsend 10 4 example_conn_pending);
    [ exact (Hkeep example_trace example_conn_received Hreceived)
    | vm_compute; left; reflexivity
    | vm_compute; reflexivity ].
Defined.

End AcksRequireEncryptionExample.

(** * The first flight of a client *)

Module ClientInitial.

(** A client whose ClientHello has [hello] octets, after [quicly_connect];
    the MTU is 1280. *)
Definition example_env (hello : nat) : env :=
  Example.env hello (fun _ => false) (fun _ => true) (fun _ => true) None.

Definition client (hello : nat) : quicly_conn_t :=
  (quicly_connect (example_env hello) Example.ctx
     (create_connection (example_env hello) Example.ctx true)).2.

(** [quicly_send] with room for [capacity] packets. *)
Definition first_send (hello : nat) (capacity : Z)
  : result (list quicly_raw_packet_t) * quicly_conn_t :=
  quicly_send (example_env hello) 10 5 capacity (client hello).

Definition packet_types (r : result (list quicly_raw_packet_t)) : option (list Z) :=
  match r with
  | Ok l => Some (map (fun p => GET_TYPE_FROM_PACKET_HEADER (raw_header p)) l)
  | _ => None
  end.

Definition packet_sizes (r : result (list quicly_raw_packet_t)) : option (list Z) :=
  match r with
  | Ok l => Some (map raw_len l)
  | _ => None
  end.

Definition pending_of_stream_0 (c : quicly_conn_t) : option quicly_ranges_t :=
  match quicly_get_stream c 0 with
  | Some s => Some (sb_pending (sendbuf s))
  | None => None
  end.

(** C4.  A ClientHello of 300 octets is sent in one CLIENT_INITIAL packet of
    1272 + 8 octets.  A ClientHello of 3000 octets needs three packets:
    with room for three or more packets [quicly_send] fails with
    [QUICLY_ERROR_HANDSHAKE_TOO_LARGE], but with room for one packet it
    returns 0 with one CLIENT_INITIAL packet, and with room for two
    packets it returns 0 with two CLIENT_INITIAL packets; the rest of the
    ClientHello stays pending. *)
Theorem large_client_hello_is_sent_when_packets_run_out :
  quicly_is_client (client 3000) = true
  /\ quicly_get_state (client 3000) = QUICLY_STATE_BEFORE_SH
  /\ packet_types (first_send 300 10).1 = Some [QUICLY_PACKET_TYPE_CLIENT_INITIAL]
  /\ packet_sizes (first_send 300 10).1 = Some [1272 + 8]
  /\ (first_send 3000 10).1 = Err QUICLY_ERROR_HANDSHAKE_TOO_LARGE
  /\ (first_send 3000 3).1 = Err QUICLY_ERROR_HANDSHAKE_TOO_LARGE
  /\ packet_types (first_send 3000 1).1 = Some [QUICLY_PACKET_TYPE_CLIENT_INITIAL]
  /\ packet_sizes (first_send 3000 1).1 = Some [1272 + 8]
  /\ pending_of_stream_0 (first_send 3000 1).2 = Some [(1253, 3000)]
  /\ packet_types (first_send 3000 2).1
     = Some [QUICLY_PACKET_TYPE_CLIENT_INITIAL; QUICLY_PACKET_TYPE_CLIENT_INITIAL]
  /\ packet_sizes (first_send 3000 2).1 = Some [1272 + 8; 1272 + 8]
  /\ pending_of_stream_0 (first_send 3000 2).2 = Some [(2504, 3000)].
Proof. vm_compute. repeat split; reflexivity. Qed.

End ClientInitial.

(** * Stream ids on an example *)

Module StreamIdsExample.

Import StreamIds.

Definition example_env : env :=
  Example.env 0 (fun _ => false) (fun _ => true) (fun _ => true) None.

(** A client that has opened one stream. *)
Definition example_conn : quicly_conn_t :=
  run_trace example_env 5 [api_open_stream] (create_connection example_env Example.ctx true).

(** The next stream the client opens is the stream 3, and a frame of the
    peer for the stream 4 adds the streams 2 and 4 to the table. *)
Lemma stream_ids_witness :
  let c' := (get_stream_or_open_if_new example_env 5 4 example_conn).2 in
  (quicly_open_stream example_env example_conn).1 = Ok 3
  /\ 3 mod 2 = host_parity true
  /\ host_next_stream_id (super (quicly_open_stream example_env example_conn).2) = 5
  /\ added example_conn c' 2
  /\ added example_conn c' 4
  /\ 2 mod 2 = peer_parity true
  /\ 4 mod 2 = peer_parity true.
Proof.
  intros c'.
  destruct (stream_ids_have_the_parity_of_their_side example_env 5 true Example.ctx
              [api_open_stream]) as (_ & _ & _ & Hopen & Hlazy & _).
  destruct (Hopen 3 (quicly_open_stream example_env example_conn).2)
    as [_ [Hparity [_ [_ Hnext]]]]; [vm_compute; reflexivity|].
  assert (H2 : added example_conn c' 2)
    by (split; [reflexivity | vm_compute; eexists; reflexivity]).
  assert (H4 : added example_conn c' 4)
    by (split; [reflexivity | vm_compute; eexists; reflexivity]).
  split; [vm_compute; reflexivity|].
  split; [exact Hparity|].
  split; [exact Hnext|].
  split; [exact H2|]. split; [exact H4|].
  split; [apply (Hlazy 4 2 H2); reflexivity | apply (Hlazy 4 4 H4); reflexivity].
Defined.

End StreamIdsExample.

(** * Runs of the monad *)

Module Run.

(** A bind that returns a value ran both its parts. *)
Lemma mbind_run {St A B} (m : M St A) (k : A -> M St B) s b s' :
  mbind m k s = (Ok b, s') -> exists a s1, m s = (Ok a, s1) /\ k a s1 = (Ok b, s').
Proof.
  unfold mbind. destruct (m s) as [[a| | |] s1]; try discriminate.
  intros H. exists a, s1. split; [reflexivity | exact H].
Qed.

End Run.

(** * Octet strings *)

Module Octets.

Lemma be_decode_from (bs : list Z) (acc : Z) :
  fold_left (fun acc b => acc * 256 + b) bs acc
  = acc * 256 ^ Z.of_nat (length bs) + be_decode bs.
Proof.
  unfold be_decode. revert acc. induction bs as [|b bs IH]; intros acc.
  - simpl. lia.
  - cbn [fold_left length]. rewrite IH, (IH (0 * 256 + b)).
    rewrite Nat2Z.inj_succ, Z.pow_succ_r by lia. ring.
Qed.

Lemma be_encode_length (n : nat) (v : Z) : length (be_encode n v) = n.
Proof. induction n as [|n IH]; simpl; [reflexivity | rewrite IH; reflexivity]. Qed.

Lemma be_decode_encode (n : nat) (v : Z) :
  be_decode (be_encode n v) = v mod 256 ^ Z.of_nat n.
Proof.
  induction n as [|n IH].
  - simpl. rewrite Z.mod_1_r. reflexivity.
  - cbn [be_encode]. unfold be_decode. cbn [fold_left].
    rewrite be_decode_from, be_encode_length, IH.
    rewrite Nat2Z.inj_succ, Z.pow_succ_r by lia.
    rewrite (Z.mul_comm 256), Z.rem_mul_r by lia. ring.
Qed.

Lemma be_decode_encode_small (n : nat) (v : Z) :
  0 <= v < 256 ^ Z.of_nat n -> be_decode (be_encode n v) = v.
Proof. intros H. rewrite be_decode_encode. apply Z.mod_small. exact H. Qed.

Lemma take_be_encode (n : nat) (v : Z) (rest : list Z) :
  take n (be_encode n v ++ rest) = be_encode n v.
Proof. rewrite take_app_length' by (symmetry; apply be_encode_length). reflexivity. Qed.

Lemma drop_be_encode (n : nat) (v : Z) (rest : list Z) :
  drop n (be_encode n v ++ rest) = rest.
Proof. rewrite drop_app_length' by (symmetry; apply be_encode_length). reflexivity. Qed.

Lemma ptls_decode16_encode (v : Z) (rest : list Z) :
  0 <= v < 2 ^ 16 -> ptls_decode16 (be_encode 2 v ++ rest) = Ok (v, rest).
Proof.
  intros H. unfold ptls_decode16.
  rewrite take_be_encode, drop_be_encode, be_decode_encode_small by exact H. reflexivity.
Qed.

Lemma ptls_decode32_encode (v : Z) (rest : list Z) :
  0 <= v < 2 ^ 32 -> ptls_decode32 (be_encode 4 v ++ rest) = Ok (v, rest).
Proof.
  intros H. unfold ptls_decode32.
  rewrite take_be_encode, drop_be_encode, be_decode_encode_small by exact H. reflexivity.
Qed.

Lemma ptls_open_block_encode (capacity : nat) (block rest : list Z) :
  Z.of_nat (length block) < 256 ^ Z.of_nat capacity ->
  ptls_open_block capacity (be_encode capacity (Z.of_nat (length block)) ++ block ++ rest)
  = Ok (block, rest).
Proof.
  intros H. unfold ptls_open_block.
  rewrite length_app, be_encode_length.
  replace (capacity + length (block ++ rest) <? capacity)%nat with false
    by (symmetry; apply Nat.ltb_ge; lia).
  rewrite take_be_encode, drop_be_encode, be_decode_encode_small by lia.
  rewrite Nat2Z.id, length_app.
  replace (length block + length rest <? length block)%nat with false
    by (symmetry; apply Nat.ltb_ge; lia).
  rewrite take_app_length, drop_app_length. reflexivity.
Qed.

End Octets.

(** * Transport parameters: encoding and decoding *)

Module TransportParametersRoundTrip.

Import TransportParameters Octets.

(** The fields have the widths of their C types. *)
Definition fields_in_range (p : quicly_transport_parameters_t) : Prop :=
  0 <= initial_max_stream_data p < 2 ^ 32
  /\ 0 <= initial_max_data_kb p < 2 ^ 32
  /\ 0 <= initial_max_stream_id p < 2 ^ 32
  /\ 0 <= idle_timeout p < 2 ^ 16.

(** One round of the loop on a parameter whose id is below 64. *)
Lemma decode_parameters_step shl_wide fuel id block rest bits p :
  0 <= id < 64 -> Z.of_nat (length block) < 2 ^ 16 ->
  decode_parameters shl_wide (S fuel) (PUSH_TRANSPORT_PARAMETER id block ++ rest) bits p
  = if negb (Z.land bits (Z.shiftl 1 id) =? 0)
    then (Err QUICLY_ERROR_INVALID_STREAM_DATA, p)
    else match decode_parameter_value id block p with
         | (Ok [], p') =>
           decode_parameters shl_wide fuel rest
             (Z.lor (Z.lor bits (Z.shiftl 1 id)) (Z.shiftl 1 id)) p'
         | (Ok (_ :: _), p') => (Err PTLS_ALERT_DECODE_ERROR, p')
         | (Err e, p') => (Err e, p')
         | (Abort, p') => (Abort, p')
         | (OutOfFuel, p') => (OutOfFuel, p')
         end.
Proof.
  intros Hid Hlen.
  remember (PUSH_TRANSPORT_PARAMETER id block ++ rest) as src eqn:Hsrc.
  destruct src as [|z src'].
  { exfalso. unfold PUSH_TRANSPORT_PARAMETER in Hsrc. simpl in Hsrc. discriminate Hsrc. }
  cbn [decode_parameters]. rewrite Hsrc. unfold PUSH_TRANSPORT_PARAMETER.
  rewrite <- !app_assoc.
  unfold mbind at 1. unfold lift_result at 1.
  rewrite ptls_decode16_encode by lia.
  unfold ID_TO_BIT.
  replace (id <? 64) with true by (symmetry; apply Z.ltb_lt; lia).
  unfold mbind at 1.
  destruct (negb (Z.land bits (Z.shiftl 1 id) =? 0)); [reflexivity|].
  unfold mret at 1. unfold mbind at 1. unfold lift_result at 1.
  rewrite ptls_open_block_encode by exact Hlen.
  unfold mbind at 1.
  destruct (decode_parameter_value id block p) as [[[|b bs]| | |] p']; reflexivity.
Qed.

Lemma decode_value_32 id set v p :
  0 <= v < 2 ^ 32 ->
  (forall src,
     decode_parameter_value id src p
     = (let* (v, src') := lift_result (ptls_decode32 src) in modify (set v) ;; mret src') p) ->
  decode_parameter_value id (be_encode 4 v) p = (Ok [], set v p).
Proof.
  intros Hv Hdef. rewrite Hdef. unfold mbind at 1. unfold lift_result.
  rewrite <- (app_nil_r (be_encode 4 v)), ptls_decode32_encode by exact Hv. reflexivity.
Qed.

Local Ltac side :=
  first [ vm_compute; split; [discriminate | reflexivity] | vm_compute; reflexivity ].

Lemma decode_of_encoded shl_wide p p0 :
  fields_in_range p ->
  decode_transport_parameter_list shl_wide (encode_transport_parameter_list p) p0 = (Ok tt, p).
Proof.
  intros (H0 & H1 & H2 & H3).
  unfold decode_transport_parameter_list, encode_transport_parameter_list.
  set (tail := if truncate_connection_id p
               then PUSH_TRANSPORT_PARAMETER QUICLY_TRANSPORT_PARAMETER_ID_TRUNCATE_CONNECTION_ID []
               else []).
  match goal with |- context [be_encode 2 (Z.of_nat (length ?b))] => set (body := b) end.
  assert (Hlen : length body = if truncate_connection_id p then 34%nat else 30%nat).
  { subst body tail. destruct (truncate_connection_id p); reflexivity. }
  unfold mbind at 1. unfold modify at 1.
  unfold mbind at 1. unfold lift_result at 1.
  rewrite <- (app_nil_r body) at 2.
  rewrite ptls_open_block_encode
    by (rewrite Hlen; destruct (truncate_connection_id p); reflexivity).
  unfold mbind at 1.
  assert (Hloop : decode_parameters shl_wide (length body) body 0
                    (set_truncate_connection_id false p0) = (Ok 15, p)
                  \/ decode_parameters shl_wide (length body) body 0
                       (set_truncate_connection_id false p0) = (Ok 31, p)).
  { rewrite Hlen. subst body.
    destruct (truncate_connection_id p) eqn:Ht; subst tail;
      [rewrite <- (app_nil_r (PUSH_TRANSPORT_PARAMETER _ [])) | idtac].
    - right.
      rewrite decode_parameters_step by side. simpl negb. cbv iota.
      rewrite (decode_value_32 _ set_initial_max_stream_data) by (try exact H0; reflexivity).
      rewrite decode_parameters_step by side. simpl negb. cbv iota.
      rewrite (decode_value_32 _ set_initial_max_data_kb) by (try exact H1; reflexivity).
      rewrite decode_parameters_step by side. simpl negb. cbv iota.
      rewrite (decode_value_32 _ set_initial_max_stream_id) by (try exact H2; reflexivity).
      rewrite decode_parameters_step by side. simpl negb. cbv iota.
      replace (decode_parameter_value _ (be_encode 2 (idle_timeout p)) _)
        with (@Ok (list Z) [], set_idle_timeout (idle_timeout p)
                (set_initial_max_stream_id (initial_max_stream_id p)
                   (set_initial_max_data_kb (initial_max_data_kb p)
                      (set_initial_max_stream_data (initial_max_stream_data p)
                         (set_truncate_connection_id false p0))))).
      2:{ unfold decode_parameter_value. simpl Z.eqb. cbv iota.
          unfold mbind at 1. unfold lift_result.
          rewrite <- (app_nil_r (be_encode 2 _)), ptls_decode16_encode by exact H3.
          reflexivity. }
      rewrite decode_parameters_step by side. simpl negb. cbv iota.
      destruct p. simpl in Ht. subst. reflexivity.
    - left.
      rewrite decode_parameters_step by side. simpl negb. cbv iota.
      rewrite (decode_value_32 _ set_initial_max_stream_data) by (try exact H0; reflexivity).
      rewrite decode_parameters_step by side. simpl negb. cbv iota.
      rewrite (decode_value_32 _ set_initial_max_data_kb) by (try exact H1; reflexivity).
      rewrite decode_parameters_step by side. simpl negb. cbv iota.
      rewrite (decode_value_32 _ set_initial_max_stream_id) by (try exact H2; reflexivity).
      rewrite decode_parameters_step by side. simpl negb. cbv iota.
      replace (decode_parameter_value _ (be_encode 2 (idle_timeout p)) _)
        with (@Ok (list Z) [], set_idle_timeout (idle_timeout p)
                (set_initial_max_stream_id (initial_max_stream_id p)
                   (set_initial_max_data_kb (initial_max_data_kb p)
                      (set_initial_max_stream_data (initial_max_stream_data p)
                         (set_truncate_connection_id false p0))))).
      2:{ unfold decode_parameter_value. simpl Z.eqb. cbv iota.
          unfold mbind at 1. unfold lift_result.
          rewrite <- (app_nil_r (be_encode 2 _)), ptls_decode16_encode by exact H3.
          reflexivity. }
      destruct p. simpl in Ht. subst. reflexivity. }
  destruct Hloop as [-> | ->]; reflexivity.
Qed.

(** X1.  What [encode_transport_parameter_list] writes,
    [decode_transport_parameter_list] reads back: every field of the
    parameters is restored, whatever the parameters held before and
    whatever a shift by 64 or more gives. *)
Theorem decode_encode_transport_parameter_list shl_wide p p0 :
  fields_in_range p ->
  decode_transport_parameter_list shl_wide (encode_transport_parameter_list p) p0 = (Ok tt, p).
Proof. apply decode_of_encoded. Qed.

(** The parameters of the example context go through. *)
Lemma decode_encode_transport_parameter_list_witness :
  decode_transport_parameter_list shl_count_masked
    (encode_transport_parameter_list (transport_params Example.ctx))
    transport_params_before_handshake
  = (Ok tt, transport_params Example.ctx).
Proof.
  apply decode_encode_transport_parameter_list. vm_compute. repeat split; discriminate.
Defined.

End TransportParametersRoundTrip.

(** * The transport-parameters extension, from one side to the other *)

Module ExtensionExchange.

Import TransportParameters Octets TransportParametersRoundTrip.

(** The extension [quicly_connect] hands to the TLS provider for the
    ClientHello, and the one [server_collected_extensions] prepares for
    the EncryptedExtensions. *)
Definition client_extension (ctx : quicly_context_t) : list Z :=
  be_encode 4 QUICLY_PROTOCOL_VERSION ++ be_encode 4 QUICLY_PROTOCOL_VERSION
  ++ encode_transport_parameter_list (transport_params ctx).

Definition server_extension (ctx : quicly_context_t) : list Z :=
  be_encode 1 4 ++ be_encode 4 QUICLY_PROTOCOL_VERSION
  ++ encode_transport_parameter_list (transport_params ctx).

Definition example_env : env :=
  Example.env 0 (fun _ => false) (fun _ => true) (fun _ => true) None.

Definition example_server : quicly_conn_t := create_connection example_env Example.ctx false.
Definition example_client : quicly_conn_t := create_connection example_env Example.ctx true.

Lemma version_in_range : 0 <= QUICLY_PROTOCOL_VERSION < 2 ^ 32.
Proof. vm_compute. split; [discriminate | reflexivity]. Qed.



End ExtensionExchange.

(** * Packet headers: [quicly_decode_packet] *)

Module PacketHeader.

Import Octets Run.

(** [QUICLY_PACKET_TYPE_IS_VALID(type)] is [(uint8_t)(type)-1 <
    QUICLY_PACKET_TYPE_PUBLIC_RESET]: the subtraction is done on [int], so
    the type 0 passes. *)
Definition QUICLY_PACKET_TYPE_IS_VALID (type : Z) : bool :=
  type - 1 <? QUICLY_PACKET_TYPE_PUBLIC_RESET.

Definition set_pk_type (v : Z) (p : quicly_decoded_packet_t) :=
  {| pk_type := v; is_long_header := is_long_header p;
     has_connection_id := has_connection_id p; pk_connection_id := pk_connection_id p;
     pk_packet_number := pk_packet_number p; pk_version := pk_version p;
     pk_header := pk_header p; pk_payload := pk_payload p |}.
Definition set_is_long_header (v : bool) (p : quicly_decoded_packet_t) :=
  {| pk_type := pk_type p; is_long_header := v;
     has_connection_id := has_connection_id p; pk_connection_id := pk_connection_id p;
     pk_packet_number := pk_packet_number p; pk_version := pk_version p;
     pk_header := pk_header p; pk_payload := pk_payload p |}.
Definition set_has_connection_id (v : bool) (p : quicly_decoded_packet_t) :=
  {| pk_type := pk_type p; is_long_header := is_long_header p;
     has_connection_id := v; pk_connection_id := pk_connection_id p;
     pk_packet_number := pk_packet_number p; pk_version := pk_version p;
     pk_header := pk_header p; pk_payload := pk_payload p |}.
Definition set_pk_connection_id (v : Z) (p : quicly_decoded_packet_t) :=
  {| pk_type := pk_type p; is_long_header := is_long_header p;
     has_connection_id := has_connection_id p; pk_connection_id := v;
     pk_packet_number := pk_packet_number p; pk_version := pk_version p;
     pk_header := pk_header p; pk_payload := pk_payload p |}.
Definition set_pk_packet_number (v : Z) (p : quicly_decoded_packet_t) :=
  {| pk_type := pk_type p; is_long_header := is_long_header p;
     has_connection_id := has_connection_id p; pk_connection_id := pk_connection_id p;
     pk_packet_number := v; pk_version := pk_version p;
     pk_header := pk_header p; pk_payload := pk_payload p |}.
Definition set_pk_version (v : Z) (p : quicly_decoded_packet_t) :=
  {| pk_type := pk_type p; is_long_header := is_long_header p;
     has_connection_id := has_connection_id p; pk_connection_id := pk_connection_id p;
     pk_packet_number := pk_packet_number p; pk_version := v;
     pk_header := pk_header p; pk_payload := pk_payload p |}.
Definition set_pk_header_payload (header payload : list Z) (p : quicly_decoded_packet_t) :=
  {| pk_type := pk_type p; is_long_header := is_long_header p;
     has_connection_id := has_connection_id p; pk_connection_id := pk_connection_id p;
     pk_packet_number := pk_packet_number p; pk_version := pk_version p;
     pk_header := header; pk_payload := payload |}.

(** The long header after its first octet: [src] is what follows that
    octet; the result is what follows the header. *)
Definition decode_long_header (first_byte : Z) (src : list Z)
  : M quicly_decoded_packet_t (list Z) :=
  modify (set_pk_type (Z.land first_byte 0x7f)) ;;
  modify (set_is_long_header true) ;;
  modify (set_has_connection_id true) ;;
  let* packet := get in
  if negb (QUICLY_PACKET_TYPE_IS_VALID (pk_type packet))
  then fail QUICLY_ERROR_INVALID_PACKET_HEADER
  else if (length src <? 16)%nat then fail QUICLY_ERROR_INVALID_PACKET_HEADER
  else
    modify (set_pk_connection_id (be_decode (take 8 src))) ;;
    modify (set_pk_packet_number (be_decode (take 4 (drop 8 src)))) ;;
    modify (set_pk_version (be_decode (take 4 (drop 12 src)))) ;;
    mret (drop 16 src).

Definition decode_short_header (first_byte : Z) (src : list Z)
  : M quicly_decoded_packet_t (list Z) :=
  modify (set_pk_type (if negb (Z.land first_byte 0x20 =? 0)
                       then QUICLY_PACKET_TYPE_1RTT_KEY_PHASE_1
                       else QUICLY_PACKET_TYPE_1RTT_KEY_PHASE_0)) ;;
  modify (set_is_long_header false) ;;
  let* src :=
    if negb (Z.land first_byte 0x40 =? 0) then
      modify (set_has_connection_id true) ;;
      if (length src <? 8)%nat then fail QUICLY_ERROR_INVALID_PACKET_HEADER
      else
        modify (set_pk_connection_id (be_decode (take 8 src))) ;;
        mret (drop 8 src)
    else
      modify (set_has_connection_id false) ;;
      mret src in
  let type := Z.land first_byte 0x1f in
  if (1 <=? type) && (type <=? 3) then
    let packet_number_size := Z.to_nat (Z.shiftl 1 (type - 1)) in
    if (length src <? packet_number_size)%nat then fail QUICLY_ERROR_INVALID_PACKET_HEADER
    else
      modify (set_pk_packet_number (wrap32 (be_decode (take packet_number_size src)))) ;;
      mret (drop packet_number_size src)
  else fail QUICLY_ERROR_INVALID_PACKET_HEADER.

(** [quicly_decode_packet(packet, src, len)]: the state is [*packet], of
    which the function writes the fields one by one (those written before
    an error are kept; a short header leaves [version], and without a
    connection id [connection_id], as they were). *)
Definition quicly_decode_packet (src : list Z) : M quicly_decoded_packet_t unit :=
  if (length src <? 2)%nat then fail QUICLY_ERROR_INVALID_PACKET_HEADER
  else
    match src with
    | [] => abort
    | first_byte :: src' =>
      let* rest :=
        if negb (Z.land first_byte 0x80 =? 0)
        then decode_long_header first_byte src'
        else decode_short_header first_byte src' in
      modify (set_pk_header_payload (take (length src - length rest) src) rest)
    end.

(** The length of the header that the first octet announces. *)
Definition connection_id_length (first_byte : Z) : nat :=
  if negb (Z.land first_byte 0x40 =? 0) then 8%nat else 0%nat.

Definition packet_number_length (first_byte : Z) : nat :=
  Z.to_nat (Z.shiftl 1 (Z.land first_byte 0x1f - 1)).

Definition header_length (first_byte : Z) : nat :=
  if negb (Z.land first_byte 0x80 =? 0) then 17%nat
  else (1 + connection_id_length first_byte + packet_number_length first_byte)%nat.

Lemma decode_long_header_rest first_byte src p rest p' :
  decode_long_header first_byte src p = (Ok rest, p') ->
  rest = drop 16 src /\ (16 <= length src)%nat /\ is_long_header p' = true.
Proof.
  unfold decode_long_header, mbind, modify, get. simpl.
  destruct (negb (QUICLY_PACKET_TYPE_IS_VALID (Z.land first_byte 127))); [discriminate|].
  destruct (length src <? 16)%nat eqn:Hlen; [discriminate|].
  apply Nat.ltb_ge in Hlen. intros [= <- <-].
  split; [reflexivity|]. split; [exact Hlen | reflexivity].
Qed.

Lemma decode_short_header_rest first_byte src p rest p' :
  decode_short_header first_byte src p = (Ok rest, p') ->
  let n := (connection_id_length first_byte + packet_number_length first_byte)%nat in
  rest = drop n src /\ (n <= length src)%nat /\ is_long_header p' = false.
Proof.
  unfold decode_short_header, connection_id_length, packet_number_length. intros H.
  apply mbind_run in H. destruct H as [[] [p1 [_ H]]].
  apply mbind_run in H. destruct H as [[] [p2 [H2 H]]].
  apply mbind_run in H. destruct H as [src1 [p3 [Hcid H]]].
  set (k := if negb (Z.land first_byte 64 =? 0) then 8%nat else 0%nat).
  assert (Hlong : is_long_header p3 = false /\ src1 = drop k src /\ (k <= length src)%nat).
  { unfold modify in H2. inversion H2. subst p2. clear H2. subst k.
    destruct (negb (Z.land first_byte 64 =? 0)).
    - unfold mbind, modify in Hcid. simpl in Hcid.
      destruct (length src <? 8)%nat eqn:Hlen; [discriminate|].
      apply Nat.ltb_ge in Hlen. inversion Hcid. subst.
      split; [reflexivity|]. split; [reflexivity | exact Hlen].
    - unfold mbind, modify, mret in Hcid. inversion Hcid. subst.
      split; [reflexivity|]. split; [reflexivity | simpl; lia]. }
  destruct Hlong as [Hlong [-> Hlen1]].
  destruct ((1 <=? Z.land first_byte 31) && (Z.land first_byte 31 <=? 3)); [|discriminate].
  destruct (length (drop k src) <? Z.to_nat (Z.shiftl 1 (Z.land first_byte 31 - 1)))%nat
    eqn:Hlen; [discriminate|].
  apply Nat.ltb_ge in Hlen. rewrite length_drop in Hlen.
  unfold mbind, modify, mret in H. inversion H. subst. simpl.
  rewrite drop_drop. split; [reflexivity|]. split; [lia | exact Hlong].
Qed.

(** X4.  When [quicly_decode_packet] succeeds, the header and the payload it
    reports are the datagram cut in two, no octet lost or added, and the
    header has the length that its first octet announces: 17 octets for a
    long header; for a short header one octet, eight more with a connection
    id, and a packet number of 1, 2 or 4 octets. *)
Theorem quicly_decode_packet_splits_the_datagram src p0 p :
  quicly_decode_packet src p0 = (Ok tt, p) ->
  pk_header p ++ pk_payload p = src
  /\ length (pk_header p) = header_length (hd 0 src)
  /\ is_long_header p = negb (Z.land (hd 0 src) 0x80 =? 0).
Proof.
  unfold quicly_decode_packet. destruct (length src <? 2)%nat; [discriminate|].
  destruct src as [|first_byte src']; [discriminate|].
  intros H. apply mbind_run in H. destruct H as [rest [p1 [Hhdr H]]].
  unfold modify in H. inversion H. subst p. clear H. simpl hd. unfold header_length.
  cbn [pk_header pk_payload is_long_header set_pk_header_payload].
  destruct (negb (Z.land first_byte 128 =? 0)).
  - apply decode_long_header_rest in Hhdr. destruct Hhdr as [-> [Hlen Hlong]].
    rewrite length_drop.
    match goal with
    | |- context [take ?k _] => replace k with 17%nat by (simpl; lia)
    end.
    split; [exact (take_drop 17 (first_byte :: src'))|].
    split; [|exact Hlong]. rewrite length_take. cbn [length]. lia.
  - apply decode_short_header_rest in Hhdr. cbv zeta in Hhdr.
    destruct Hhdr as [-> [Hlen Hlong]].
    set (n := (connection_id_length first_byte + packet_number_length first_byte)%nat) in *.
    rewrite length_drop.
    match goal with
    | |- context [take ?k _] => replace k with (S n) by (simpl; lia)
    end.
    split; [exact (take_drop (S n) (first_byte :: src'))|].
    split; [|exact Hlong]. rewrite length_take. cbn [length]. lia.
Qed.

(** A short header with a connection id and a packet number of four
    octets, followed by three octets of payload. *)
Lemma quicly_decode_packet_splits_the_datagram_witness :
  let src := [0x43] ++ be_encode 8 0x2222 ++ be_encode 4 7 ++ [1; 2; 3] in
  let p0 := {| pk_type := 0; is_long_header := false; has_connection_id := false;
               pk_connection_id := 0; pk_packet_number := 0; pk_version := 0;
               pk_header := []; pk_payload := [] |} in
  let p := (quicly_decode_packet src p0).2 in
  pk_header p ++ pk_payload p = src
  /\ length (pk_header p) = header_length (hd 0 src)
  /\ is_long_header p = negb (Z.land (hd 0 src) 0x80 =? 0).
Proof.
  intros src p0 p.
  apply (quicly_decode_packet_splits_the_datagram src p0 p). vm_compute. reflexivity.
Defined.

(** The first octet of a long header. *)
Lemma long_header_first_octet (type : Z) :
  0 <= type < 128 ->
  (Z.land (Z.lor 0x80 type) 0x80 =? 0) = false /\ Z.land (Z.lor 0x80 type) 0x7f = type.
Proof.
  intros H.
  assert (Hall : forallb (fun t => negb (Z.land (Z.lor 0x80 t) 0x80 =? 0)
                                   && (Z.land (Z.lor 0x80 t) 0x7f =? t)) (seqZ 0 128) = true)
    by (vm_compute; reflexivity).
  rewrite forallb_forall in Hall. specialize (Hall type).
  destruct (negb (Z.land (Z.lor 128 type) 128 =? 0)
            && (Z.land (Z.lor 128 type) 127 =? type)) eqn:Hb.
  - apply andb_prop in Hb. destruct Hb as [H1 H2].
    split; [apply negb_true_iff, H1 | apply Z.eqb_eq, H2].
  - exfalso. assert (false = true); [|discriminate].
    apply Hall. apply list_elem_of_In, elem_of_seqZ. lia.
Qed.

Lemma quicly_decode_packet_long type connection_id packet_number payload p0 :
  0 <= type <= 8 -> 0 <= connection_id < 2 ^ 64 -> 0 <= packet_number < 2 ^ 32 ->
  quicly_decode_packet (emit_long_header type connection_id packet_number ++ payload) p0
  = (Ok tt, {| pk_type := type; is_long_header := true; has_connection_id := true;
               pk_connection_id := connection_id; pk_packet_number := packet_number;
               pk_version := QUICLY_PROTOCOL_VERSION;
               pk_header := emit_long_header type connection_id packet_number;
               pk_payload := payload |}).
Proof.
  intros Hty Hcid Hpn.
  destruct (long_header_first_octet type) as [Hlong Htype]; [lia|].
  unfold emit_long_header. rewrite <- !app_assoc. cbn [app].
  set (rest := be_encode 8 connection_id ++ be_encode 4 packet_number
               ++ be_encode 4 QUICLY_PROTOCOL_VERSION ++ payload).
  assert (Hlen : length rest = (16 + length payload)%nat).
  { subst rest. rewrite !length_app, !be_encode_length. lia. }
  unfold quicly_decode_packet. cbn [length]. rewrite Hlen.
  replace (S (16 + length payload) <? 2)%nat with false by (symmetry; apply Nat.ltb_ge; lia).
  rewrite Hlong. cbn [negb]. cbv iota.
  unfold decode_long_header, mbind, modify, get, mret. cbn [fst snd pk_type set_pk_type
    set_is_long_header set_has_connection_id].
  rewrite Htype. unfold QUICLY_PACKET_TYPE_IS_VALID, QUICLY_PACKET_TYPE_PUBLIC_RESET.
  replace (type - 1 <? 8) with true by (symmetry; apply Z.ltb_lt; lia).
  cbn [negb]. cbv iota. rewrite Hlen.
  replace (16 + length payload <? 16)%nat with false by (symmetry; apply Nat.ltb_ge; lia).
  cbv iota.
  assert (H8 : take 8 rest = be_encode 8 connection_id) by apply take_be_encode.
  assert (D8 : drop 8 rest = be_encode 4 packet_number
                             ++ be_encode 4 QUICLY_PROTOCOL_VERSION ++ payload)
    by apply drop_be_encode.
  assert (D12 : drop 12 rest = be_encode 4 QUICLY_PROTOCOL_VERSION ++ payload).
  { change 12%nat with (8 + 4)%nat. rewrite <- drop_drop, D8. apply drop_be_encode. }
  assert (D16 : drop 16 rest = payload).
  { change 16%nat with (12 + 4)%nat. rewrite <- drop_drop, D12. apply drop_be_encode. }
  rewrite H8, D8, D12, D16, !take_be_encode.
  rewrite (be_decode_encode_small 8 connection_id) by exact Hcid.
  rewrite (be_decode_encode_small 4 packet_number) by exact Hpn.
  rewrite (be_decode_encode_small 4 QUICLY_PROTOCOL_VERSION)
    by (vm_compute; split; [discriminate | reflexivity]).
  unfold set_pk_header_payload, set_pk_version, set_pk_packet_number, set_pk_connection_id.
  cbn -[rest be_encode Z.lor take].
  match goal with
  | |- context [take ?k (_ :: rest)] => replace k with 17%nat by lia
  end.
  reflexivity.
Qed.

(** X3.  A long header written by [emit_long_header] is read back by
    [quicly_decode_packet]: the type, the connection id, the packet number
    and the version are those written, the header is the 17 octets and the
    payload is what follows them.  Types above 8 are refused. *)
Theorem quicly_decode_packet_emit_long_header type connection_id packet_number payload p0 :
  0 <= type < 128 -> 0 <= connection_id < 2 ^ 64 -> 0 <= packet_number < 2 ^ 32 ->
  (quicly_decode_packet (emit_long_header type connection_id packet_number ++ payload) p0).1
  = (if type <=? 8 then Ok tt else Err QUICLY_ERROR_INVALID_PACKET_HEADER)
  /\ (type <= 8 ->
      (quicly_decode_packet (emit_long_header type connection_id packet_number ++ payload) p0).2
      = {| pk_type := type; is_long_header := true; has_connection_id := true;
           pk_connection_id := connection_id; pk_packet_number := packet_number;
           pk_version := QUICLY_PROTOCOL_VERSION;
           pk_header := emit_long_header type connection_id packet_number;
           pk_payload := payload |}).
Proof.
  intros Hty Hcid Hpn. destruct (type <=? 8) eqn:Hle.
  - apply Z.leb_le in Hle. rewrite quicly_decode_packet_long by lia.
    split; [reflexivity | intros _; reflexivity].
  - apply Z.leb_gt in Hle. split; [|lia].
    destruct (long_header_first_octet type) as [Hlong Htype]; [lia|].
    unfold emit_long_header. rewrite <- !app_assoc. cbn [app].
    unfold quicly_decode_packet. cbn [length]. rewrite !length_app, !be_encode_length.
    cbn [Nat.add Nat.ltb Nat.leb]. rewrite Hlong. cbn [negb]. cbv iota.
    unfold decode_long_header, mbind, modify, get. cbn [fst snd pk_type set_pk_type
      set_is_long_header set_has_connection_id].
    rewrite Htype. unfold QUICLY_PACKET_TYPE_IS_VALID, QUICLY_PACKET_TYPE_PUBLIC_RESET.
    replace (type - 1 <? 8) with false by (symmetry; apply Z.ltb_ge; lia).
    reflexivity.
Qed.

Lemma quicly_decode_packet_emit_long_header_witness :
  let p0 := {| pk_type := 0; is_long_header := false; has_connection_id := false;
               pk_connection_id := 0; pk_packet_number := 0; pk_version := 0;
               pk_header := []; pk_payload := [] |} in
  (quicly_decode_packet (emit_long_header 5 0x2222 7 ++ [1; 2; 3]) p0).1
  = (if 5 <=? 8 then Ok tt else Err QUICLY_ERROR_INVALID_PACKET_HEADER)
  /\ (5 <= 8 ->
      (quicly_decode_packet (emit_long_header 5 0x2222 7 ++ [1; 2; 3]) p0).2
      = {| pk_type := 5; is_long_header := true; has_connection_id := true;
           pk_connection_id := 0x2222; pk_packet_number := 7;
           pk_version := QUICLY_PROTOCOL_VERSION;
           pk_header := emit_long_header 5 0x2222 7;
           pk_payload := [1; 2; 3] |}).
Proof.
  intros p0. apply (quicly_decode_packet_emit_long_header 5 0x2222 7 [1; 2; 3] p0); lia.
Defined.

Lemma fnv1a_range (hash : Z) (p : list Z) :
  0 <= hash < 2 ^ 64 -> 0 <= fnv1a hash p < 2 ^ 64.
Proof.
  revert hash. induction p as [|b p IH]; intros hash H; [exact H|].
  simpl. apply IH. unfold wrap64. apply Z.mod_pos_bound. lia.
Qed.

(** X5.  A datagram made of a long header, frames and eight more octets is
    decoded and then accepted by [verify_cleartext_packet] exactly when
    the eight octets are the FNV-1a hash of the header and the frames, as
    [commit_send_packet] writes it; accepted or not, the payload is cut
    back to the frames. *)
Theorem cleartext_packet_is_verified_by_its_hash
    type connection_id packet_number frames trailer p0 :
  0 <= type <= 8 -> 0 <= connection_id < 2 ^ 64 -> 0 <= packet_number < 2 ^ 32 ->
  0 <= trailer < 2 ^ 64 ->
  let header := emit_long_header type connection_id packet_number in
  let r := quicly_decode_packet (header ++ frames ++ be_encode 8 trailer) p0 in
  r.1 = Ok tt
  /\ pk_header r.2 = header
  /\ verify_cleartext_packet r.2
     = (fnv1a (fnv1a FNV1A_OFFSET_BASIS header) frames =? trailer, frames).
Proof.
  intros Hty Hcid Hpn Htrailer header r. subst r header.
  rewrite quicly_decode_packet_long by assumption.
  split; [reflexivity|]. split; [reflexivity|].
  unfold verify_cleartext_packet. cbn [fst snd pk_payload pk_header].
  rewrite length_app, be_encode_length.
  replace (length frames + 8 <? 8)%nat with false by (symmetry; apply Nat.ltb_ge; lia).
  replace (length frames + 8 - 8)%nat with (length frames) by lia.
  rewrite take_app_length, drop_app_length, be_decode_encode_small by exact Htrailer.
  reflexivity.
Qed.

(** A MAX_DATA frame in a CLIENT_CLEARTEXT packet, with its hash. *)
Lemma cleartext_packet_is_verified_by_its_hash_witness :
  let p0 := {| pk_type := 0; is_long_header := false; has_connection_id := false;
               pk_connection_id := 0; pk_packet_number := 0; pk_version := 0;
               pk_header := []; pk_payload := [] |} in
  let header := emit_long_header 5 0x2222 7 in
  let frames := [4; 0; 0; 0; 0; 0; 0; 0; 32] in
  let trailer := fnv1a (fnv1a FNV1A_OFFSET_BASIS header) frames in
  let r := quicly_decode_packet (header ++ frames ++ be_encode 8 trailer) p0 in
  r.1 = Ok tt
  /\ pk_header r.2 = header
  /\ verify_cleartext_packet r.2
     = (fnv1a (fnv1a FNV1A_OFFSET_BASIS header) frames =? trailer, frames).
Proof.
  intros p0 header frames trailer.
  apply (cleartext_packet_is_verified_by_its_hash 5 0x2222 7 frames trailer p0); try lia.
  apply fnv1a_range, fnv1a_range. vm_compute. split; [discriminate | reflexivity].
Defined.

End PacketHeader.

(** * Accepting a connection: [quicly_accept] *)

Module Accept.

(** The loop of [quicly_accept] that advances [src] over the PADDING
    frames. *)
Fixpoint skip_padding (E : env) (src : list Z) : list Z :=
  match src with
  | [] => []
  | b :: src' => if b =? QUICLY_FRAME_TYPE_PADDING E then skip_padding E src' else src
  end.

(** [quicly_accept(conn, ctx, sa, salen, handshake_properties, packet)]:
    the connection handed to the caller, or the error; a connection that
    was created before an error is freed.  (The allocations are taken to
    succeed.) *)
Definition quicly_accept (E : env) (fuel : nat) (ctx : quicly_context_t)
    (packet : quicly_decoded_packet_t) : result quicly_conn_t :=
  (* ignore any packet that does not  *)
  if negb (pk_type packet =? QUICLY_PACKET_TYPE_CLIENT_INITIAL)
  then Err QUICLY_ERROR_PACKET_IGNORED
  else
    let (ok, payload) := verify_cleartext_packet packet in
    if negb ok then Err QUICLY_ERROR_DECRYPTION_FAILURE
    else
      match skip_padding E payload with
      | [] => Err QUICLY_ERROR_TBD
      | type_flags :: src =>
        if type_flags <? QUICLY_FRAME_TYPE_STREAM E then Err QUICLY_ERROR_TBD
        else
          match quicly_decode_stream_frame E type_flags src with
          | Ok (frame, src) =>
            if negb ((sf_stream_id frame =? 0) && (sf_offset frame =? 0))
            then Err QUICLY_ERROR_INVALID_STREAM_DATA
            else
              match skip_padding E src with
              | _ :: _ => Err QUICLY_ERROR_TBD
              | [] =>
                let conn := create_connection E ctx false in
                let conn :=
                  with_crypto_data
                    (fun d => set_crypto_extensions (Some server_collected_extensions_cb)
                                (additional_extensions d) d) conn in
                let conn := schedule_ack (pk_packet_number packet) conn in
                match apply_stream_frame E fuel 0 frame conn with
                | (Ok _, conn) =>
                  match quicly_get_stream conn 0 with
                  | Some crypto_stream =>
                    if negb (rb_data_off (recvbuf crypto_stream)
                             =? Z.of_nat (length (sf_data frame)))
                    then Err QUICLY_ERROR_TBD (* garbage after clienthello? *)
                    else Ok conn
                  | None => Abort
                  end
                | (Err e, _) => Err e
                | (Abort, _) => Abort
                | (OutOfFuel, _) => OutOfFuel
                end
              end
          | Err e => Err e
          | Abort => Abort
          | OutOfFuel => OutOfFuel
          end
      end.

(** What the handshake leaves alone while the first flight is applied. *)
Definition accept_rel (c c' : quicly_conn_t) : Prop :=
  ack_queue (ingress c') = ack_queue (ingress c)
  /\ ctx c' = ctx c
  /\ (host_next_stream_id (super c) mod 2 = 0 -> host_next_stream_id (super c') mod 2 = 0).

(** A server whose TLS provider consumes the ClientHello and goes on, and
    a CLIENT_INITIAL packet with a ClientHello of three octets on the
    stream 0. *)
Definition example_env : env :=
  Example.env 0 (fun _ => false) (fun _ => true) (fun _ => true) None.

Definition example_packet : quicly_decoded_packet_t :=
  let header := emit_long_header QUICLY_PACKET_TYPE_CLIENT_INITIAL 0x2222 0 in
  let frames := [0xc0; 0; 1; 2; 3] in
  {| pk_type := QUICLY_PACKET_TYPE_CLIENT_INITIAL; is_long_header := true;
     has_connection_id := true; pk_connection_id := 0x2222; pk_packet_number := 0;
     pk_version := QUICLY_PROTOCOL_VERSION; pk_header := header;
     pk_payload := frames ++ be_encode 8 (fnv1a (fnv1a FNV1A_OFFSET_BASIS header) frames) |}.

(** The same packet with the last 32-bit packet number. *)
Definition last_numbered_packet : quicly_decoded_packet_t :=
  let header := emit_long_header QUICLY_PACKET_TYPE_CLIENT_INITIAL 0x2222 (2 ^ 32 - 1) in
  let frames := [0xc0; 0; 1; 2; 3] in
  {| pk_type := QUICLY_PACKET_TYPE_CLIENT_INITIAL; is_long_header := true;
     has_connection_id := true; pk_connection_id := 0x2222;
     pk_packet_number := 2 ^ 32 - 1;
     pk_version := QUICLY_PROTOCOL_VERSION; pk_header := header;
     pk_payload := frames ++ be_encode 8 (fnv1a (fnv1a FNV1A_OFFSET_BASIS header) frames) |}.

Lemma accept_rel_same c c' :
  ack_queue (ingress c') = ack_queue (ingress c) -> ctx c' = ctx c ->
  host_next_stream_id (super c') = host_next_stream_id (super c) -> accept_rel c c'.
Proof. intros Ha Hb Hc. unfold accept_rel. rewrite Ha, Hb, Hc. tauto. Qed.

Lemma accept_rel_trans c1 c2 c3 : accept_rel c1 c2 -> accept_rel c2 c3 -> accept_rel c1 c3.
Proof.
  intros (Ha & Hb & Hc) (Ha' & Hb' & Hc'). unfold accept_rel.
  split; [congruence|]. split; [congruence | tauto].
Qed.

Lemma apply_stream_frame_accept_rel E fuel sid frame c :
  accept_rel c (apply_stream_frame E fuel sid frame c).2.
Proof.
  assert (Hkey : forall side a secret c0, accept_rel c0 (install_key_phase0 side a secret c0))
    by (intros [] ? ? ?; apply accept_rel_same; reflexivity).
  apply (apply_stream_frame_pres E fuel accept_rel);
    first [ exact accept_rel_trans | exact Hkey
          | intros; apply accept_rel_same; reflexivity
          | idtac ].
  intros c0 _. split; [reflexivity|]. split; [reflexivity|]. intros Heven.
  unfold host_stream_opened. cbn.
  destruct (wrap32 (host_next_stream_id (super c0) + 2) <? 2); [reflexivity|].
  rewrite StreamIds.wrap32_add_2_parity. exact Heven.
Qed.



End Accept.

(** * Receiving: what is refused, dropped or left alone *)

Module ReceiveEdges.

(** How the packet type tells [quicly_receive] to check the packet: by the
    FNV-1a hash, or by the AEAD context of the key phase. *)
Inductive protection : Type :=
| by_hash
| by_aead (a : ptls_aead_context_t).

Definition aead_of (p : protection) : option ptls_aead_context_t :=
  match p with
  | by_hash => None
  | by_aead a => Some a
  end.

Definition selected_protection (c : quicly_conn_t) (packet : quicly_decoded_packet_t)
  : option protection :=
  let type := pk_type packet in
  if type =? QUICLY_PACKET_TYPE_CLIENT_CLEARTEXT then
    if quicly_is_client c then None else Some by_hash
  else if type =? QUICLY_PACKET_TYPE_SERVER_CLEARTEXT then
    if quicly_is_client c then Some by_hash else None
  else if type =? QUICLY_PACKET_TYPE_0RTT_PROTECTED then
    if quicly_is_client c then None
    else option_map by_aead (aead_early_data (ingress_pp (ingress c)))
  else if type =? QUICLY_PACKET_TYPE_1RTT_KEY_PHASE_0 then
    option_map by_aead (aead_key_phase0 (ingress_pp (ingress c)))
  else if type =? QUICLY_PACKET_TYPE_1RTT_KEY_PHASE_1 then
    option_map by_aead (aead_key_phase1 (ingress_pp (ingress c)))
  else None.

(** A stream id for which [get_stream_or_open_if_new] finds no stream and
    opens none: an id of the host's parity, or one below the next id of the
    peer, or any id once the ids of the peer are used up. *)
Definition not_to_be_opened (c : quicly_conn_t) (sid : Z) : Prop :=
  quicly_get_stream c sid = None
  /\ (sid mod 2 = Z.b2z (quicly_is_client c)
      \/ peer_next_stream_id (super c) = 0
      \/ sid < peer_next_stream_id (super c)).

Definition example_env : env :=
  Example.env 0 (fun _ => false) (fun _ => true) (fun _ => true) None.

Definition example_conn : quicly_conn_t := create_connection example_env Example.ctx false.

(** A CLIENT_CLEARTEXT packet with a MAX_DATA frame whose last octet is not
    that of the hash. *)
Definition corrupted_packet : quicly_decoded_packet_t :=
  let header := emit_long_header QUICLY_PACKET_TYPE_CLIENT_CLEARTEXT 0 7 in
  let frames := [4; 0; 0; 0; 0; 0; 0; 0; 32] in
  {| pk_type := QUICLY_PACKET_TYPE_CLIENT_CLEARTEXT; is_long_header := true;
     has_connection_id := true; pk_connection_id := 0; pk_packet_number := 7;
     pk_version := QUICLY_PROTOCOL_VERSION; pk_header := header;
     pk_payload := frames
                   ++ be_encode 8 (fnv1a (fnv1a FNV1A_OFFSET_BASIS header) frames + 1) |}.

Section Receive.

Variable E : env.
Variable fuel : nat.

Lemma quicly_receive_selected packet c p :
  is_long_header packet || state_is_1rtt (state (super c)) = true ->
  selected_protection c packet = Some p ->
  quicly_receive E fuel packet c
  = receive_payload E fuel (aead_of p) packet
      (with_super (set_connection_id (pk_connection_id packet)) c).
Proof.
  intros Hhdr Hsel. unfold quicly_receive.
  unfold mbind at 1. unfold modify at 1. unfold mbind at 1. unfold get at 1.
  set (c0 := with_super (set_connection_id (pk_connection_id packet)) c).
  cbn [fst snd].
  change (connection_id (super c0)) with (pk_connection_id packet).
  rewrite Z.eqb_refl. cbn [negb].
  change (state (super c0)) with (state (super c)).
  replace (negb (is_long_header packet) && negb (state_is_1rtt (state (super c))))
    with false
    by (destruct (is_long_header packet), (state_is_1rtt (state (super c)));
        try reflexivity; discriminate Hhdr).
  unfold selected_protection in Hsel.
  change (quicly_is_client c0) with (quicly_is_client c).
  change (ingress c0) with (ingress c). change (quicly_get_state c0) with (quicly_get_state c).
  cbv zeta.
  destruct (pk_type packet =? QUICLY_PACKET_TYPE_CLIENT_CLEARTEXT).
  { destruct (quicly_is_client c); [discriminate|]. inversion Hsel. reflexivity. }
  destruct (pk_type packet =? QUICLY_PACKET_TYPE_SERVER_CLEARTEXT).
  { destruct (quicly_is_client c); [|discriminate]. inversion Hsel. reflexivity. }
  destruct (pk_type packet =? QUICLY_PACKET_TYPE_0RTT_PROTECTED).
  { destruct (quicly_is_client c); [discriminate|].
    destruct (aead_early_data (ingress_pp (ingress c))); [|discriminate].
    inversion Hsel. reflexivity. }
  destruct (pk_type packet =? QUICLY_PACKET_TYPE_1RTT_KEY_PHASE_0).
  { destruct (aead_key_phase0 (ingress_pp (ingress c))); [|discriminate].
    inversion Hsel. reflexivity. }
  destruct (pk_type packet =? QUICLY_PACKET_TYPE_1RTT_KEY_PHASE_1); [|discriminate].
  destruct (aead_key_phase1 (ingress_pp (ingress c))); [|discriminate].
  inversion Hsel. reflexivity.
Qed.

(** X7.  A packet whose hash or AEAD tag does not verify is refused with
    [QUICLY_ERROR_DECRYPTION_FAILURE], and one whose payload is empty with
    [QUICLY_ERROR_INVALID_FRAME_DATA], before any frame is looked at: the
    connection is as it was, but for its connection id, which is that of
    the packet. *)
Theorem unverified_packet_is_not_processed packet c p :
  is_long_header packet || state_is_1rtt (state (super c)) = true ->
  selected_protection c packet = Some p ->
  let c0 := with_super (set_connection_id (pk_connection_id packet)) c in
  (AckScheduling.opened_payload E (aead_of p) packet = None ->
   quicly_receive E fuel packet c = (Err QUICLY_ERROR_DECRYPTION_FAILURE, c0))
  /\ (AckScheduling.opened_payload E (aead_of p) packet = Some [] ->
      quicly_receive E fuel packet c = (Err QUICLY_ERROR_INVALID_FRAME_DATA, c0)).
Proof.
  intros Hhdr Hsel c0. rewrite (quicly_receive_selected packet c p Hhdr Hsel).
  fold c0. unfold receive_payload, AckScheduling.opened_payload.
  split; intros Hopen; unfold mbind at 1; destruct p as [|a]; cbn [aead_of] in *.
  - destruct (verify_cleartext_packet packet) as [[] payload]; [discriminate|]. reflexivity.
  - destruct (ptls_aead_decrypt E a _ _ _); [discriminate|]. reflexivity.
  - destruct (verify_cleartext_packet packet) as [[] payload]; [|discriminate].
    inversion Hopen. reflexivity.
  - destruct (ptls_aead_decrypt E a _ _ _) as [payload|]; [|discriminate].
    inversion Hopen. reflexivity.
Qed.

Lemma get_stream_or_open_if_new_none c sid :
  not_to_be_opened c sid -> get_stream_or_open_if_new E fuel sid c = (Ok None, c).
Proof.
  intros [Hnone Hwhy]. unfold get_stream_or_open_if_new, mbind, get. cbn [fst snd].
  rewrite Hnone.
  replace (negb (sid mod 2 =? Z.b2z (quicly_is_client c))
           && negb (peer_next_stream_id (super c) =? 0)
           && (peer_next_stream_id (super c) <=? sid)) with false; [reflexivity|].
  symmetry. destruct Hwhy as [H | [H | H]].
  - rewrite H, Z.eqb_refl. reflexivity.
  - rewrite H. cbn. rewrite andb_false_r. reflexivity.
  - replace (peer_next_stream_id (super c) <=? sid) with false
      by (symmetry; apply Z.leb_gt; exact H).
    apply andb_false_r.
Qed.


(** What [quicly_receive] leaves alone on the sending side. *)
Definition releases_only (c c' : quicly_conn_t) : Prop :=
  acks (egress c') `sublist_of` acks (egress c)
  /\ packet_number (egress c') = packet_number (egress c)
  /\ ctx c' = ctx c.

Lemma releases_only_same c c' :
  acks (egress c') = acks (egress c) -> packet_number (egress c') = packet_number (egress c) ->
  ctx c' = ctx c -> releases_only c c'.
Proof. intros Ha Hb Hc. split; [rewrite Ha; reflexivity | split; assumption]. Qed.

Lemma releases_only_refl c : releases_only c c.
Proof. apply releases_only_same; reflexivity. Qed.

Lemma releases_only_trans c1 c2 c3 :
  releases_only c1 c2 -> releases_only c2 c3 -> releases_only c1 c3.
Proof.
  intros (Ha & Hb & Hc) (Ha' & Hb' & Hc'). split; [|split; congruence].
  etransitivity; eassumption.
Qed.

(** X9.  [quicly_receive] adds no entry to the book of what was sent: the
    entries after the call are entries of before the call, in their order
    (those that an ACK frame acknowledged are gone); it uses no packet
    number and leaves the context alone. *)
Theorem quicly_receive_only_releases_sent_entries packet c :
  releases_only c (quicly_receive E fuel packet c).2.
Proof.
  assert (Hrefl := releases_only_refl). assert (Htrans := releases_only_trans).
  assert (Hkey : forall side a secret c0, releases_only c0 (install_key_phase0 side a secret c0))
    by (intros [] ? ? ?; apply releases_only_same; reflexivity).
  assert (Hrelease : forall i c0, releases_only c0 (release_ack i c0))
    by (intros i c0; split; [apply sublist_delete | split; reflexivity]).
  apply (quicly_receive_pres E fuel releases_only);
    first [ exact Hrefl | exact Htrans | exact Hkey | exact Hrelease
          | apply get_stream_or_open_if_new_pres;
            first [ exact Hrefl | exact Htrans
                  | intros; apply releases_only_same; reflexivity ]
          | intros; apply releases_only_same; reflexivity ].
Qed.

End Receive.

(** The corrupted packet is refused and the server is as it was. *)
Lemma unverified_packet_is_not_processed_witness :
  let c0 := with_super (set_connection_id (pk_connection_id corrupted_packet)) example_conn in
  (AckScheduling.opened_payload example_env (aead_of by_hash) corrupted_packet = None ->
   quicly_receive example_env 5 corrupted_packet example_conn
   = (Err QUICLY_ERROR_DECRYPTION_FAILURE, c0))
  /\ (AckScheduling.opened_payload example_env (aead_of by_hash) corrupted_packet = Some [] ->
      quicly_receive example_env 5 corrupted_packet example_conn
      = (Err QUICLY_ERROR_INVALID_FRAME_DATA, c0)).
Proof.
  apply (unverified_packet_is_not_processed example_env 5 corrupted_packet example_conn by_hash);
    vm_compute; reflexivity.
Defined.


End ReceiveEdges.

(** * ACK frames: [handle_ack_frame] *)

Module AckFrames.

(** The packet number after a block of [len] packets from [pn] on. *)
Definition block_end (pn len : Z) : Z := if len =? 0 then pn else wrap64 (pn + len).

(** The blocks of an ACK frame as [handle_ack_frame] walks them, from the
    block of index [gap_index] down to the block 0: the first packet number
    of each block and its length. *)
Fixpoint acknowledged_blocks (frame : quicly_ack_frame_t) (gap_index : nat) (pn : Z)
  : list (Z * Z) :=
  let len := nth gap_index (ack_block_lengths frame) 0 in
  (pn, len)
  :: match gap_index with
     | O => []
     | S g => acknowledged_blocks frame g (wrap64 (block_end pn len + nth g (gaps frame) 0))
     end.

Definition in_block (pn : Z) (b : Z * Z) : bool := wrap64 (pn - b.1) <? b.2.

(** The packet number lies in a block of the frame. *)
Definition acknowledged (frame : quicly_ack_frame_t) (pn : Z) : bool :=
  existsb (in_block pn)
    (acknowledged_blocks frame (num_gaps frame) (smallest_acknowledged frame)).

Definition unacknowledged (frame : quicly_ack_frame_t) (a : quicly_ack_t) : bool :=
  negb (acknowledged frame (ack_packet_number a)).

(** The entries that pass the test [P] are the same, in the same order. *)
Definition keeps (P : quicly_ack_t -> bool) (c c' : quicly_conn_t) : Prop :=
  List.filter P (acks (egress c')) = List.filter P (acks (egress c)).

Definition same_acks (c c' : quicly_conn_t) : Prop := acks (egress c') = acks (egress c).

(** A book with one entry for each of the packets 0, 1 and 2, and a frame
    that acknowledges the packet 1. *)
Definition example_env : env :=
  Example.env 0 (fun _ => false) (fun _ => true) (fun _ => true) None.

Definition example_conn : quicly_conn_t :=
  let sent c := next_packet_number (allocate_ack 5 (ack_max_data 64) c) in
  sent (sent (sent (create_connection example_env Example.ctx true))).

Definition example_frame : quicly_ack_frame_t :=
  {| smallest_acknowledged := 1; num_gaps := 0; ack_block_lengths := [1]; gaps := [] |}.

Lemma filter_delete (P : quicly_ack_t -> bool) (l : list quicly_ack_t) i a :
  l !! i = Some a -> P a = false -> List.filter P (delete i l) = List.filter P l.
Proof.
  revert i. induction l as [|x l IH]; intros i Hi HP; [discriminate Hi|].
  destruct i as [|i]; simpl in *.
  - inversion Hi. subst x. rewrite HP. reflexivity.
  - rewrite (IH i Hi HP). reflexivity.
Qed.

Lemma call_acked_same_acks acked ack c : same_acks c (call_acked acked ack c).2.
Proof.
  apply (call_acked_pres same_acks); unfold same_acks; intros; try reflexivity; congruence.
Qed.

Lemma ack_skip_state n i pn c : (ack_skip n i pn c).2 = c.
Proof.
  revert i. induction n as [|n IH]; intros i; simpl; unfold mbind, get; simpl;
    destruct (quicly_acks_get c i) as [a|]; try reflexivity;
    destruct (ack_packet_number a <? pn); try reflexivity;
    destruct (quicly_acks_get c (S i)); try reflexivity.
  apply IH.
Qed.

Section Keeps.

Variable P : quicly_ack_t -> bool.

Lemma keeps_refl c : keeps P c c.
Proof. reflexivity. Qed.

Lemma keeps_trans c1 c2 c3 : keeps P c1 c2 -> keeps P c2 c3 -> keeps P c1 c3.
Proof. unfold keeps. congruence. Qed.

Lemma ack_entries_keeps n i pn c :
  (forall a, ack_packet_number a = pn -> P a = false) ->
  keeps P c (ack_entries n i pn c).2.
Proof.
  intros Hpn. revert c. induction n as [|n IH]; intros c; simpl.
  all: unfold mbind at 1; unfold get at 1; cbn [fst snd].
  all: destruct (quicly_acks_get c i) as [a|] eqn:Hi; [|apply keeps_refl].
  all: destruct (ack_packet_number a =? pn) eqn:Ha; [|apply keeps_refl].
  all: apply Z.eqb_eq in Ha.
  all: unfold mbind at 1; pose proof (call_acked_same_acks true a c) as Hsame.
  all: destruct (call_acked true a c) as [[[]| | |] c1]; cbn [fst snd] in *;
    try (unfold keeps; rewrite Hsame; reflexivity).
  all: assert (Hrel : keeps P c (release_ack i c1))
    by (unfold keeps, release_ack; cbn; rewrite Hsame;
        apply (filter_delete P _ i a); [exact Hi | apply Hpn, Ha]).
  all: unfold mbind at 1; unfold quicly_acks_release, modify; cbn [fst snd].
  all: unfold mbind at 1; unfold get at 1; cbn [fst snd].
  all: destruct (quicly_acks_get (release_ack i c1) i); try exact Hrel.
  eapply keeps_trans; [exact Hrel | apply IH].
Qed.

Lemma wrap64_succ x : wrap64 (wrap64 x + 1) = wrap64 (x + 1).
Proof. unfold wrap64. apply Zplus_mod_idemp_l. Qed.

(** One block: the packets from [start + j] on are looked up; when the
    block is walked to its end, the packet number is that after it. *)
Lemma ack_block_keeps fuel n i start len j c res c' :
  0 <= j < len -> len < 2 ^ 64 ->
  (forall k a, 0 <= k < len -> ack_packet_number a = wrap64 (start + k) -> P a = false) ->
  ack_block fuel n i (wrap64 (start + j)) (len - j) c = (res, c') ->
  keeps P c c' /\ (forall pn', res = Ok (Some pn') -> pn' = wrap64 (start + len)).
Proof.
  intros Hj Hlen Hblock. revert j c Hj.
  induction n as [|n IH]; intros j c Hj Hrun; simpl in Hrun.
  all: unfold mbind at 1 in Hrun.
  all: assert (Hk : keeps P c (ack_entries fuel i (wrap64 (start + j)) c).2)
    by (apply ack_entries_keeps; intros a Ha; apply (Hblock j a); [lia | exact Ha]).
  all: destruct (ack_entries fuel i (wrap64 (start + j)) c) as [[[]| | |] c1];
    cbn [fst snd] in *;
    try (inversion Hrun; subst; split; [exact Hk | intros pn' H; discriminate H]).
  all: unfold mbind at 1 in Hrun; unfold get at 1 in Hrun; cbn [fst snd] in Hrun.
  all: destruct (quicly_acks_get c1 i);
    [|inversion Hrun; subst; split; [exact Hk | intros pn' H; discriminate H]].
  all: assert (Hrest : wrap64 (len - j - 1) = len - j - 1)
    by (unfold wrap64; apply Z.mod_small; lia).
  all: rewrite Hrest, wrap64_succ in Hrun.
  all: destruct (len - j - 1 =? 0) eqn:Hzero;
    [ apply Z.eqb_eq in Hzero; inversion Hrun; subst; split; [exact Hk|];
      intros pn' [= <-]; f_equal; lia | ].
  - inversion Hrun. subst. split; [exact Hk | intros pn' H; discriminate H].
  - apply Z.eqb_neq in Hzero.
    replace (start + j + 1) with (start + (j + 1)) in Hrun by lia.
    replace (len - j - 1) with (len - (j + 1)) in Hrun by lia.
    destruct (IH (j + 1) c1) as [Hk' Hend]; [lia | exact Hrun |].
    split; [eapply keeps_trans; [exact Hk | exact Hk'] | exact Hend].
Qed.

Lemma nth_in_range (l : list Z) g :
  Forall (fun len => 0 <= len < 2 ^ 64) l -> 0 <= nth g l 0 < 2 ^ 64.
Proof.
  intros H. revert g. induction H as [|x l Hx _ IH]; intros [|g]; simpl;
    try exact Hx; try apply IH; lia.
Qed.

Lemma blocks_in_range frame g pn b :
  Forall (fun len => 0 <= len < 2 ^ 64) (ack_block_lengths frame) ->
  In b (acknowledged_blocks frame g pn) -> 0 <= b.2 < 2 ^ 64.
Proof.
  intros Hlens. revert pn. induction g as [|g IH]; intros pn Hb; simpl in Hb.
  - destruct Hb as [<-|[]]. apply nth_in_range, Hlens.
  - destruct Hb as [<-|Hb]; [apply nth_in_range, Hlens | eapply IH, Hb].
Qed.

Lemma ack_blocks_keeps fuel frame g i pn c :
  0 <= pn < 2 ^ 64 ->
  Forall (fun len => 0 <= len < 2 ^ 64) (ack_block_lengths frame) ->
  (forall b k a, In b (acknowledged_blocks frame g pn) -> 0 <= k < b.2 ->
                 ack_packet_number a = wrap64 (b.1 + k) -> P a = false) ->
  keeps P c (ack_blocks fuel frame g i pn c).2.
Proof.
  intros Hpn Hlens. revert i pn c Hpn.
  induction g as [|g IH]; intros i pn c Hpn Hblocks; simpl.
  - (* the last block *)
    pose proof (nth_in_range _ 0 Hlens) as Hlen0.
    unfold mbind at 1.
    destruct (nth 0 (ack_block_lengths frame) 0 =? 0) eqn:Hzero; cbn [negb].
    { apply keeps_refl. }
    apply Z.eqb_neq in Hzero. unfold mbind at 1.
    pose proof (ack_skip_state fuel i pn c) as Hskip.
    destruct (ack_skip fuel i pn c) as [[[j|]| | |] c1]; cbn [fst snd] in Hskip; subst c1;
      cbn [fst snd]; try apply keeps_refl.
    unfold mbind at 1.
    destruct (ack_block fuel fuel j pn (nth 0 (ack_block_lengths frame) 0) c)
      as [res c1] eqn:Hrun.
    destruct (ack_block_keeps fuel fuel j pn (nth 0 (ack_block_lengths frame) 0) 0 c res c1)
      as [Hk _]; [lia | lia | | |].
    { intros k a Hk Ha. apply (Hblocks (pn, nth 0 (ack_block_lengths frame) 0) k a);
        [left; reflexivity | exact Hk | exact Ha]. }
    { rewrite Z.add_0_r, Z.sub_0_r.
      replace (wrap64 pn) with pn by (unfold wrap64; rewrite Z.mod_small; lia).
      exact Hrun. }
    destruct res as [[pn'|]| | |]; cbn [fst snd]; exact Hk.
  - (* a block followed by a gap *)
    pose proof (nth_in_range _ (S g) Hlens) as HlenS.
    set (len := nth (S g) (ack_block_lengths frame) 0) in *.
    assert (Htail : forall pn1 i1 c1,
              pn1 = block_end pn len ->
              keeps P c1 (ack_blocks fuel frame g i1
                            (wrap64 (pn1 + nth g (gaps frame) 0)) c1).2).
    { intros pn1 i1 c1 ->. apply IH.
      - unfold wrap64. apply Z.mod_pos_bound. lia.
      - intros b k a Hb. apply Hblocks. right. exact Hb. }
    unfold mbind at 1.
    destruct (len =? 0) eqn:Hzero; cbn [negb].
    { unfold mret at 1. apply Htail. unfold block_end. rewrite Hzero. reflexivity. }
    unfold mbind at 1.
    pose proof (ack_skip_state fuel i pn c) as Hskip.
    destruct (ack_skip fuel i pn c) as [[[j|]| | |] c1]; cbn [fst snd] in Hskip; subst c1;
      cbn [fst snd]; try apply keeps_refl.
    unfold mbind at 1.
    apply Z.eqb_neq in Hzero.
    destruct (ack_block fuel fuel j pn len c) as [res c1] eqn:Hrun.
    destruct (ack_block_keeps fuel fuel j pn len 0 c res c1) as [Hk Hend]; [lia | lia | | |].
    { intros k a Hk Ha. apply (Hblocks (pn, len) k a);
        [left; reflexivity | exact Hk | exact Ha]. }
    { rewrite Z.add_0_r, Z.sub_0_r.
      replace (wrap64 pn) with pn by (unfold wrap64; rewrite Z.mod_small; lia).
      exact Hrun. }
    destruct res as [[pn'|]| | |]; cbn [fst snd option_map]; try exact Hk.
    eapply keeps_trans; [exact Hk|]. apply Htail.
    unfold block_end. replace (len =? 0) with false by (symmetry; apply Z.eqb_neq; lia).
    apply Hend. reflexivity.
Qed.

End Keeps.

(** X10.  [handle_ack_frame] releases no entry whose packet number lies
    outside the blocks of the frame: those entries are in the book after
    the call as before, in the same order. *)
Theorem handle_ack_frame_keeps_unacknowledged_entries fuel frame c :
  0 <= smallest_acknowledged frame < 2 ^ 64 ->
  Forall (fun len => 0 <= len < 2 ^ 64) (ack_block_lengths frame) ->
  List.filter (unacknowledged frame) (acks (egress (handle_ack_frame fuel frame c).2))
  = List.filter (unacknowledged frame) (acks (egress c)).
Proof.
  intros Hpn Hlens. unfold handle_ack_frame, mbind, get. cbn [fst snd].
  destruct (quicly_acks_get c 0); [|reflexivity].
  apply (ack_blocks_keeps (unacknowledged frame)); [exact Hpn | exact Hlens |].
  intros [start len] k a Hb Hk Ha. cbn [fst snd] in *.
  unfold unacknowledged, acknowledged. apply negb_false_iff, existsb_exists.
  exists (start, len). split; [exact Hb|].
  unfold in_block. cbn [fst snd]. apply Z.ltb_lt. rewrite Ha. unfold wrap64.
  rewrite Zminus_mod_idemp_l. replace (start + k - start) with k by lia.
  pose proof (blocks_in_range frame _ _ (start, len) Hlens Hb) as Hlen.
  cbn [snd] in Hlen. rewrite Z.mod_small; lia.
Qed.

(** The frame acknowledges the packet 1; the entries of the packets 0 and
    2 stay, that of the packet 1 goes. *)
Lemma handle_ack_frame_keeps_unacknowledged_entries_witness :
  List.filter (unacknowledged example_frame)
    (acks (egress (handle_ack_frame 5 example_frame example_conn).2))
  = List.filter (unacknowledged example_frame) (acks (egress example_conn)).
Proof.
  apply (handle_ack_frame_keeps_unacknowledged_entries 5 example_frame example_conn).
  - vm_compute. split; [discriminate | reflexivity].
  - repeat constructor; vm_compute; discriminate.
Defined.

End AckFrames.

(** * The sender, packet by packet *)

(** What [quicly_send] preserves when [prepare_packet] as a whole does:
    the relation may depend on the test that guards the allocation of a
    packet. *)
Section SendFrame.

Variable E : env.
Variable fuel : nat.
Variable Rc : quicly_conn_t -> quicly_conn_t -> Prop.
Variable R : send_state -> send_state -> Prop.
Hypothesis Rc_refl : forall c, Rc c c.
Hypothesis Rc_trans : forall c1 c2 c3, Rc c1 c2 -> Rc c2 c3 -> Rc c1 c3.
Hypothesis R_refl : forall s, R s s.
Hypothesis R_trans : forall s1 s2 s3, R s1 s2 -> R s2 s3 -> R s1 s3.
Hypothesis R_on_conn :
  forall A (m : M quicly_conn_t A), preserves Rc m -> preserves R (on_conn m).
Hypothesis Rc_put_stream : forall sid s c, Rc c (put_stream sid s c).
Hypothesis Rc_remove_stream : forall sid c, Rc c (remove_stream sid c).
Hypothesis Rc_host_stream_closed : forall c, Rc c (host_stream_closed c).
Hypothesis Rc_peer_stream_closed : forall c, Rc c (peer_stream_closed c).
Hypothesis Rc_allocate_ack : forall now data c, Rc c (allocate_ack now data c).
Hypothesis Rc_update_max_data_sender : forall f c, Rc c (update_max_data_sender f c).
Hypothesis Rc_add_max_data_sent : forall delta c, Rc c (add_max_data_sent delta c).
Hypothesis Rc_clear_ack_queue : forall c, Rc c (clear_ack_queue c).
Hypothesis Rc_release_ack : forall i c, Rc c (release_ack i c).
Hypothesis R_push_item : forall i size, preserves R (push_item i size).
Hypothesis R_commit_send_packet : preserves R (commit_send_packet E).
Hypothesis R_prepare_packet : forall min_space, preserves R (prepare_packet E min_space).
Hypothesis R_set_packet_type :
  forall type aead, preserves R (modify_ctx (set_packet_type type aead)).

Local Hint Resolve R_on_conn Rc_put_stream Rc_remove_stream Rc_host_stream_closed
  Rc_peer_stream_closed Rc_allocate_ack Rc_update_max_data_sender Rc_add_max_data_sent
  Rc_clear_ack_queue R_push_item R_commit_send_packet R_prepare_packet
  R_set_packet_type : pres.

Lemma get_conn_keeps : preserves R get_conn.
Proof. apply preserves_gets. assumption. Qed.

Lemma get_ctx_keeps : preserves R get_ctx.
Proof. apply preserves_gets. assumption. Qed.
Local Hint Resolve get_conn_keeps get_ctx_keeps : pres.

Lemma quicly_acks_allocate_keeps now data : preserves R (quicly_acks_allocate now data).
Proof. unfold quicly_acks_allocate. pres. Qed.
Local Hint Resolve quicly_acks_allocate_keeps : pres.

Lemma send_ack_loop_keeps n range_index : preserves R (send_ack_loop E n range_index).
Proof. revert range_index. induction n; intros range_index; simpl; pres. Qed.
Local Hint Resolve send_ack_loop_keeps : pres.

Lemma send_ack_keeps : preserves R (send_ack E fuel).
Proof. unfold send_ack. pres. Qed.

Lemma send_max_data_frame_keeps : preserves R (send_max_data_frame E).
Proof. unfold send_max_data_frame. pres. Qed.

Lemma send_max_stream_data_frame_keeps sid : preserves R (send_max_stream_data_frame E sid).
Proof. unfold send_max_stream_data_frame. pres. Qed.
Local Hint Resolve send_max_stream_data_frame_keeps : pres.

Lemma send_stream_frame_keeps sid stream_off max_bytes :
  preserves R (send_stream_frame E sid stream_off max_bytes).
Proof. unfold send_stream_frame. pres. Qed.
Local Hint Resolve send_stream_frame_keeps : pres.

Lemma send_range_keeps n sid stream_off end_ : preserves R (send_range E n sid stream_off end_).
Proof. revert stream_off. induction n; intros stream_off; simpl; pres. Qed.
Local Hint Resolve send_range_keeps : pres.

Lemma send_pending_keeps ranges i sid max_stream_data stream_off :
  preserves R (send_pending E fuel ranges i sid max_stream_data stream_off).
Proof. revert i stream_off. induction ranges; intros i stream_off; simpl; pres. Qed.
Local Hint Resolve send_pending_keeps : pres.

Lemma send_stream_frames_keeps sid : preserves R (send_stream_frames E fuel sid).
Proof. unfold send_stream_frames. pres. Qed.
Local Hint Resolve send_stream_frames_keeps : pres.

Lemma prepare_stream_state_sender_keeps sid which min_space :
  preserves R (prepare_stream_state_sender E sid which min_space).
Proof. unfold prepare_stream_state_sender. pres. Qed.
Local Hint Resolve prepare_stream_state_sender_keeps : pres.

Lemma send_stream_keeps sid : preserves R (send_stream E fuel sid).
Proof. unfold send_stream. pres. Qed.
Local Hint Resolve send_stream_keeps : pres.

Lemma send_streams_keeps ids : preserves R (send_streams E fuel ids).
Proof. induction ids; simpl; pres. Qed.
Local Hint Resolve send_ack_keeps send_max_data_frame_keeps send_streams_keeps : pres.

Lemma send_packets_keeps : preserves R (send_packets E fuel).
Proof.
  unfold send_packets, send_cleartext_frames, commit_cleartext_packet, send_encrypted_frames.
  pres.
Qed.

(** [quicly_send] from the state in which the send context is set up. *)
Lemma quicly_send_run_keeps now num_packets c :
  Rc c (handle_timeouts now c).2
  /\ R ((handle_timeouts now c).2, send_context_init now num_packets)
       (quicly_send_run E fuel now num_packets c).2.
Proof.
  split.
  - apply handle_timeouts_pres; assumption.
  - unfold quicly_send_run.
    destruct (handle_timeouts now c) as [[[]| | |] c1]; simpl; try apply R_refl.
    apply send_packets_keeps.
Qed.

End SendFrame.

(** * The packets of one call of [quicly_send] *)

Module SendCapacity.

(** The packets written, and the packet under construction if there is
    one, fit in the array of [max_packets] entries the host passed. *)
Definition within_capacity (capacity : Z) (s : st_quicly_send_context_t) : Prop :=
  max_packets s = capacity
  /\ num_packets s + match target s with Some _ => 1 | None => 0 end <= capacity.

Definition capacity_rel (capacity : Z) (cs cs' : send_state) : Prop :=
  within_capacity capacity cs.2 -> within_capacity capacity cs'.2.

Definition example_env : env :=
  Example.env 3000 (fun _ => false) (fun _ => true) (fun _ => true) None.

(** A client with a first flight of 3000 octets to send. *)
Definition example_conn : quicly_conn_t :=
  (quicly_connect example_env Example.ctx
     (create_connection example_env Example.ctx true)).2.

Section Capacity.

Variable E : env.
Variable fuel : nat.
Variable capacity : Z.

Let always (_ _ : quicly_conn_t) : Prop := True.

Lemma capacity_rel_refl cs : capacity_rel capacity cs cs.
Proof. intros H. exact H. Qed.

Lemma capacity_rel_trans cs1 cs2 cs3 :
  capacity_rel capacity cs1 cs2 -> capacity_rel capacity cs2 cs3 ->
  capacity_rel capacity cs1 cs3.
Proof. unfold capacity_rel. tauto. Qed.

Lemma capacity_rel_on_conn A (m : M quicly_conn_t A) :
  preserves always m -> preserves (capacity_rel capacity) (on_conn m).
Proof.
  intros _ [c s]. unfold capacity_rel, on_conn. simpl. destruct (m c) as [r c']. simpl. tauto.
Qed.

Lemma capacity_rel_push_item i size : preserves (capacity_rel capacity) (push_item i size).
Proof.
  intros [c s]. unfold capacity_rel, within_capacity, push_item, mbind, get_ctx, gets,
    modify_ctx, modify, abort, num_packets. simpl.
  destruct (target s) eqn:Ht; simpl; rewrite ?Ht; intros H; exact H.
Qed.

Lemma capacity_rel_commit_send_packet :
  preserves (capacity_rel capacity) (commit_send_packet E).
Proof.
  intros [c s]. unfold capacity_rel, within_capacity, commit_send_packet, mbind, get_ctx, gets,
    modify_ctx, modify, abort, on_conn, num_packets. simpl.
  destruct (target s) eqn:Ht; simpl; rewrite ?Ht; [|intros H; exact H].
  rewrite length_app. simpl. lia.
Qed.

Lemma capacity_rel_set_packet_type type aead :
  preserves (capacity_rel capacity) (modify_ctx (set_packet_type type aead)).
Proof. intros [c s] H. exact H. Qed.

(** A packet is allocated only where the array has an entry left. *)
Lemma capacity_rel_start_if_room :
  preserves (capacity_rel capacity)
    (let* s := get_ctx in
     if max_packets s <=? num_packets s then mret tt else start_packet E).
Proof.
  intros [c s]. unfold mbind at 1. unfold get_ctx, gets. cbn [fst snd].
  destruct (max_packets s <=? num_packets s) eqn:Hfull; [apply capacity_rel_refl|].
  apply Z.leb_gt in Hfull.
  unfold capacity_rel, within_capacity, start_packet, mbind, get_ctx, get_conn, gets,
    modify_ctx, modify, assert, num_packets in *.
  cbn [fst snd]. intros [Hmax _].
  match goal with |- context [if ?b then _ else _] => destruct b end;
    unfold mret, abort; cbn [fst snd max_packets packets target set_target]; lia.
Qed.

Lemma capacity_rel_prepare_packet min_space :
  preserves (capacity_rel capacity) (prepare_packet E min_space).
Proof.
  assert (Hrefl := capacity_rel_refl). assert (Htrans := capacity_rel_trans).
  assert (Hctx : preserves (capacity_rel capacity) get_ctx)
    by (apply preserves_gets; exact Hrefl).
  assert (Hpush := capacity_rel_push_item). assert (Hcommit := capacity_rel_commit_send_packet).
  unfold prepare_packet.
  apply preserves_mbind; [exact Htrans | exact Hctx | intros s].
  cbv zeta.
  apply preserves_mbind; [exact Htrans | pres | intros fresh].
  destruct fresh; [|pres].
  apply preserves_mbind; [exact Htrans | pres | intros _].
  apply capacity_rel_start_if_room.
Qed.

(** X11.  [quicly_send] never writes more packets than the array it is given
    can hold, whether it returns 0 or an error. *)
Theorem quicly_send_stays_within_capacity now c :
  0 <= capacity ->
  Z.of_nat (length (packets (quicly_send_run E fuel now capacity c).2.2)) <= capacity
  /\ (forall l c', quicly_send E fuel now capacity c = (Ok l, c') ->
                   Z.of_nat (length l) <= capacity).
Proof.
  intros Hcap.
  assert (Hrun : within_capacity capacity (quicly_send_run E fuel now capacity c).2.2).
  { apply (quicly_send_run_keeps E fuel always (capacity_rel capacity));
      first [ exact capacity_rel_refl | exact capacity_rel_trans | exact capacity_rel_on_conn
            | exact capacity_rel_push_item | exact capacity_rel_commit_send_packet
            | exact capacity_rel_prepare_packet | exact capacity_rel_set_packet_type
            | intros; exact I
            | idtac ].
    unfold within_capacity, num_packets. simpl. lia. }
  destruct Hrun as [_ Hrun]. unfold num_packets in Hrun.
  assert (Hlen : Z.of_nat (length (packets (quicly_send_run E fuel now capacity c).2.2))
                 <= capacity)
    by (destruct (target _); lia).
  split; [exact Hlen|].
  intros l c' Hsend. unfold quicly_send in Hsend.
  destruct (quicly_send_run E fuel now capacity c) as [[[]| | |] [c1 s1]];
    inversion Hsend; subst. exact Hlen.
Qed.

End Capacity.

(** The client of the example would need three packets; with room for two
    it is given two. *)
Lemma quicly_send_stays_within_capacity_witness :
  Z.of_nat (length (packets (quicly_send_run example_env 10 5 2 example_conn).2.2)) <= 2
  /\ (forall l c', quicly_send example_env 10 5 2 example_conn = (Ok l, c') ->
                   Z.of_nat (length l) <= 2).
Proof. apply (quicly_send_stays_within_capacity example_env 10 2 5 example_conn). lia. Defined.

End SendCapacity.

Module PacketNumbers.

(** The packets written so far carry the connection id and consecutive
    packet numbers from [first] on, the next one is the packet number of
    the connection, and the packet under construction carries it. *)
Definition header_of (cid first : Z) (i : nat) (header : list Z) : Prop :=
  exists type, header = emit_long_header type cid (wrap32 (wrap64 (first + Z.of_nat i))).

Definition numbered (cid first : Z) (cs : send_state) : Prop :=
  connection_id (super cs.1) = cid
  /\ packet_number (egress cs.1) = wrap64 (first + num_packets cs.2)
  /\ (forall i p, packets cs.2 !! i = Some p -> header_of cid first i (raw_header p))
  /\ (forall t, target cs.2 = Some t ->
                header_of cid first (length (packets cs.2)) (tg_header t)).

Definition numbered_rel (cid first : Z) (cs cs' : send_state) : Prop :=
  numbered cid first cs -> numbered cid first cs'.

(** What the sender does to the connection leaves the connection id and
    the packet number alone. *)
Definition same_numbers (c c' : quicly_conn_t) : Prop :=
  connection_id (super c') = connection_id (super c)
  /\ packet_number (egress c') = packet_number (egress c).

Definition example_env : env :=
  Example.env 3000 (fun _ => false) (fun _ => true) (fun _ => true) None.

Definition example_conn : quicly_conn_t :=
  (quicly_connect example_env Example.ctx
     (create_connection example_env Example.ctx true)).2.

Section Numbers.

Variable E : env.
Variable fuel : nat.
Variable cid first : Z.

Lemma same_numbers_refl c : same_numbers c c.
Proof. split; reflexivity. Qed.

Lemma same_numbers_trans c1 c2 c3 :
  same_numbers c1 c2 -> same_numbers c2 c3 -> same_numbers c1 c3.
Proof. unfold same_numbers. intros [H1 H2] [H3 H4]. split; congruence. Qed.

Lemma numbered_rel_refl cs : numbered_rel cid first cs cs.
Proof. intros H. exact H. Qed.

Lemma numbered_rel_trans cs1 cs2 cs3 :
  numbered_rel cid first cs1 cs2 -> numbered_rel cid first cs2 cs3 ->
  numbered_rel cid first cs1 cs3.
Proof. unfold numbered_rel. tauto. Qed.

Lemma numbered_rel_on_conn A (m : M quicly_conn_t A) :
  preserves same_numbers m -> preserves (numbered_rel cid first) (on_conn m).
Proof.
  intros Hm [c s]. specialize (Hm c). unfold numbered_rel, numbered, on_conn.
  cbn [fst snd]. destruct (m c) as [r c']. cbn [fst snd] in *.
  destruct Hm as [Hid Hpn]. rewrite Hid, Hpn. intros H. exact H.
Qed.

Lemma numbered_rel_push_item i size : preserves (numbered_rel cid first) (push_item i size).
Proof.
  intros [c s]. unfold numbered_rel, numbered, push_item, mbind, get_ctx, gets, modify_ctx,
    modify, abort, num_packets. cbn [fst snd].
  destruct (target s) as [t|] eqn:Ht; cbn [fst snd packets target set_target];
    [|rewrite Ht; intros H; exact H].
  intros (Hid & Hpn & Hpackets & Htarget). repeat split; try assumption.
  intros t' [= <-]. cbn [tg_header]. apply Htarget. reflexivity.
Qed.

Lemma numbered_rel_commit_send_packet :
  preserves (numbered_rel cid first) (commit_send_packet E).
Proof.
  intros [c s]. unfold numbered_rel, numbered, commit_send_packet, mbind, get_ctx, gets,
    modify_ctx, modify, abort, on_conn, num_packets. cbn [fst snd].
  destruct (target s) as [t|] eqn:Ht;
    cbn [fst snd packets target set_target set_packets];
    [|rewrite Ht; intros H; exact H].
  intros (Hid & Hpn & Hpackets & Htarget).
  split; [exact Hid|]. split.
  - unfold next_packet_number. cbn. rewrite Hpn, length_app. cbn [length].
    unfold wrap64. rewrite Zplus_mod_idemp_l. f_equal. lia.
  - split; [|intros t' Hnone; discriminate Hnone].
    intros i p Hi. apply lookup_app_Some in Hi. destruct Hi as [Hi | [Hge Hi]].
    + apply Hpackets, Hi.
    + destruct (i - length (packets s))%nat as [|k] eqn:Hk; [|discriminate Hi].
      inversion Hi. subst p. cbn [raw_header].
      replace i with (length (packets s)) by lia. apply Htarget. reflexivity.
Qed.

Lemma numbered_rel_start_packet : preserves (numbered_rel cid first) (start_packet E).
Proof.
  intros [c s]. unfold numbered_rel, numbered, start_packet, mbind, get_ctx, get_conn, gets,
    modify_ctx, modify, assert, num_packets. cbn [fst snd].
  intros (Hid & Hpn & Hpackets & Htarget).
  match goal with |- context [if ?b then _ else _] => destruct b end;
    unfold mret, abort; cbn [fst snd packets target set_target];
    (split; [exact Hid|]; split; [exact Hpn|]; split; [exact Hpackets|]);
    intros t' [= <-]; cbn [tg_header]; exists (packet_type s); rewrite Hid, Hpn; reflexivity.
Qed.

Lemma numbered_rel_set_packet_type type aead :
  preserves (numbered_rel cid first) (modify_ctx (set_packet_type type aead)).
Proof. intros [c s] H. exact H. Qed.

Lemma numbered_rel_prepare_packet min_space :
  preserves (numbered_rel cid first) (prepare_packet E min_space).
Proof.
  assert (Hrefl := numbered_rel_refl). assert (Htrans := numbered_rel_trans).
  assert (Hctx : preserves (numbered_rel cid first) get_ctx)
    by (apply preserves_gets; exact Hrefl).
  assert (Hpush := numbered_rel_push_item).
  assert (Hcommit := numbered_rel_commit_send_packet).
  assert (Hstart := numbered_rel_start_packet).
  unfold prepare_packet. pres.
Qed.

End Numbers.

(** X12.  Every packet that one call of [quicly_send] writes has a long
    header with the connection id of the connection, the i-th packet
    carries the packet number of the connection before the call plus i
    (on 32 bits), and the call advances the packet number of the
    connection by the number of packets written. *)
Theorem quicly_send_numbers_its_packets E fuel now capacity c :
  0 <= packet_number (egress c) < 2 ^ 64 ->
  let r := quicly_send_run E fuel now capacity c in
  connection_id (super r.2.1) = connection_id (super c)
  /\ packet_number (egress r.2.1)
     = wrap64 (packet_number (egress c) + Z.of_nat (length (packets r.2.2)))
  /\ (forall i p,
        packets r.2.2 !! i = Some p ->
        exists type,
          raw_header p
          = emit_long_header type (connection_id (super c))
              (wrap32 (wrap64 (packet_number (egress c) + Z.of_nat i)))).
Proof.
  intros Hrange r.
  set (cid := connection_id (super c)). set (first := packet_number (egress c)).
  destruct (quicly_send_run_keeps E fuel same_numbers (numbered_rel cid first)) with
    (now := now) (num_packets := capacity) (c := c) as [Htimeouts Hrun];
    try first [ exact same_numbers_refl | exact same_numbers_trans
              | exact (numbered_rel_refl cid first) | exact (numbered_rel_trans cid first)
              | exact (numbered_rel_on_conn cid first)
              | exact (numbered_rel_push_item cid first)
              | exact (numbered_rel_commit_send_packet E cid first)
              | exact (numbered_rel_prepare_packet E cid first)
              | exact (numbered_rel_set_packet_type cid first)
              | intros; split; reflexivity ].
  destruct Htimeouts as [Hid Hpn]. fold r in Hrun.
  destruct Hrun as (Hid' & Hpn' & Hpackets & _).
  { unfold numbered, num_packets. cbn [fst snd]. rewrite Hid, Hpn.
    split; [reflexivity|]. split.
    - change (Z.of_nat (length (packets (send_context_init now capacity)))) with 0.
      rewrite Z.add_0_r. unfold wrap64. rewrite Z.mod_small by exact Hrange. reflexivity.
    - split; [intros i p Hi; discriminate Hi | intros t Ht; discriminate Ht]. }
  split; [exact Hid'|]. split; [exact Hpn'|]. exact Hpackets.
Qed.

(** The two packets of the example carry the packet numbers 0 and 1. *)
Lemma quicly_send_numbers_its_packets_witness :
  let r := quicly_send_run example_env 10 5 2 example_conn in
  connection_id (super r.2.1) = connection_id (super example_conn)
  /\ packet_number (egress r.2.1)
     = wrap64 (packet_number (egress example_conn) + Z.of_nat (length (packets r.2.2)))
  /\ (forall i p,
        packets r.2.2 !! i = Some p ->
        exists type,
          raw_header p
          = emit_long_header type (connection_id (super example_conn))
              (wrap32 (wrap64 (packet_number (egress example_conn) + Z.of_nat i)))).
Proof.
  apply (quicly_send_numbers_its_packets example_env 10 5 2 example_conn).
  vm_compute. split; [discriminate | reflexivity].
Defined.

End PacketNumbers.

Module PacketTypes.

(** The packet types a connection may send: a client CLIENT_INITIAL before
    the ServerHello and CLIENT_CLEARTEXT after it, a server
    SERVER_CLEARTEXT, and both 1-RTT packets of the key phase 0 once the
    state is [QUICLY_STATE_1RTT_ENCRYPTED]. *)
Definition may_send (c : quicly_conn_t) (type : Z) : bool :=
  (if quicly_is_client c then
     if state_is_before_sh (quicly_get_state c)
     then type =? QUICLY_PACKET_TYPE_CLIENT_INITIAL
     else type =? QUICLY_PACKET_TYPE_CLIENT_CLEARTEXT
   else type =? QUICLY_PACKET_TYPE_SERVER_CLEARTEXT)
  || (state_is_1rtt (quicly_get_state c) && (type =? QUICLY_PACKET_TYPE_1RTT_KEY_PHASE_0)).

(** The side and the state of the connection are as they were. *)
Definition same_side (c c' : quicly_conn_t) : Prop :=
  state (super c') = state (super c)
  /\ host_next_stream_id (super c') = host_next_stream_id (super c).

(** While packets of the type [k] are written: the packets written have
    types that [good] accepts and the packet under construction has the
    type [k]. *)
Definition typed (good : Z -> bool) (k : Z) (s : st_quicly_send_context_t) : Prop :=
  packet_type s = k
  /\ (forall p, In p (packets s) -> good (GET_TYPE_FROM_PACKET_HEADER (raw_header p)) = true)
  /\ (forall t, target s = Some t -> GET_TYPE_FROM_PACKET_HEADER (tg_header t) = k).

Definition typed_rel (good : Z -> bool) (k : Z) (cs cs' : send_state) : Prop :=
  same_side cs.1 cs'.1 /\ (typed good k cs.2 -> typed good k cs'.2).

Definition example_env : env :=
  Example.env 3000 (fun _ => false) (fun _ => true) (fun _ => true) None.

Definition example_conn : quicly_conn_t :=
  (quicly_connect example_env Example.ctx
     (create_connection example_env Example.ctx true)).2.

Lemma same_side_refl c : same_side c c.
Proof. split; reflexivity. Qed.

Lemma same_side_trans c1 c2 c3 : same_side c1 c2 -> same_side c2 c3 -> same_side c1 c3.
Proof. intros [H1 H2] [H3 H4]. split; congruence. Qed.

Lemma may_send_same_side c c' type : same_side c c' -> may_send c' type = may_send c type.
Proof.
  intros [Hstate Hnext]. unfold may_send, quicly_is_client, quicly_get_state.
  rewrite Hstate, Hnext. reflexivity.
Qed.

Section Typed.

Variable E : env.
Variable fuel : nat.
Variable good : Z -> bool.
Variable k : Z.
Hypothesis good_k : good k = true.
Hypothesis header_k :
  forall cid pn, GET_TYPE_FROM_PACKET_HEADER (emit_long_header k cid pn) = k.

Lemma typed_rel_refl cs : typed_rel good k cs cs.
Proof. split; [apply same_side_refl | intros H; exact H]. Qed.

Lemma typed_rel_trans cs1 cs2 cs3 :
  typed_rel good k cs1 cs2 -> typed_rel good k cs2 cs3 -> typed_rel good k cs1 cs3.
Proof.
  intros [Ha Hb] [Ha' Hb']. split; [eapply same_side_trans; eassumption | tauto].
Qed.

Lemma typed_rel_on_conn A (m : M quicly_conn_t A) :
  preserves same_side m -> preserves (typed_rel good k) (on_conn m).
Proof.
  intros Hm [c s]. specialize (Hm c). unfold typed_rel, on_conn. cbn [fst snd].
  destruct (m c) as [r c']. cbn [fst snd] in *. split; [exact Hm | intros H; exact H].
Qed.

Lemma typed_rel_push_item i size : preserves (typed_rel good k) (push_item i size).
Proof.
  intros [c s]. unfold typed_rel, typed, push_item, mbind, get_ctx, gets, modify_ctx,
    modify, abort. cbn [fst snd].
  destruct (target s) as [t|] eqn:Ht; cbn [fst snd packets target packet_type set_target];
    (split; [apply same_side_refl|]); [|rewrite Ht; intros H; exact H].
  intros (Hty & Hpackets & Htarget). split; [exact Hty|]. split; [exact Hpackets|].
  intros t' [= <-]. cbn [tg_header]. apply Htarget. reflexivity.
Qed.

Lemma typed_rel_commit_send_packet : preserves (typed_rel good k) (commit_send_packet E).
Proof.
  intros [c s]. unfold typed_rel, typed, commit_send_packet, mbind, get_ctx, gets, modify_ctx,
    modify, abort, on_conn. cbn [fst snd].
  destruct (target s) as [t|] eqn:Ht;
    cbn [fst snd packets target packet_type set_target set_packets];
    [|rewrite Ht; split; [apply same_side_refl | intros H; exact H]].
  split; [split; reflexivity|].
  intros (Hty & Hpackets & Htarget). split; [exact Hty|]. split.
  - intros p Hin. apply in_app_or in Hin. destruct Hin as [Hin|[<-|[]]].
    + apply Hpackets, Hin.
    + cbn [raw_header]. rewrite (Htarget t eq_refl). exact good_k.
  - intros t' Hnone. discriminate Hnone.
Qed.

Lemma typed_rel_start_packet : preserves (typed_rel good k) (start_packet E).
Proof.
  intros [c s]. unfold typed_rel, typed, start_packet, mbind, get_ctx, get_conn, gets,
    modify_ctx, modify, assert. cbn [fst snd].
  match goal with |- context [if ?b then _ else _] => destruct b end;
    unfold mret, abort; cbn [fst snd packets target packet_type set_target];
    (split; [apply same_side_refl|]);
    intros (Hty & Hpackets & Htarget); (split; [exact Hty|]); (split; [exact Hpackets|]);
    intros t' [= <-]; cbn [tg_header]; rewrite Hty; apply header_k.
Qed.

Lemma typed_rel_prepare_packet min_space :
  preserves (typed_rel good k) (prepare_packet E min_space).
Proof.
  assert (Hrefl := typed_rel_refl). assert (Htrans := typed_rel_trans).
  assert (Hctx : preserves (typed_rel good k) get_ctx)
    by (apply preserves_gets; exact Hrefl).
  assert (Hpush := typed_rel_push_item). assert (Hcommit := typed_rel_commit_send_packet).
  assert (Hstart := typed_rel_start_packet).
  unfold prepare_packet. pres.
Qed.

Local Ltac side_conditions :=
  first [ exact same_side_refl | exact same_side_trans | exact typed_rel_refl
        | exact typed_rel_trans | exact typed_rel_on_conn | exact typed_rel_push_item
        | exact typed_rel_prepare_packet
        | intros; apply same_side_refl
        | intros; split; reflexivity ].

Lemma send_ack_typed : preserves (typed_rel good k) (send_ack E fuel).
Proof. apply (send_ack_keeps E fuel same_side (typed_rel good k)); side_conditions. Qed.

Lemma send_stream_typed sid : preserves (typed_rel good k) (send_stream E fuel sid).
Proof. apply (send_stream_keeps E fuel same_side (typed_rel good k)); side_conditions. Qed.

Lemma send_streams_typed ids : preserves (typed_rel good k) (send_streams E fuel ids).
Proof. apply (send_streams_keeps E fuel same_side (typed_rel good k)); side_conditions. Qed.

Lemma send_max_data_frame_typed : preserves (typed_rel good k) (send_max_data_frame E).
Proof. apply (send_max_data_frame_keeps E same_side (typed_rel good k)); side_conditions. Qed.

Lemma commit_cleartext_packet_typed : preserves (typed_rel good k) (commit_cleartext_packet E).
Proof.
  assert (Hrefl := typed_rel_refl). assert (Htrans := typed_rel_trans).
  assert (Hctx : preserves (typed_rel good k) get_ctx)
    by (apply preserves_gets; exact Hrefl).
  assert (Hpush := typed_rel_push_item). assert (Hcommit := typed_rel_commit_send_packet).
  unfold commit_cleartext_packet. pres.
Qed.

(** The frames of one part of [quicly_send], once the packet type is
    set. *)
Lemma cleartext_frames_typed send_acks :
  preserves (typed_rel good k)
    ((if send_acks : bool then send_ack E fuel else mret tt) ;; send_stream E fuel 0).
Proof.
  assert (Hrefl := typed_rel_refl). assert (Htrans := typed_rel_trans).
  assert (Hack := send_ack_typed). assert (Hstream := send_stream_typed).
  pres.
Qed.

Lemma encrypted_frames_typed (update : quicly_conn_t -> bool) :
  preserves (typed_rel good k)
    (send_ack E fuel ;;
     let* c := get_conn in
     (if update c then send_max_data_frame E else mret tt) ;;
     let* c := get_conn in
     send_streams E fuel (map fst (map_to_list (streams c))) ;;
     let* s := get_ctx in
     match target s with
     | Some _ => commit_send_packet E
     | None => mret tt
     end).
Proof.
  assert (Hrefl := typed_rel_refl). assert (Htrans := typed_rel_trans).
  assert (Hconn : preserves (typed_rel good k) get_conn)
    by (apply preserves_gets; exact Hrefl).
  assert (Hctx : preserves (typed_rel good k) get_ctx)
    by (apply preserves_gets; exact Hrefl).
  assert (Hack := send_ack_typed). assert (Hstreams := send_streams_typed).
  assert (Hmax := send_max_data_frame_typed). assert (Hcommit := typed_rel_commit_send_packet).
  pres.
Qed.

End Typed.

Lemma commit_cleartext_packet_leaves_no_target E cs cs' :
  commit_cleartext_packet E cs = (Ok tt, cs') -> target cs'.2 = None.
Proof.
  destruct cs as [c s]. unfold commit_cleartext_packet.
  unfold mbind at 1. unfold get_ctx at 1. unfold gets at 1. cbn [fst snd].
  destruct (target s) as [t|] eqn:Ht; [|unfold mret; intros [= <-]; exact Ht].
  intros H. apply Run.mbind_run in H. destruct H as [[] [[c1 s1] [_ H]]]. revert H.
  unfold commit_send_packet, mbind, get_ctx, gets, modify_ctx, modify, abort, on_conn.
  cbn [fst snd]. destruct (target s1); [|discriminate]. intros [= <-]. reflexivity.
Qed.

Lemma handle_timeouts_same_side now c : same_side c (handle_timeouts now c).2.
Proof.
  apply (handle_timeouts_pres same_side);
    first [ exact same_side_refl | exact same_side_trans | intros; split; reflexivity ].
Qed.

Lemma send_packets_typed E fuel good c s :
  (forall type, may_send c type = true -> good type = true) ->
  (forall p, In p (packets s) -> good (GET_TYPE_FROM_PACKET_HEADER (raw_header p)) = true) ->
  target s = None ->
  forall p, In p (packets (send_packets E fuel (c, s)).2.2) ->
            good (GET_TYPE_FROM_PACKET_HEADER (raw_header p)) = true.
Proof.
  intros Hgood Hpackets Htarget.
  unfold send_packets, send_cleartext_frames.
  unfold mbind at 1. unfold mbind at 1. unfold get_conn at 1. unfold gets at 1.
  cbn [fst snd].
  set (k := if quicly_is_client c
            then if state_is_before_sh (quicly_get_state c)
                 then QUICLY_PACKET_TYPE_CLIENT_INITIAL
                 else QUICLY_PACKET_TYPE_CLIENT_CLEARTEXT
            else QUICLY_PACKET_TYPE_SERVER_CLEARTEXT).
  assert (Hk : good k = true).
  { apply Hgood. unfold may_send. subst k.
    destruct (quicly_is_client c); [destruct (state_is_before_sh (quicly_get_state c))|];
      reflexivity. }
  assert (Hheader : forall cid pn, GET_TYPE_FROM_PACKET_HEADER (emit_long_header k cid pn) = k).
  { intros cid pn. subst k.
    destruct (quicly_is_client c); [destruct (state_is_before_sh (quicly_get_state c))|];
      reflexivity. }
  unfold mbind at 1. unfold modify_ctx at 1. unfold modify at 1. cbn [fst snd].
  set (s0 := set_packet_type k None s).
  assert (H0 : typed good k s0).
  { split; [reflexivity|]. split; [exact Hpackets|].
    intros t Ht. cbn in Ht. rewrite Htarget in Ht. discriminate Ht. }
  match goal with
  | |- context [mbind (if ?b then _ else _) _ (c, s0)] =>
    pose proof (cleartext_frames_typed E fuel good k Hk Hheader b (c, s0)) as [Hside1 H1]
  end.
  specialize (H1 H0).
  match type of H1 with
  | typed _ _ (?m (c, s0)).2.2 => destruct (m (c, s0)) as [r1 [c1 s1]]
  end.
  cbn [fst snd] in *.
  destruct r1 as [[]| | |]; try (destruct H1 as (_ & H1 & _); exact H1).
  unfold mbind at 1.
  pose proof (commit_cleartext_packet_typed E good k Hk (c1, s1)) as [Hside2 H2].
  specialize (H2 H1).
  pose proof (commit_cleartext_packet_leaves_no_target E (c1, s1)) as Hnone.
  destruct (commit_cleartext_packet E (c1, s1)) as [r2 [c2 s2]]. cbn [fst snd] in *.
  destruct r2 as [[]| | |]; try (destruct H2 as (_ & H2 & _); exact H2).
  specialize (Hnone _ eq_refl). cbn [snd] in Hnone.
  unfold send_encrypted_frames. unfold mbind at 1. unfold get_conn at 1. unfold gets at 1.
  cbn [fst snd].
  destruct (state_is_1rtt (quicly_get_state c2)) eqn:H1rtt;
    [|destruct H2 as (_ & H2 & _); exact H2].
  unfold mbind at 1. unfold modify_ctx at 1. unfold modify at 1. cbn [fst snd].
  assert (H7 : good QUICLY_PACKET_TYPE_1RTT_KEY_PHASE_0 = true).
  { apply Hgood. unfold may_send.
    assert (Hside : same_side c c2) by (eapply same_side_trans; eassumption).
    destruct Hside as [Hstate _]. unfold quicly_get_state in *. rewrite <- Hstate, H1rtt.
    rewrite Z.eqb_refl. apply orb_true_r. }
  match goal with
  | |- context [(?m (c2, ?s3)).2.2] =>
    pose proof (encrypted_frames_typed E fuel good QUICLY_PACKET_TYPE_1RTT_KEY_PHASE_0 H7
                  (fun _ _ => eq_refl)
                  (fun c => quicly_maxsender_should_update (max_data_sender (ingress c))
                              (wrap64 (bytes_consumed (ingress c) / 1024))
                              (initial_max_data_kb (transport_params (ctx c))) 512)
                  (c2, s3)) as [_ H3]
  end.
  apply H3. split; [reflexivity|]. split; [destruct H2 as (_ & H2 & _); exact H2|].
  intros t Ht. cbn in Ht. rewrite Hnone in Ht. discriminate Ht.
Qed.

(** X13.  Every packet that [quicly_send] writes has a type the connection
    may send: a client writes CLIENT_INITIAL packets only before the
    ServerHello and CLIENT_CLEARTEXT packets after it, a server writes
    SERVER_CLEARTEXT packets, and 1-RTT packets are written only in the
    state [QUICLY_STATE_1RTT_ENCRYPTED]. *)
Theorem quicly_send_writes_the_types_of_its_side E fuel now capacity c p :
  In p (packets (quicly_send_run E fuel now capacity c).2.2) ->
  may_send c (GET_TYPE_FROM_PACKET_HEADER (raw_header p)) = true.
Proof.
  unfold quicly_send_run. pose proof (handle_timeouts_same_side now c) as Hside.
  destruct (handle_timeouts now c) as [[[]| | |] c1]; cbn [fst snd] in *;
    try (intros []).
  intros Hin. rewrite <- (may_send_same_side c c1 _ Hside).
  revert p Hin. apply send_packets_typed; [intros type H; exact H | intros p [] | reflexivity].
Qed.

(** The two packets of the client's first flight are CLIENT_INITIAL
    packets. *)
Lemma quicly_send_writes_the_types_of_its_side_witness :
  exists p1 p2,
    packets (quicly_send_run example_env 10 5 2 example_conn).2.2 = [p1; p2]
    /\ may_send example_conn (GET_TYPE_FROM_PACKET_HEADER (raw_header p1)) = true
    /\ GET_TYPE_FROM_PACKET_HEADER (raw_header p1) = QUICLY_PACKET_TYPE_CLIENT_INITIAL.
Proof.
  destruct (packets (quicly_send_run example_env 10 5 2 example_conn).2.2)
    as [|p1 [|p2 [|p3 l]]] eqn:Hpackets; try (vm_compute in Hpackets; discriminate Hpackets).
  exists p1, p2. split; [reflexivity|]. split.
  - apply (quicly_send_writes_the_types_of_its_side example_env 10 5 2 example_conn p1).
    rewrite Hpackets. left. reflexivity.
  - vm_compute in Hpackets. inversion Hpackets. reflexivity.
Defined.

End PacketTypes.

Module SendAck.

(** The book of what was sent is as it was. *)
Definition same_book (cs cs' : send_state) : Prop :=
  acks (egress cs'.1) = acks (egress cs.1).

Definition same_book_conn (c c' : quicly_conn_t) : Prop :=
  acks (egress c') = acks (egress c).

(** A server that has the packet 7 to acknowledge, and a send context with
    no room for a packet. *)
Definition example_env : env :=
  Example.env 0 (fun _ => false) (fun _ => true) (fun _ => true) None.

Definition example_conn : quicly_conn_t :=
  schedule_ack 7 (create_connection example_env Example.ctx false).

Definition example_state : send_state :=
  (example_conn,
   set_packet_type QUICLY_PACKET_TYPE_SERVER_CLEARTEXT None (send_context_init 5 0)).

Section Ack.

Variable E : env.
Variable fuel : nat.

Lemma same_book_trans cs1 cs2 cs3 : same_book cs1 cs2 -> same_book cs2 cs3 -> same_book cs1 cs3.
Proof. unfold same_book. congruence. Qed.

Lemma same_book_on_conn A (m : M quicly_conn_t A) :
  preserves same_book_conn m -> preserves same_book (on_conn m).
Proof.
  intros Hm [c s]. specialize (Hm c). unfold same_book, on_conn. cbn [fst snd].
  destruct (m c) as [r c']. exact Hm.
Qed.

Lemma same_book_push_item i size : preserves same_book (push_item i size).
Proof.
  intros [c s]. unfold same_book, push_item, mbind, get_ctx, gets, modify_ctx, modify, abort.
  cbn [fst snd]. destruct (target s); reflexivity.
Qed.

Lemma same_book_commit_send_packet : preserves same_book (commit_send_packet E).
Proof.
  intros [c s]. unfold same_book, commit_send_packet, mbind, get_ctx, gets, modify_ctx,
    modify, abort, on_conn. cbn [fst snd]. destruct (target s); reflexivity.
Qed.

Lemma same_book_start_packet : preserves same_book (start_packet E).
Proof.
  intros [c s]. unfold same_book, start_packet, mbind, get_ctx, get_conn, gets, modify_ctx,
    modify, assert. cbn [fst snd].
  match goal with |- context [if ?b then _ else _] => destruct b end; reflexivity.
Qed.

Lemma same_book_prepare_packet min_space : preserves same_book (prepare_packet E min_space).
Proof.
  assert (Hrefl : forall cs, same_book cs cs) by reflexivity.
  assert (Htrans := same_book_trans).
  assert (Hctx : preserves same_book get_ctx) by (apply preserves_gets; exact Hrefl).
  assert (Hpush := same_book_push_item). assert (Hcommit := same_book_commit_send_packet).
  assert (Hstart := same_book_start_packet).
  unfold prepare_packet. pres.
Qed.

Lemma send_ack_same_book : preserves same_book (send_ack E fuel).
Proof.
  apply (send_ack_keeps E fuel same_book_conn same_book);
    first [ exact same_book_trans | exact same_book_on_conn | exact same_book_push_item
          | exact same_book_prepare_packet
          | unfold same_book_conn; intros; congruence
          | intros; reflexivity ].
Qed.

(** X14.  ACK frames are sent once.  [send_ack] registers nothing in the book
    of what was sent, so nothing makes it send an ACK frame again; and
    when it returns 0 the queue of the packets to acknowledge is empty,
    whether or not there was room to write an ACK frame. *)
Theorem send_ack_forgets_what_it_sent cs :
  acks (egress (send_ack E fuel cs).2.1) = acks (egress cs.1)
  /\ ((send_ack E fuel cs).1 = Ok tt -> ack_queue (ingress (send_ack E fuel cs).2.1) = []).
Proof.
  split; [apply send_ack_same_book|].
  destruct cs as [c s]. unfold send_ack. unfold mbind at 1 3. unfold get_conn at 1 2.
  unfold gets at 1 2. cbn [fst snd].
  destruct (ack_queue (ingress c)) as [|r rs] eqn:Hqueue; [intros _; exact Hqueue|].
  unfold mbind.
  destruct (send_ack_loop E fuel (length (r :: rs) - 1) (c, s)) as [[[]| | |] [c1 s1]];
    cbn [fst snd]; try discriminate.
  intros _. reflexivity.
Qed.

End Ack.

(** With no room for a packet, the packet 7 is no longer to be
    acknowledged after [send_ack], and nothing was written. *)
Lemma send_ack_forgets_what_it_sent_witness :
  ack_queue (ingress example_state.1) = [(7, 8)]
  /\ ack_queue (ingress (send_ack example_env 5 example_state).2.1) = []
  /\ packets (send_ack example_env 5 example_state).2.2 = []
  /\ target (send_ack example_env 5 example_state).2.2 = None.
Proof.
  destruct (send_ack_forgets_what_it_sent example_env 5 example_state) as [_ Hqueue].
  split; [reflexivity|]. split; [apply Hqueue; vm_compute; reflexivity|].
  split; vm_compute; reflexivity.
Defined.

End SendAck.

(** * STREAM frames that bring nothing new *)

Module Retransmission.

Definition example_env : env :=
  Example.env 0 (fun _ => false) (fun _ => true) (fun _ => true) None.

(** A server on which the peer's stream 1 has received ten octets, which
    the host has consumed. *)
Definition example_conn : quicly_conn_t :=
  run_trace example_env 5
    [api_receive (AckScheduling.cleartext_packet ([0xc0; 1] ++ replicate 10 7));
     api_recvbuf_shift 1 10]
    (create_connection example_env Example.ctx false).

(** The first four of these octets, sent again. *)
Definition example_frame : quicly_stream_frame_t :=
  {| sf_stream_id := 1; sf_is_fin := false; sf_offset := 0; sf_data := replicate 4 7 |}.

(** X15.  A STREAM frame without FIN whose octets all lie below what the
    host has consumed from the stream is dropped: [handle_stream_frame]
    returns 0, the connection is unchanged and the callback of the stream
    is not run. *)
Theorem consumed_stream_data_is_dropped E fuel frame c s :
  quicly_get_stream c (sf_stream_id frame) = Some s ->
  sf_is_fin frame = false ->
  sf_offset frame < rb_data_off (recvbuf s) ->
  wrap64 (sf_offset frame + Z.of_nat (length (sf_data frame))) <= rb_data_off (recvbuf s) ->
  handle_stream_frame E fuel frame c = (Ok tt, c).
Proof.
  intros Hs Hfin Hoff Hend. unfold handle_stream_frame.
  unfold mbind at 1. unfold get_stream_or_open_if_new, mbind, get. cbn [fst snd].
  rewrite Hs. unfold mret at 1. unfold apply_stream_frame. rewrite Hfin.
  unfold mbind at 1. unfold mret at 1. unfold do_apply_stream_frame.
  unfold mbind at 1. unfold stream_ptr, mbind, get. cbn [fst snd].
  unfold quicly_get_stream in Hs. rewrite Hs. unfold mret at 1.
  replace (sf_offset frame <? rb_data_off (recvbuf s)) with true
    by (symmetry; apply Z.ltb_lt; exact Hoff).
  replace (wrap64 (sf_offset frame + Z.of_nat (length (sf_data frame)))
           <=? rb_data_off (recvbuf s)) with true
    by (symmetry; apply Z.leb_le; exact Hend).
  reflexivity.
Qed.

Lemma consumed_stream_data_is_dropped_witness :
  (rb_data_off ∘ recvbuf <$> quicly_get_stream example_conn 1) = Some 10
  /\ handle_stream_frame example_env 5 example_frame example_conn = (Ok tt, example_conn).
Proof.
  destruct (quicly_get_stream example_conn 1) as [s|] eqn:Hs;
    [|vm_compute in Hs; discriminate Hs].
  assert (Hoff : rb_data_off (recvbuf s) = 10)
    by (vm_compute in Hs; inversion Hs; reflexivity).
  split; [cbn; rewrite Hoff; reflexivity|].
  apply (consumed_stream_data_is_dropped example_env 5 example_frame example_conn s);
    [exact Hs | reflexivity | rewrite Hoff; reflexivity | rewrite Hoff; vm_compute; discriminate].
Defined.

End Retransmission.

(** * Streams opened by the peer *)

Module PeerStreams.

(** The stream that [open_stream] makes, once the host's callback has set
    its handler. *)
Definition accepted_stream (E : env) (handler : nat) (c : quicly_conn_t) (id : Z)
  : quicly_stream_t :=
  set_on_update (Some (app_update_cb handler)) (new_stream E c id).

(** The ids from [next] up to [sid], two by two. *)
Definition opened_by (next sid id : Z) : bool :=
  (next <=? id) && (id <=? sid) && ((id - next) mod 2 =? 0).

Section Open.

Variable E : env.
Variable handler : nat.

(** The host accepts every stream, and its callback does no more than
    setting the handler of the stream. *)
Hypothesis host_accepts :
  forall id c, on_stream_open E id c = ([do_set_on_update id handler], None).

(** One round of the loop. *)
Lemma open_peer_stream_run c :
  open_peer_stream E c
  = (Ok (peer_next_stream_id (super c)),
     peer_stream_opened
       (put_stream (peer_next_stream_id (super c))
          (accepted_stream E handler c (peer_next_stream_id (super c)))
          (put_stream (peer_next_stream_id (super c))
             (new_stream E c (peer_next_stream_id (super c))) c))).
Proof.
  unfold open_peer_stream. unfold mbind at 1. unfold get at 1. cbv beta iota.
  unfold mbind at 1. unfold open_stream at 1, modify at 1. cbv beta iota.
  unfold mbind at 1. unfold call_on_stream_open at 1.
  unfold mbind at 1. unfold get at 1. cbv beta iota. rewrite host_accepts.
  cbn [run_app_actions run_app_action]. unfold update_stream, stream_ptr.
  unfold mbind, get, modify, mret, ret_of. cbn.
  rewrite !lookup_insert. rewrite !decide_True by reflexivity. cbn.
  rewrite !lookup_insert. rewrite !decide_True by reflexivity. cbn.
  reflexivity.
Qed.

(** What a new stream is made from is not touched by opening streams. *)
Lemma new_stream_after_open c id sid s s' :
  new_stream E (peer_stream_opened (put_stream sid s (put_stream sid s' c))) id
  = new_stream E c id.
Proof. reflexivity. Qed.

Lemma opened_by_first next sid id :
  next <= sid -> (sid - next) mod 2 = 0 ->
  opened_by next sid id = (id =? next) || opened_by (next + 2) sid id.
Proof.
  intros Hle Hpar. unfold opened_by.
  destruct (id =? next) eqn:Hid.
  - apply Z.eqb_eq in Hid. subst id. rewrite Z.sub_diag. cbn [orb].
    rewrite Z.leb_refl. replace (next <=? sid) with true by (symmetry; apply Z.leb_le; lia).
    reflexivity.
  - apply Z.eqb_neq in Hid. cbn [orb].
    replace ((id - (next + 2)) mod 2) with ((id - next) mod 2)
      by (replace (id - (next + 2)) with (id - next + (-1) * 2) by lia;
          symmetry; apply Z_mod_plus_full).
    destruct ((id - next) mod 2 =? 0) eqn:Hmod; [|rewrite !andb_false_r; reflexivity].
    apply Z.eqb_eq in Hmod. rewrite !andb_true_r.
    destruct (Z.leb_spec next id), (Z.leb_spec (next + 2) id); try reflexivity;
      Z.div_mod_to_equations; lia.
Qed.

(** The loop opens the streams from the next id of the peer up to [sid]. *)
Lemma open_peer_streams_run fuel : forall c0 c sid,
  (forall id, new_stream E c id = new_stream E c0 id) ->
  0 <= peer_next_stream_id (super c) <= sid -> sid < 2 ^ 32 ->
  (sid - peer_next_stream_id (super c)) mod 2 = 0 ->
  (sid - peer_next_stream_id (super c)) / 2 < Z.of_nat fuel ->
  exists c', open_peer_streams E fuel sid c = (Ok tt, c')
    /\ peer_next_stream_id (super c') = wrap32 (sid + 2)
    /\ forall id, streams c' !! id
                  = if opened_by (peer_next_stream_id (super c)) sid id
                    then Some (accepted_stream E handler c0 id)
                    else streams c !! id.
Proof.
  induction fuel as [|fuel IH]; intros c0 c sid Hnew Hn Hsid Hpar Hfuel.
  - exfalso. assert (0 <= (sid - peer_next_stream_id (super c)) / 2)
      by (apply Z.div_pos; lia). lia.
  - cbn [open_peer_streams]. unfold mbind at 1. rewrite open_peer_stream_run.
    set (n := peer_next_stream_id (super c)) in *.
    set (c1 := peer_stream_opened _).
    assert (Hc1 : forall id, streams c1 !! id
                    = if id =? n then Some (accepted_stream E handler c0 n)
                      else streams c !! id).
    { intros id. subst c1. cbn.
      destruct (id =? n) eqn:Hid.
      - apply Z.eqb_eq in Hid. subst id. rewrite lookup_insert.
        rewrite decide_True by reflexivity.
        unfold accepted_stream. rewrite Hnew. reflexivity.
      - apply Z.eqb_neq in Hid. rewrite !lookup_insert_ne by congruence. reflexivity. }
    destruct (sid =? n) eqn:Hlast.
    + apply Z.eqb_eq in Hlast. exists c1. split; [reflexivity|]. split.
      * subst c1. cbn. fold n. rewrite Hlast. reflexivity.
      * intros id. rewrite Hc1. rewrite (opened_by_first n sid id) by lia.
        destruct (id =? n) eqn:Hid; [apply Z.eqb_eq in Hid; subst id; reflexivity|].
        cbn [orb]. unfold opened_by.
        replace (id <=? sid) with (id <=? n) by (rewrite Hlast; reflexivity).
        destruct (Z.leb_spec (n + 2) id), (Z.leb_spec id n); try reflexivity; lia.
    + apply Z.eqb_neq in Hlast.
      assert (Hstep : n + 2 <= sid).
      { assert (Hp : (sid - n) mod 2 = 0) by exact Hpar. Z.div_mod_to_equations. lia. }
      assert (Hnext : peer_next_stream_id (super c1) = n + 2).
      { subst c1. cbn. fold n. unfold wrap32. apply Z.mod_small. lia. }
      destruct (IH c0 c1 sid) as (c' & Hrun & Hnext' & Hstreams).
      * intros id. subst c1. rewrite new_stream_after_open. apply Hnew.
      * rewrite Hnext. lia.
      * exact Hsid.
      * rewrite Hnext. replace (sid - (n + 2)) with (sid - n + (-1) * 2) by lia.
        rewrite Z_mod_plus_full. exact Hpar.
      * rewrite Hnext. replace (sid - (n + 2)) with (sid - n + (-1) * 2) by lia.
        rewrite Z.div_add by lia. lia.
      * exists c'. split; [exact Hrun|]. split; [exact Hnext'|].
        intros id. rewrite Hstreams, Hnext, Hc1.
        rewrite (opened_by_first n sid id) by lia.
        destruct (id =? n) eqn:Hid.
        -- apply Z.eqb_eq in Hid. subst id. cbn [orb].
           unfold opened_by. replace (n + 2 <=? n) with false by (symmetry; apply Z.leb_gt; lia).
           reflexivity.
        -- reflexivity.
Qed.

(** X16.  With a host whose callback accepts every stream, a frame for a
    stream of the peer that is not open yet, with an id of the parity of
    the next one expected and not below it, opens every stream of the peer
    from the next id up to that of the frame, with the settings of a new
    stream and the handler the host installs; the streams that were open
    are as they were, and the next id expected is two above that of the
    frame, or 0 when the 32-bit ids are used up. *)
Theorem frame_for_a_later_stream_opens_those_before fuel c sid :
  quicly_get_stream c sid = None ->
  sid mod 2 <> Z.b2z (quicly_is_client c) ->
  0 < peer_next_stream_id (super c) <= sid -> sid < 2 ^ 32 ->
  (sid - peer_next_stream_id (super c)) mod 2 = 0 ->
  (sid - peer_next_stream_id (super c)) / 2 < Z.of_nat fuel ->
  (get_stream_or_open_if_new E fuel sid c).1 = Ok (Some sid)
  /\ (forall id,
        quicly_get_stream (get_stream_or_open_if_new E fuel sid c).2 id
        = if opened_by (peer_next_stream_id (super c)) sid id
          then Some (accepted_stream E handler c id)
          else quicly_get_stream c id)
  /\ peer_next_stream_id (super (get_stream_or_open_if_new E fuel sid c).2)
     = (if sid + 2 <? 2 ^ 32 then sid + 2 else 0).
Proof.
  intros Hnone Hside Hn Hsid Hpar Hfuel.
  destruct (open_peer_streams_run fuel c c sid) as (c' & Hrun & Hnext & Hstreams);
    [reflexivity | lia | exact Hsid | exact Hpar | exact Hfuel |].
  assert (Hget : get_stream_or_open_if_new E fuel sid c
                 = (Ok (Some sid), peer_streams_exhausted c')).
  { unfold get_stream_or_open_if_new. unfold mbind at 1. unfold get at 1. cbv beta iota.
    unfold quicly_get_stream in Hnone. unfold quicly_get_stream. rewrite Hnone.
    replace (negb (sid mod 2 =? Z.b2z (quicly_is_client c))) with true
      by (symmetry; apply negb_true_iff, Z.eqb_neq; exact Hside).
    replace (negb (peer_next_stream_id (super c) =? 0)) with true
      by (symmetry; apply negb_true_iff, Z.eqb_neq; lia).
    replace (peer_next_stream_id (super c) <=? sid) with true
      by (symmetry; apply Z.leb_le; lia).
    cbn [andb]. unfold mbind at 1. rewrite Hrun. reflexivity. }
  rewrite Hget. cbn [fst snd].
  split; [reflexivity|]. split.
  - intros id. unfold quicly_get_stream. rewrite <- Hstreams.
    unfold peer_streams_exhausted, with_super.
    destruct (peer_next_stream_id (super c') <? 2); reflexivity.
  - unfold peer_streams_exhausted, with_super. cbn [super].
    assert (Hwrap : wrap32 (sid + 2) = if sid + 2 <? 2 ^ 32 then sid + 2 else sid + 2 - 2 ^ 32).
    { unfold wrap32. destruct (Z.ltb_spec (sid + 2) (2 ^ 32)).
      - apply Z.mod_small. lia.
      - symmetry. apply Z.mod_unique with 1; lia. }
    destruct (Z.ltb_spec (peer_next_stream_id (super c')) 2) as [Hlow|Hhigh];
      rewrite Hnext, Hwrap in *; cbn [peer_next_stream_id set_peer];
      destruct (Z.ltb_spec (sid + 2) (2 ^ 32)); try reflexivity; try lia.
Qed.

End Open.


(** A server that has completed no handshake yet, and a host whose callback
    sets handler 0. *)
Definition example_env : env :=
  Example.env 0 (fun _ => false) (fun _ => true) (fun _ => true) None.

Definition example_conn : quicly_conn_t := create_connection example_env Example.ctx false.

Lemma frame_for_a_later_stream_opens_those_before_witness :
  (quicly_get_stream (get_stream_or_open_if_new example_env 3 5 example_conn).2 3
   = Some (accepted_stream example_env 0 example_conn 3))
  /\ peer_next_stream_id (super (get_stream_or_open_if_new example_env 3 5 example_conn).2) = 7.
Proof.
  destruct (frame_for_a_later_stream_opens_those_before example_env 0
              (fun _ _ => eq_refl) 3%nat example_conn 5) as (_ & Hstreams & Hnext);
    [reflexivity | vm_compute; discriminate | vm_compute; split; [reflexivity | discriminate]
    | reflexivity | reflexivity | reflexivity |].
  split; [exact (Hstreams 3) | exact Hnext].
Defined.

End PeerStreams.
